(** * todo-wo-tracker: due dates, buckets, ordering, staged edits

    A shallow embedding of the date and priority logic of the tracker
    (the TodoList component with stable due dates, and the WOList
    component with derived urgency), with the properties of its
    specification stated and proved over the embedding.

    Conventions of the embedding.
    - A JavaScript [Date] is read through its local wall-clock fields only
      (getFullYear, getMonth, getDate, getDay, setHours, setDate), so it is
      modelled as a local calendar day number plus the milliseconds elapsed
      since local midnight.  The calendar is the proleptic Gregorian one
      that ECMAScript prescribes; day 0 is 1970-01-01, a Thursday.
    - Strings are [string]; a character is read as its Latin-1 code point.
    - [null] and [undefined] of an optional field are [None].
    - Built-ins whose full definition is outside the repository and is
      not needed in closed form ([Number] on strings, [String] on parsed
      JSON, [crypto.randomUUID]) are parameters of the functions that call
      them. *)

From Stdlib Require Import ZArith String Ascii List Lia Bool QArith Qround.
From Stdlib Require Import DecimalString DecimalPos DecimalZ Sorted Permutation.
From stdpp Require Import gmap strings list.
From Equations Require Import Equations.

Set Warnings "-register-all".

Open Scope string_scope.
Open Scope list_scope.
Open Scope Z_scope.

(* ================================================================= *)
(** * Part I: the embedding *)
(* ================================================================= *)

(** ** Strings of the JavaScript runtime *)

Module Js.

(** [String(n)] for an integral number. *)
Definition String_of_Z (n : Z) : string :=
  NilZero.string_of_int (Z.to_int n).

Fixpoint repeat_char (c : ascii) (n : nat) : string :=
  match n with
  | O => EmptyString
  | S k => String c (repeat_char c k)
  end.

(** [s.padStart(n, c)] for a one-character filler. *)
Definition padStart (n : nat) (c : ascii) (s : string) : string :=
  repeat_char c (n - String.length s) +:+ s.

(** [s.slice(-n)]: the last [n] characters, the whole string when it is
    shorter. *)
Definition slice_last (n : nat) (s : string) : string :=
  substring (String.length s - n) n s.

(** [s.slice(n)] for [n >= 0]. *)
Definition slice_from (n : nat) (s : string) : string :=
  substring n (String.length s - n) s.

(** [s.startsWith(p)]. *)
Definition startsWith (p s : string) : bool := String.prefix p s.

(** [s.split(c)] for a one-character separator: never empty. *)
Fixpoint split (c : ascii) (s : string) : list string :=
  match s with
  | EmptyString => [EmptyString]
  | String a rest =>
      if Ascii.eqb a c then EmptyString :: split c rest
      else match split c rest with
           | h :: t => String a h :: t
           | [] => [String a EmptyString]
           end
  end.

(** White space of [String.prototype.trim] within Latin-1: TAB, LF, VT,
    FF, CR, SP and NBSP. *)
Definition is_space (a : ascii) : bool :=
  let n := N_of_ascii a in
  ((9 <=? n) && (n <=? 13) || (n =? 32) || (n =? 160))%N.

Fixpoint trimStart (s : string) : string :=
  match s with
  | EmptyString => EmptyString
  | String a rest => if is_space a then trimStart rest else s
  end.

Fixpoint trimEnd (s : string) : string :=
  match s with
  | EmptyString => EmptyString
  | String a rest =>
      match trimEnd rest with
      | EmptyString => if is_space a then EmptyString else String a EmptyString
      | r => String a r
      end
  end.

Definition trim (s : string) : string := trimEnd (trimStart s).

(** The regular-expression class [\d]. *)
Definition is_digit (a : ascii) : bool :=
  let n := N_of_ascii a in ((48 <=? n) && (n <=? 57))%N.

Fixpoint all_digits (s : string) : bool :=
  match s with
  | EmptyString => true
  | String a rest => is_digit a && all_digits rest
  end.

(** [parseInt(s, 10)] on a string of decimal digits (the only use in the
    sources is on a regular-expression group matched by [\d{m,n}]). *)
Fixpoint parse_digits (acc : Z) (s : string) : Z :=
  match s with
  | EmptyString => acc
  | String a rest => parse_digits (10 * acc + (Z.of_N (N_of_ascii a) - 48)) rest
  end.

Definition parseInt10 (s : string) : Z := parse_digits 0 s.

(** An optional string is falsy when it is absent or empty. *)
Definition falsy_str (o : option string) : bool :=
  match o with
  | None => true
  | Some s => String.eqb s EmptyString
  end.

(** [l.indexOf(x)]: the first position of [x], -1 when absent. *)
Fixpoint indexOf (x : string) (l : list string) : Z :=
  match l with
  | [] => -1
  | y :: rest =>
      if String.eqb y x then 0
      else let i := indexOf x rest in if i <? 0 then -1 else i + 1
  end.

End Js.

(** ** Dates *)

(** The calendar fields that [getFullYear], [getMonth] and [getDate] read:
    Gregorian year, month (1..12) and day of month of a day number. *)
Definition civil_from_days (z : Z) : Z * Z * Z :=
  let z0 := z + 719468 in
  let era := z0 / 146097 in
  let doe := z0 mod 146097 in
  let yoe := (doe - doe / 1460 + doe / 36524 - doe / 146096) / 365 in
  let doy := doe - (365 * yoe + yoe / 4 - yoe / 100) in
  let mp := (5 * doy + 2) / 153 in
  let d := doy - (153 * mp + 2) / 5 + 1 in
  let m := if mp <? 10 then mp + 3 else mp - 9 in
  let y := yoe + era * 400 in
  (if m <=? 2 then y + 1 else y, m, d).

(** Day number of a Gregorian year, month (1..12) and day of month (the
    day that [MakeDay] of [Date.UTC] finds). *)
Definition days_from_civil (y m d : Z) : Z :=
  let y' := if m <=? 2 then y - 1 else y in
  let era := y' / 400 in
  let yoe := y' mod 400 in
  let mp := if 2 <? m then m - 3 else m + 9 in
  let doy := (153 * mp + 2) / 5 + d - 1 in
  let doe := yoe * 365 + yoe / 4 - yoe / 100 + doy in
  era * 146097 + doe - 719468.

Record Date := mkDate {
  dayNumber : Z;  (* local calendar day, 0 = 1970-01-01 *)
  msOfDay : Z     (* milliseconds since local midnight *)
}.

Definition getFullYear (d : Date) : Z := fst (fst (civil_from_days (dayNumber d))).
Definition getMonth (d : Date) : Z := snd (fst (civil_from_days (dayNumber d))) - 1.
Definition getDate (d : Date) : Z := snd (civil_from_days (dayNumber d)).
(** 0 Sun .. 6 Sat *)
Definition getDay (d : Date) : Z := (dayNumber d + 4) mod 7.

Definition startOfDay (d : Date) : Date := mkDate (dayNumber d) 0.

Definition addDays (d : Date) (n : Z) : Date := mkDate (dayNumber d + n) (msOfDay d).

Definition pad2 (n : Z) : string := Js.padStart 2 "0" (Js.String_of_Z n).

Definition toISODate (d : Date) : string :=
  Js.String_of_Z (getFullYear d) +:+ "-" +:+ pad2 (getMonth d + 1) +:+ "-" +:+ pad2 (getDate d).

Definition fmtMDY (d : Date) : string :=
  pad2 (getMonth d + 1) +:+ "/" +:+ pad2 (getDate d) +:+ "/"
    +:+ Js.slice_last 2 (Js.String_of_Z (getFullYear d)).

(** [toLocaleDateString(undefined, { weekday: "long" })] in the English
    locale that the fixed group order of the component assumes. *)
Definition weekdayName (d : Date) : string :=
  match getDay d with
  | 0 => "Sunday"
  | 1 => "Monday"
  | 2 => "Tuesday"
  | 3 => "Wednesday"
  | 4 => "Thursday"
  | 5 => "Friday"
  | _ => "Saturday"
  end.

(** [(1 + 7 - dow) % 7 || 1] *)
Definition nextMondayFrom (d : Date) : Date :=
  let dow := getDay d in
  let r := Z.rem (1 + 7 - dow) 7 in
  let daysUntilMon := if r =? 0 then 1 else r in
  addDays d daysUntilMon.

(** The date at local midnight of a day number. *)
Definition dateOfDay (n : Z) : Date := mkDate n 0.

Definition isoOfDay (n : Z) : string := toISODate (dateOfDay n).

(** ** [Array.prototype.sort] *)

(** [Array.prototype.sort] is stable, and for a consistent comparator its
    result is the stable sorted arrangement of the array; insertion from
    the right computes that arrangement. *)
Section JsSort.
Context {A : Type} (cmp : A -> A -> Z).

Fixpoint sort_insert (x : A) (l : list A) : list A :=
  match l with
  | [] => [x]
  | y :: l' => if cmp x y <=? 0 then x :: y :: l' else y :: sort_insert x l'
  end.

Fixpoint js_sort (l : list A) : list A :=
  match l with
  | [] => []
  | x :: l' => sort_insert x (js_sort l')
  end.
End JsSort.

(** ** The TodoList component (stable due dates, staged edits) *)

Module TodoList.

Record Task := mkTask {
  id : string;
  text : string;
  done : bool;
  priority : string;                (* "low" | "medium" | "high" *)
  dueKey : option string;           (* "today" | "tomorrow" | "next-mon" | "wd-YYYY-MM-DD" *)
  dueISO : option string;           (* local "YYYY-MM-DD" *)
  pendingDueKey : option string;
  pendingDueISO : option string;
  dueLabel : option string;
  notes : string;
  expanded : bool
}.

(** A value read from the object [priorityRank]: one of its three
    numbers, or a member that the object inherits from
    [Object.prototype], which its property name identifies. *)
Inductive RankValue :=
| RankNum (n : Z)
| RankMember (name : string).

(** The property names of [Object.prototype]. *)
Definition objectPrototypeNames : list string :=
  ["constructor"; "__defineGetter__"; "__defineSetter__"; "hasOwnProperty";
   "__lookupGetter__"; "__lookupSetter__"; "isPrototypeOf"; "propertyIsEnumerable";
   "toString"; "valueOf"; "__proto__"; "toLocaleString"].

(** [priorityRank[p]]: an own number for the three tiers, an inherited
    member for a name of [Object.prototype], and otherwise [undefined]. *)
Definition priorityRank (p : string) : option RankValue :=
  if String.eqb p "high" then Some (RankNum 0)
  else if String.eqb p "medium" then Some (RankNum 1)
  else if String.eqb p "low" then Some (RankNum 2)
  else if existsb (String.eqb p) objectPrototypeNames then Some (RankMember p)
  else None.

(** [priorityRank[t.priority] ?? 99] *)
Definition rankOf (t : Task) : RankValue :=
  default (RankNum 99) (priorityRank (priority t)).

(** [pa !== pb] *)
Definition rankDiffers (pa pb : RankValue) : bool :=
  match pa, pb with
  | RankNum x, RankNum y => negb (x =? y)
  | RankMember n, RankMember k => negb (String.eqb n k)
  | _, _ => true
  end.

(** [pa - pb]: NaN unless both are numbers, and a sort reads a
    comparator result of NaN as 0. *)
Definition rankMinus (pa pb : RankValue) : Z :=
  match pa, pb with
  | RankNum x, RankNum y => x - y
  | _, _ => 0
  end.

Definition indexOf (indexMap : gmap string nat) (t : Task) : Z :=
  Z.of_nat (default 0%nat (indexMap !! id t)).

Definition comparePriority (indexMap : gmap string nat) (a b : Task) : Z :=
  let pa := rankOf a in
  let pb := rankOf b in
  if rankDiffers pa pb then rankMinus pa pb
  else indexOf indexMap a - indexOf indexMap b.

(** [[...items].sort(...)].  The comparator is consistent when no
    priority is a property name of [Object.prototype]; with such a
    priority it yields NaN against every other rank, and the order that
    [sort] then produces is left to the implementation. *)
Definition sortByPriorityStable (items : list Task) (indexMap : gmap string nat) : list Task :=
  js_sort (comparePriority indexMap) items.

(** [tasks.forEach((t, i) => indexMap.set(t.id, i))], started at index [i]. *)
Fixpoint setIndexes (i : nat) (tasks : list Task) (indexMap : gmap string nat)
  : gmap string nat :=
  match tasks with
  | [] => indexMap
  | t :: rest => setIndexes (S i) rest (<[id t := i]> indexMap)
  end.

Definition buildIndexMap (tasks : list Task) : gmap string nat :=
  setIndexes 0 tasks ∅.

Definition computeKeyForISO (iso : option string) (now : Date) : string :=
  if Js.falsy_str iso then "today"
  else
    let iso := default "" iso in
    let today := startOfDay now in
    let todayISO := toISODate today in
    let tomorrowISO := toISODate (addDays today 1) in
    let nextMonISO := toISODate (nextMondayFrom today) in
    if String.eqb iso todayISO then "today"
    else if String.eqb iso tomorrowISO then "tomorrow"
    else if String.eqb iso nextMonISO then "next-mon"
    else "wd-" +:+ iso.

Record DueOption := mkOpt { key : string; label : string; iso : string }.

Definition deriveDueFromKey (k : string) (now : Date) : string * string :=
  let today := startOfDay now in
  if String.eqb k "today" then (k, toISODate today)
  else if String.eqb k "tomorrow" then (k, toISODate (addDays today 1))
  else if String.eqb k "next-mon" then (k, toISODate (nextMondayFrom today))
  else if Js.startsWith "wd-" k then (k, Js.slice_from 3 k)
  else ("today", toISODate today).

Definition todayOption (today : Date) : DueOption :=
  {| key := "today";
     label := "Today (" +:+ fmtMDY today +:+ ")";
     iso := toISODate today |}.

Definition tomorrowOption (tomorrow : Date) : DueOption :=
  {| key := "tomorrow";
     label := "Tomorrow (" +:+ fmtMDY tomorrow +:+ ")";
     iso := toISODate tomorrow |}.

Definition nextMonOption (nextMon : Date) : DueOption :=
  {| key := "next-mon";
     label := "Next Monday (" +:+ fmtMDY nextMon +:+ ")";
     iso := toISODate nextMon |}.

Definition weekdayOption (cursor : Date) : DueOption :=
  {| key := "wd-" +:+ toISODate cursor;
     label := weekdayName cursor +:+ " (" +:+ fmtMDY cursor +:+ ")";
     iso := toISODate cursor |}.

(** [while (cursor.getDay() <= 5) { options.push(...); cursor = addDays(cursor, 1) }]:
    every pass moves the cursor one weekday closer to Saturday. *)
Equations weekdayLoop (cursor : Date) (options : list DueOption) : list DueOption
  by wf (Z.to_nat (6 - getDay cursor)) lt :=
  weekdayLoop cursor options with Z_le_dec (getDay cursor) 5 := {
    | left _ => weekdayLoop (addDays cursor 1) (options ++ [weekdayOption cursor]);
    | right _ => options }.
Next Obligation.
  unfold getDay, addDays in *; simpl.
  assert (0 <= (dayNumber cursor + 4) mod 7 < 7) by (apply Z.mod_pos_bound; lia).
  replace (dayNumber cursor + 1 + 4) with ((dayNumber cursor + 4) + 1) by lia.
  rewrite Z.add_mod by lia.
  change (1 mod 7) with 1.
  rewrite (Z.mod_small ((dayNumber cursor + 4) mod 7 + 1)) by lia.
  lia.
Defined.

Definition buildDueOptions (now : Date) : list DueOption :=
  let today := startOfDay now in
  let dow := getDay today in
  let options := [todayOption today] in
  if (dow =? 5) || (dow =? 6) || (dow =? 0) then
    options ++ [nextMonOption (nextMondayFrom today)]
  else
    let tomorrow := addDays today 1 in
    let options := options ++ [tomorrowOption tomorrow] in
    let options := weekdayLoop (addDays today 2) options in
    options ++ [nextMonOption (nextMondayFrom today)].

(** [opts.find((o) => o.key === k) || opts[0]]; the list always starts
    with the option for today. *)
Definition findOption (k : string) (now : Date) : DueOption :=
  let opts := buildDueOptions now in
  match List.find (fun o => String.eqb (key o) k) opts with
  | Some o => o
  | None => List.hd (todayOption (startOfDay now)) opts
  end.

Section Grouping.
(** [new Date(text)]; [None] is the invalid date. *)
Variable DateParse : string -> option Date.

Definition computeGroupLabelForISO (iso : option string) (now : Date) : string :=
  if Js.falsy_str iso then "No Date"
  else
    let iso := default "" iso in
    let today := startOfDay now in
    let todayISO := toISODate today in
    let tomorrowISO := toISODate (addDays today 1) in
    if String.eqb iso todayISO then "Today"
    else if String.eqb iso tomorrowISO then "Tomorrow"
    else
      let nmISO := toISODate (nextMondayFrom today) in
      if String.eqb iso nmISO then "Next Monday"
      else match DateParse (iso +:+ "T00:00:00") with
           | Some dt => weekdayName dt
           | None => "Invalid Date"
           end.

(** [computeGroupLabelForISO(t.dueISO) || "No Date"] *)
Definition groupLabel (now : Date) (t : Task) : string :=
  let k := computeGroupLabelForISO (dueISO t) now in
  if String.eqb k "" then "No Date" else k.

(** [by[label]]: the tasks of a group, in collection order. *)
Definition groupItems (now : Date) (tasks : list Task) (lbl : string) : list Task :=
  List.filter (fun t => String.eqb (groupLabel now t) lbl) tasks.
End Grouping.

(** The [ordered] sequence of a group. *)
Definition ordered (lbl : string) (items : list Task) (indexMap : gmap string nat)
  : list Task :=
  if String.eqb lbl "Today" then
    let undone := List.filter (fun x => negb (done x)) items in
    let done_ := List.filter done items in
    let sortedUndone := sortByPriorityStable undone indexMap in
    let sortedDone := sortByPriorityStable done_ indexMap in
    sortedUndone ++ sortedDone
  else sortByPriorityStable items indexMap.

(** The [finalOrdered] sequence: a pinned task of the group comes
    first; [if (pinnedNewId)] skips an absent and an empty id. *)
Definition finalOrdered (pinnedNewId : option string) (lbl : string)
    (items : list Task) (indexMap : gmap string nat) : list Task :=
  let ordered := ordered lbl items indexMap in
  if negb (Js.falsy_str pinnedNewId) then
    let pid := default "" pinnedNewId in
    match List.find (fun x => String.eqb (id x) pid) items with
    | Some pinned =>
        pinned :: List.filter (fun x => negb (String.eqb (id x) pid)) ordered
    | None => ordered
    end
  else ordered.

(** The state of the component that the handlers below read and write,
    with the persisted clean-up stamp. *)
Record State := mkState {
  tasks : list Task;
  pinnedNewId : option string;
  lastCleanupISO : option string
}.

Definition stageDue (opt : DueOption) (x : Task) : Task :=
  {| id := id x; text := text x; done := done x; priority := priority x;
     dueKey := dueKey x; dueISO := dueISO x;
     pendingDueKey := Some (key opt);
     pendingDueISO := Some (iso opt);
     dueLabel := Some (label opt);
     notes := notes x; expanded := expanded x |}.

(** [onChangeDue] of the row of task [tid]. *)
Definition onChangeDue (tid : string) (k : string) (now : Date) (s : State) : State :=
  let opt := findOption k now in
  {| tasks := map (fun x => if String.eqb (id x) tid then stageDue opt x else x) (tasks s);
     pinnedNewId := Some tid;
     lastCleanupISO := lastCleanupISO s |}.

Definition commitDue (now : Date) (x : Task) : Task :=
  let isoToUse := match pendingDueISO x with
                  | Some p => Some p
                  | None => dueISO x
                  end in
  let keyToUse := computeKeyForISO isoToUse now in
  let opt := findOption keyToUse now in
  {| id := id x; text := text x; done := done x; priority := priority x;
     dueKey := Some keyToUse; dueISO := isoToUse;
     pendingDueKey := None;
     pendingDueISO := None;
     dueLabel := Some (label opt);
     notes := notes x; expanded := expanded x |}.

(** The [todo:unpin-if] listener, for the id carried by the event. *)
Definition onUnpin (eid : string) (now : Date) (s : State) : State :=
  match pinnedNewId s with
  | Some pid =>
      if String.eqb pid eid then
        {| tasks := map (fun x => if negb (String.eqb (id x) eid) then x
                                  else commitDue now x) (tasks s);
           pinnedNewId := None;
           lastCleanupISO := lastCleanupISO s |}
      else s
  | None => s
  end.

Definition keepOnCleanup (todayIso : string) (t : Task) : bool :=
  if negb (done t) then true
  else if Js.falsy_str (dueISO t) then true
  else String.leb todayIso (default "" (dueISO t)).

Definition cleanupDoneBeforeToday (now : Date) (s : State) : State :=
  let todayIso := toISODate (startOfDay now) in
  {| tasks := List.filter (keepOnCleanup todayIso) (tasks s);
     pinnedNewId := pinnedNewId s;
     lastCleanupISO := Some todayIso |}.

(** The effect run on mount: clean up unless it was done today. *)
Definition cleanupOnMount (now : Date) (s : State) : State :=
  let todayIso := toISODate (startOfDay now) in
  if negb (bool_decide (lastCleanupISO s = Some todayIso))
  then cleanupDoneBeforeToday now s
  else s.

(** *** Further handlers of the component *)

(** [prev.map((t) => (t.id === tid ? f(t) : t))] *)
Definition mapWhere (tid : string) (f : Task -> Task) (ts : list Task) : list Task :=
  map (fun t => if String.eqb (id t) tid then f t else t) ts.

Definition withTasks (ts : list Task) (s : State) : State :=
  {| tasks := ts; pinnedNewId := pinnedNewId s; lastCleanupISO := lastCleanupISO s |}.

Definition nextPriority (p : string) : string :=
  if String.eqb p "medium" then "high"
  else if String.eqb p "high" then "low"
  else "medium".

Definition flipDone (t : Task) : Task :=
  {| id := id t; text := text t; done := negb (done t); priority := priority t;
     dueKey := dueKey t; dueISO := dueISO t;
     pendingDueKey := pendingDueKey t; pendingDueISO := pendingDueISO t;
     dueLabel := dueLabel t; notes := notes t; expanded := expanded t |}.

Definition setPriority (p : string) (t : Task) : Task :=
  {| id := id t; text := text t; done := done t; priority := p;
     dueKey := dueKey t; dueISO := dueISO t;
     pendingDueKey := pendingDueKey t; pendingDueISO := pendingDueISO t;
     dueLabel := dueLabel t; notes := notes t; expanded := expanded t |}.

Definition toggleDone (tid : string) (s : State) : State :=
  withTasks (mapWhere tid flipDone (tasks s)) s.

Definition remove (tid : string) (s : State) : State :=
  withTasks (List.filter (fun t => negb (String.eqb (id t) tid)) (tasks s)) s.


(** [onSetPriority]: the row stays pinned until the edit ends. *)
Definition onSetPriority (tid p : string) (s : State) : State :=
  {| tasks := mapWhere tid (setPriority p) (tasks s);
     pinnedNewId := Some tid;
     lastCleanupISO := lastCleanupISO s |}.

(** [makeTask], with the identifier drawn from [crypto.randomUUID]. *)
Definition makeTask (newId label p n dl : string) : Task :=
  {| id := newId; text := label; done := false; priority := p;
     dueKey := None; dueISO := None;
     pendingDueKey := None; pendingDueISO := None;
     dueLabel := Some dl; notes := n; expanded := true |}.

(** [addInlineTask] (and the hotkey "n"): a blank task due today, put
    first and pinned. *)
Definition addInlineTask (newId : string) (now : Date) (s : State) : State :=
  let todayOpt := List.hd (todayOption (startOfDay now)) (buildDueOptions now) in
  let t := makeTask newId "New task" "high" "" (label todayOpt) in
  let t := {| id := id t; text := text t; done := done t; priority := priority t;
              dueKey := Some (key todayOpt); dueISO := Some (iso todayOpt);
              pendingDueKey := None; pendingDueISO := None;
              dueLabel := dueLabel t; notes := notes t; expanded := expanded t |} in
  {| tasks := t :: tasks s;
     pinnedNewId := Some newId;
     lastCleanupISO := lastCleanupISO s |}.

(** *** Migration of stored tasks without stable due fields *)

(** The class [.] of a regular expression excludes line terminators. *)
Definition is_line_terminator (a : ascii) : bool :=
  let n := N_of_ascii a in ((n =? 10) || (n =? 13))%N.

(** [s] matches [^.*\)$]. *)
Fixpoint dotsThenParen (s : string) : bool :=
  match s with
  | EmptyString => false
  | String a EmptyString => Ascii.eqb a ")"
  | String a rest => negb (is_line_terminator a) && dotsThenParen rest
  end.

(** [s] matches [^\s*\(.*\)$]. *)
Definition parenSuffix (s : string) : bool :=
  match Js.trimStart s with
  | String a rest => Ascii.eqb a "(" && dotsThenParen rest
  | EmptyString => false
  end.

(** [label.replace(/\s*\(.*\)$/, "")]: the text before the leftmost match. *)
Fixpoint baseOfLabel (s : string) : string :=
  if parenSuffix s then EmptyString
  else match s with
       | EmptyString => EmptyString
       | String a rest => String a (baseOfLabel rest)
       end.

(** [s] starts with a match of [(\d{2})\/(\d{2})\/(\d{2})]. *)
Definition mdyAt (s : string) : option (string * string * string) :=
  match s with
  | String a (String b (String s1 (String c (String d (String s2 (String e (String f _))))))) =>
      if Js.is_digit a && Js.is_digit b && Ascii.eqb s1 "/"
         && Js.is_digit c && Js.is_digit d && Ascii.eqb s2 "/"
         && Js.is_digit e && Js.is_digit f
      then Some (String a (String b EmptyString),
                 String c (String d EmptyString),
                 String e (String f EmptyString))
      else None
  | _ => None
  end.

(** [label.match(/(\d{2})\/(\d{2})\/(\d{2})/)]: the leftmost match. *)
Fixpoint matchMDY (s : string) : option (string * string * string) :=
  match mdyAt s with
  | Some r => Some r
  | None => match s with
            | EmptyString => None
            | String _ rest => matchMDY rest
            end
  end.

Definition withDue (k i : option string) (t : Task) : Task :=
  {| id := id t; text := text t; done := done t; priority := priority t;
     dueKey := k; dueISO := i;
     pendingDueKey := pendingDueKey t; pendingDueISO := pendingDueISO t;
     dueLabel := dueLabel t; notes := notes t; expanded := expanded t |}.

(** The migration of one stored task, in the initial state of the
    component. *)
Definition migrateTask (now : Date) (nt : Task) : Task :=
  let today := startOfDay now in
  if negb (Js.falsy_str (dueKey nt)) || negb (Js.falsy_str (dueISO nt)) then nt
  else
    let base := option_map baseOfLabel (dueLabel nt) in
    let m := match dueLabel nt with
             | Some l => matchMDY l
             | None => None
             end in
    let iso :=
      match m with
      | Some (g1, g2, g3) =>
          let mm := Js.parseInt10 g1 in
          let dd := Js.parseInt10 g2 in
          let yy := Js.parseInt10 g3 in
          let fullYear := 2000 + yy in
          Some (Js.String_of_Z fullYear +:+ "-" +:+ pad2 mm +:+ "-" +:+ pad2 dd)
      | None =>
          if bool_decide (base = Some "Today") then Some (toISODate today)
          else if bool_decide (base = Some "Tomorrow") then Some (toISODate (addDays today 1))
          else if bool_decide (base = Some "Next Monday")
               then Some (toISODate (nextMondayFrom today))
          else None
      end in
    if negb (Js.falsy_str iso) then
      let i := default "" iso in
      let k := if String.eqb i (toISODate today) then "today"
               else if String.eqb i (toISODate (addDays today 1)) then "tomorrow"
               else if String.eqb i (toISODate (nextMondayFrom today)) then "next-mon"
               else "wd-" +:+ i in
      withDue (Some k) iso nt
    else withDue None iso nt.

Definition migrate (now : Date) (raw : list Task) : list Task := map (migrateTask now) raw.

(** *** Keyboard navigation *)

(** The group labels in their fixed display order. *)
Definition fixedOrder : list string :=
  ["Today"; "Tomorrow"; "Monday"; "Tuesday"; "Wednesday"; "Thursday"; "Friday";
   "Saturday"; "Sunday"; "Next Monday"; "No Date"].

(** [Object.keys(by)]: the labels in the order in which they first occur. *)
Fixpoint keysOf (labels : list string) : list string :=
  match labels with
  | [] => []
  | l :: rest => l :: List.filter (fun k => negb (String.eqb k l)) (keysOf rest)
  end.

Section Navigation.
Variable DateParse : string -> option Date.

(** The labels that have tasks: the fixed ones first, then the others. *)
Definition groupLabels (now : Date) (ts : list Task) : list string :=
  let keys := keysOf (map (groupLabel DateParse now) ts) in
  let dynamic := List.filter (fun k => negb (existsb (String.eqb k) fixedOrder)) keys in
  List.filter (fun k => negb (Nat.eqb (List.length (groupItems DateParse now ts k)) 0))
              (fixedOrder ++ dynamic).

(** [orderedIds]: the ids group by group, each group in collection order. *)
Definition orderedIds (now : Date) (ts : list Task) : list string :=
  concat (map (fun l => map id (groupItems DateParse now ts l)) (groupLabels now ts)).
End Navigation.

(** The id that an arrow key focuses: [None] when nothing changes.
    [ids] is not empty when the function is called. *)
Definition arrowTarget (down : bool) (ids : list string) (focusedId editingId : option string)
  : option string :=
  match ids with
  | [] => None
  | first :: _ =>
      let known (o : option string) :=
        negb (Js.falsy_str o) && existsb (String.eqb (default "" o)) ids in
      let cur := if known focusedId then default "" focusedId
                 else if known editingId then default "" editingId
                 else first in
      let i := Js.indexOf cur ids in
      let nextIndex := if down then Z.min (i + 1) (Z.of_nat (List.length ids) - 1)
                       else Z.max (i - 1) 0 in
      match (if nextIndex <? 0 then None else ids !! Z.to_nat nextIndex) with
      | Some nextId => if String.eqb nextId "" then None else Some nextId
      | None => None
      end
  end.

(** The hotkey "d" (with shift: delete) on the focused task, or on the
    first task when none is focused; the result carries the new focus. *)
Definition hotkeyD (shift : bool) (focusedId : option string) (s : State)
  : State * option string :=
  let target := match focusedId with
                | Some f => Some f
                | None => option_map id (List.head (tasks s))
                end in
  if Js.falsy_str target then (s, focusedId)
  else
    let tid := default "" target in
    if shift then (remove tid s, focusedId)
    else (toggleDone tid s,
          if Js.falsy_str focusedId then Some tid else focusedId).

End TodoList.

(** ** Numbers and parsed JSON of the JavaScript runtime *)

(** A JavaScript number: a finite value is carried as the rational it
    denotes.  The computations below stay on integers within the exact
    range of a double. *)
Inductive JsNum := NaN | PosInf | NegInf | Fin (q : Q).

Definition truthy_num (n : JsNum) : bool :=
  match n with
  | NaN => false
  | Fin q => negb (Qeq_bool q 0)
  | PosInf | NegInf => true
  end.

Definition isFinite (n : JsNum) : bool :=
  match n with Fin _ => true | _ => false end.

Definition num_sub (a b : JsNum) : JsNum :=
  match a, b with
  | NaN, _ | _, NaN => NaN
  | Fin x, Fin y => Fin (x - y)
  | PosInf, PosInf | NegInf, NegInf => NaN
  | PosInf, _ | _, NegInf => PosInf
  | NegInf, _ | _, PosInf => NegInf
  end.

(** Division by a positive finite constant. *)
Definition num_div (a : JsNum) (c : Q) : JsNum :=
  match a with
  | Fin x => Fin (x / c)
  | other => other
  end.

(** [Math.round]: the nearest integer, halves upwards. *)
Definition MathRound (a : JsNum) : JsNum :=
  match a with
  | Fin x => Fin (inject_Z (Qfloor (x + (1 # 2))))
  | other => other
  end.

(** [a < c] for a finite constant [c]. *)
Definition num_lt (a : JsNum) (c : Q) : bool :=
  match a with
  | NaN | PosInf => false
  | NegInf => true
  | Fin x => negb (Qle_bool c x)
  end.

(** ToIntegerOrInfinity of a finite number: truncation towards zero. *)
Definition trunc (q : Q) : Z := Z.quot (Qnum q) (Zpos (Qden q)).

Definition msPerDay : Z := 86400000.

(** The year that [Date.UTC] uses: 0..99 stand for 1900..1999. *)
Definition MakeFullYear (yi : Z) : Z :=
  if (0 <=? yi) && (yi <=? 99) then 1900 + yi else yi.

(** The day number of a year, a 0-based month (any integer) and a day of
    month (any integer). *)
Definition MakeDay (year month date : Z) : Z :=
  let ym := year + month / 12 in
  let mn := month mod 12 in
  days_from_civil ym (mn + 1) 1 + date - 1.

(** A time value beyond 100,000,000 days from the epoch is not a number. *)
Definition TimeClip (t : Z) : JsNum :=
  if 8640000000000000 <? Z.abs t then NaN else Fin (inject_Z t).

(** [Date.UTC(year, month, date)] *)
Definition DateUTC (year month date : JsNum) : JsNum :=
  match year, month, date with
  | Fin y, Fin m, Fin dt =>
      TimeClip (MakeDay (MakeFullYear (trunc y)) (trunc m) (trunc dt) * msPerDay)
  | _, _, _ => NaN
  end.

(** A value produced by [JSON.parse]. *)
Inductive JsValue :=
| JUndefined
| JNull
| JBool (b : bool)
| JNum (n : JsNum)
| JStr (s : string)
| JArr (items : list JsValue)
| JObj (fields : list (string * JsValue)).

Definition truthy (v : JsValue) : bool :=
  match v with
  | JUndefined | JNull => false
  | JBool b => b
  | JNum n => truthy_num n
  | JStr s => negb (String.eqb s "")
  | JArr _ | JObj _ => true
  end.

Definition nullish (v : JsValue) : bool :=
  match v with
  | JUndefined | JNull => true
  | _ => false
  end.

Fixpoint assoc (k : string) (fields : list (string * JsValue)) : JsValue :=
  match fields with
  | [] => JUndefined
  | (k', v) :: rest => if String.eqb k' k then v else assoc k rest
  end.

(** [v?.k] for a property name that no prototype defines. *)
Definition getProp (v : JsValue) (k : string) : JsValue :=
  match v with
  | JObj fields => assoc k fields
  | _ => JUndefined
  end.

(** [a || b] and [a ?? b] *)
Definition js_or (a b : JsValue) : JsValue := if truthy a then a else b.
Definition js_nullish_or (a b : JsValue) : JsValue := if nullish a then b else a.

Fixpoint indexed {A} (i : nat) (l : list A) : list (string * A) :=
  match l with
  | [] => []
  | x :: rest => (Js.String_of_Z (Z.of_nat i), x) :: indexed (S i) rest
  end.

Fixpoint chars (s : string) : list JsValue :=
  match s with
  | EmptyString => []
  | String a rest => JStr (String a EmptyString) :: chars rest
  end.

(** The own enumerable properties copied by [{ ...v }]. *)
Definition spread (v : JsValue) : list (string * JsValue) :=
  match v with
  | JObj fields => fields
  | JArr items => indexed 0 items
  | JStr s => indexed 0 (chars s)
  | _ => []
  end.

(** ** Fresh identifiers and caught exceptions *)

(** A computation that draws identifiers from [crypto.randomUUID] (the
    [n]-th draw is [uuid n]) and may throw: [None] is a thrown exception. *)
Definition Eff (A : Type) : Type := nat -> option (A * nat).

Definition ret {A} (x : A) : Eff A := fun n => Some (x, n).
Definition bind {A B} (m : Eff A) (f : A -> Eff B) : Eff B :=
  fun n => match m n with
           | Some (x, n') => f x n'
           | None => None
           end.
Definition throw {A} : Eff A := fun _ => None.

Notation "'let!' x ':=' m 'in' k" := (bind m (fun x => k))
  (at level 10, x name, m at level 100, k at level 200).

Fixpoint mapM {A B} (f : A -> Eff B) (l : list A) : Eff (list B) :=
  match l with
  | [] => ret []
  | x :: rest => let! y := f x in let! ys := mapM f rest in ret (y :: ys)
  end.

(** ** The work-order list *)

Module WOList.

Inductive RfqStatus := drafted | sent | received.

Record WONote := mkNote {
  note_id : JsValue;
  partNumber : JsValue;
  rfqStatus : RfqStatus;
  memo : JsValue
}.

(** A work order as [loadWO] returns it: the stored properties, with
    [urgency] and [notes] replaced. *)
Record LoadedWO := mkLoaded {
  stored : list (string * JsValue);
  urgency : JsValue;
  notes : list WONote
}.

Section Load.
Variable uuid : nat -> string.
Variable JSON_parse : string -> option JsValue.

Definition randomUUID : Eff JsValue := fun n => Some (JStr (uuid n), S n).

Definition loadNote (n : JsValue) : Eff WONote :=
  let rfqStatus :=
    if truthy (getProp n "rfqReceived") then received
    else if truthy (getProp n "rfqSent") then sent
    else if truthy (getProp n "rfqDrafted") then drafted
    else drafted in
  let! i := (if truthy (getProp n "id") then ret (getProp n "id") else randomUUID) in
  ret {| note_id := i;
         partNumber := js_or (getProp n "partNumber") (JStr "");
         rfqStatus := rfqStatus;
         memo := js_or (getProp n "memo") (JStr "") |}.

(** [v.map(f)]: a type error unless [v] is an array. *)
Definition arrayMap {B} (v : JsValue) (f : JsValue -> Eff B) : Eff (list B) :=
  match v with
  | JArr items => mapM f items
  | _ => throw
  end.

Definition loadOne (w : JsValue) : Eff LoadedWO :=
  let! ns := arrayMap (js_or (getProp w "notes") (JArr [])) loadNote in
  ret {| stored := spread w;
         urgency := js_or (getProp w "urgency") (JStr "medium");
         notes := ns |}.

(** The body of the [try] block, on the text read from storage. *)
Definition loadWO_try (item : option string) : Eff (list LoadedWO) :=
  match JSON_parse (if Js.falsy_str item then "[]" else default "" item) with
  | None => throw
  | Some raw => arrayMap (js_or raw (JArr [])) loadOne
  end.

(** [loadWO], with the number of identifiers drawn so far. *)
Definition loadWO (item : option string) (n : nat) : list LoadedWO * nat :=
  match loadWO_try item n with
  | Some r => r
  | None => ([], n)
  end.
End Load.

Section Urgency.
(** [Number] applied to a string. *)
Variable Number : string -> JsNum.

(** [v || c] on a possibly [undefined] number. *)
Definition num_or (v : option JsNum) (c : JsNum) : JsNum :=
  match v with
  | Some n => if truthy_num n then n else c
  | None => c
  end.

Definition falsy_part (v : option JsNum) : bool :=
  match v with
  | Some n => negb (truthy_num n)
  | None => true
  end.

Definition daysBetweenUTC (iso : option string) (from : Date) : JsNum :=
  if Js.falsy_str iso then PosInf
  else
    let parts := map Number (Js.split "-" (default "" iso)) in
    let y := parts !! 0%nat in
    let m := parts !! 1%nat in
    let d := parts !! 2%nat in
    if falsy_part y || falsy_part m || falsy_part d then PosInf
    else
      let aUTC := DateUTC (default NaN y)
                          (num_sub (num_or m (Fin 1)) (Fin 1))
                          (num_or d (Fin 1)) in
      let bUTC := DateUTC (Fin (inject_Z (getFullYear from)))
                          (Fin (inject_Z (getMonth from)))
                          (Fin (inject_Z (getDate from))) in
      MathRound (num_div (num_sub aUTC bUTC) (inject_Z (1000 * 60 * 60 * 24))).

Definition computeUrgencyFromDue (iso : option string) (now : Date) : string :=
  let d := daysBetweenUTC iso now in
  if negb (isFinite d) then "low"
  else if num_lt d 35 then "high"
  else if num_lt d 105 then "medium"
  else "low".
End Urgency.

Record Normalized := mkNorm { iso : option string; valid : bool }.

(** [/^\d{4}-\d{2}-\d{2}$/] *)
Definition matchIso (s : string) : bool :=
  match Js.split "-" s with
  | [y; m; d] =>
      Js.all_digits y && (String.length y =? 4)%nat
      && Js.all_digits m && (String.length m =? 2)%nat
      && Js.all_digits d && (String.length d =? 2)%nat
  | _ => false
  end.

(** [/^(\d{1,2})\/(\d{1,2})\/(\d{2,4})$/], with its three groups. *)
Definition matchUS (s : string) : option (string * string * string) :=
  match Js.split "/" s with
  | [m; d; y] =>
      if Js.all_digits m && (1 <=? String.length m)%nat && (String.length m <=? 2)%nat
         && Js.all_digits d && (1 <=? String.length d)%nat && (String.length d <=? 2)%nat
         && Js.all_digits y && (2 <=? String.length y)%nat && (String.length y <=? 4)%nat
      then Some (m, d, y) else None
  | _ => None
  end.

Definition toISOIfPossible (input : string) : Normalized :=
  let s := Js.trim input in
  if String.eqb s "" then {| iso := None; valid := false |}
  else if matchIso s then {| iso := Some s; valid := true |}
  else
    match matchUS s with
    | Some (g1, g2, g3) =>
        let mm := Js.parseInt10 g1 in
        let dd := Js.parseInt10 g2 in
        let yyyy := Js.parseInt10 g3 in
        let yyyy := if yyyy <? 100 then 2000 + yyyy else yyyy in
        if (1 <=? mm) && (mm <=? 12) && (1 <=? dd) && (dd <=? 31) then
          {| iso := Some (Js.String_of_Z yyyy +:+ "-" +:+ pad2 mm +:+ "-" +:+ pad2 dd);
             valid := true |}
        else {| iso := None; valid := false |}
    | None => {| iso := None; valid := false |}
    end.

(** The value that the due-date field writes on change:
    [norm.iso ?? (raw.trim() ? raw : undefined)] *)
Definition dueOnOfInput (raw : string) : option string :=
  match iso (toISOIfPossible raw) with
  | Some i => Some i
  | None => if negb (String.eqb (Js.trim raw) "") then Some raw else None
  end.

End WOList.

(** ** The TodoList of DayCard.tsx (stored tasks, staged due dates) *)

Module DayCardTodo.
Import TodoList.

(** The tasks and the reference [pinnedNewIdRef]; the tasks of this
    component have no [dueLabel]. *)
Record State := mkState {
  tasks : list Task;
  editingId : option string;
  pinnedNewIdRef : option string
}.

Definition makeTask (newId label p : string) (now : Date) : Task :=
  {| id := newId; text := label; done := false; priority := p;
     dueKey := Some "today"; dueISO := Some (toISODate (startOfDay now));
     pendingDueKey := None; pendingDueISO := None;
     dueLabel := None; notes := ""; expanded := true |}.

(** The initial tasks, from what [loadTasks] returns. *)
Definition initialTasks (loaded : list Task) (id1 id2 : string) (now : Date) : list Task :=
  match loaded with
  | [] => [makeTask id1 "Example task 1" "high" now;
           makeTask id2 "Example task 2" "medium" now]
  | _ :: _ => loaded
  end.

Definition addInlineTask (newId : string) (now : Date) (s : State) : State :=
  let t := makeTask newId "New task" "high" now in
  {| tasks := t :: tasks s; editingId := Some (id t); pinnedNewIdRef := Some (id t) |}.

Definition stagePending (opt : DueOption) (t : Task) : Task :=
  {| id := id t; text := text t; done := done t; priority := priority t;
     dueKey := dueKey t; dueISO := dueISO t;
     pendingDueKey := Some (key opt); pendingDueISO := Some (iso opt);
     dueLabel := dueLabel t; notes := notes t; expanded := expanded t |}.

Definition stageDueFor (tid k : string) (now : Date) (s : State) : State :=
  let opt := findOption k now in
  {| tasks := map (fun t => if negb (String.eqb (id t) tid) then t else stagePending opt t)
                  (tasks s);
     editingId := editingId s;
     pinnedNewIdRef := Some tid |}.

(** [x.pendingDueISO ?? x.dueISO ?? null] *)
Definition effectiveISO (x : Task) : option string :=
  match pendingDueISO x with
  | Some p => Some p
  | None => dueISO x
  end.

Definition commitPending (now : Date) (x : Task) : Task :=
  let iso := effectiveISO x in
  let key := computeKeyForISO iso now in
  {| id := id x; text := text x; done := done x; priority := priority x;
     dueKey := Some key; dueISO := iso;
     pendingDueKey := None; pendingDueISO := None;
     dueLabel := dueLabel x; notes := notes x; expanded := expanded x |}.

Definition endRowEditing (i : option string) (now : Date) (s : State) : State :=
  if Js.falsy_str i && negb (Js.falsy_str (pinnedNewIdRef s)) then
    let pinnedId := default "" (pinnedNewIdRef s) in
    {| tasks := map (fun x => if negb (String.eqb (id x) pinnedId) then x
                              else commitPending now x) (tasks s);
       editingId := i;
       pinnedNewIdRef := None |}
  else {| tasks := tasks s; editingId := i; pinnedNewIdRef := pinnedNewIdRef s |}.

Definition setPriorityFor (tid p : string) (s : State) : State :=
  {| tasks := mapWhere tid (setPriority p) (tasks s);
     editingId := editingId s;
     pinnedNewIdRef := Some tid |}.

Section Groups.
Variable DateParse : string -> option Date.

(** The group under which a task is shown: by the staged date when
    there is one. *)
Definition rowGroup (now : Date) (t : Task) : string :=
  computeGroupLabelForISO DateParse (effectiveISO t) now.
End Groups.

End DayCardTodo.

(** ** The work-order list: handlers of the component *)

Module WorkOrders.

Inductive WOStatus := NotStarted | InProgress | Done.

Record WONote := mkNote {
  line_id : string;
  partNumber : string;
  rfqStatus : WOList.RfqStatus;
  memo : string
}.

Record WorkOrder := mkWO {
  id : string;
  salesOrder : string;
  workOrder : string;
  customer : string;
  status : WOStatus;
  due_on : option string;
  urgency : option string;
  notes : list WONote;
  created_at : string
}.

(** [Partial<WorkOrder>]: [None] is a property that the patch lacks; an
    optional property can be present with the value [undefined]. *)
Record Patch := mkPatch {
  p_id : option string;
  p_salesOrder : option string;
  p_workOrder : option string;
  p_customer : option string;
  p_status : option WOStatus;
  p_due_on : option (option string);
  p_urgency : option (option string);
  p_notes : option (list WONote);
  p_created_at : option string
}.

Definition emptyPatch : Patch :=
  {| p_id := None; p_salesOrder := None; p_workOrder := None; p_customer := None;
     p_status := None; p_due_on := None; p_urgency := None; p_notes := None;
     p_created_at := None |}.

(** [{ ...w, ...patch }] *)
Definition applyPatch (w : WorkOrder) (p : Patch) : WorkOrder :=
  {| id := default (id w) (p_id p);
     salesOrder := default (salesOrder w) (p_salesOrder p);
     workOrder := default (workOrder w) (p_workOrder p);
     customer := default (customer w) (p_customer p);
     status := default (status w) (p_status p);
     due_on := default (due_on w) (p_due_on p);
     urgency := default (urgency w) (p_urgency p);
     notes := default (notes w) (p_notes p);
     created_at := default (created_at w) (p_created_at p) |}.

Record NotePatch := mkNotePatch {
  p_line_id : option string;
  p_partNumber : option string;
  p_rfqStatus : option WOList.RfqStatus;
  p_memo : option string
}.

Definition applyNotePatch (n : WONote) (p : NotePatch) : WONote :=
  {| line_id := default (line_id n) (p_line_id p);
     partNumber := default (partNumber n) (p_partNumber p);
     rfqStatus := default (rfqStatus n) (p_rfqStatus p);
     memo := default (memo n) (p_memo p) |}.

Definition withUrgency (u : option string) (w : WorkOrder) : WorkOrder :=
  {| id := id w; salesOrder := salesOrder w; workOrder := workOrder w;
     customer := customer w; status := status w; due_on := due_on w;
     urgency := u; notes := notes w; created_at := created_at w |}.

Definition withNotes (ns : list WONote) (w : WorkOrder) : WorkOrder :=
  {| id := id w; salesOrder := salesOrder w; workOrder := workOrder w;
     customer := customer w; status := status w; due_on := due_on w;
     urgency := urgency w; notes := ns; created_at := created_at w |}.

(** [a >= q] and [a <= q] on numbers. *)
Definition num_ge (a : JsNum) (q : Q) : bool :=
  match a with
  | NaN | NegInf => false
  | PosInf => true
  | Fin x => Qle_bool q x
  end.

Definition num_le (a : JsNum) (q : Q) : bool :=
  match a with
  | NaN | PosInf => false
  | NegInf => true
  | Fin x => Qle_bool x q
  end.

Section Handlers.
Variable Number : string -> JsNum.
(** [String(x)] on a number. *)
Variable NumToString : JsNum -> string.

(** [addWO], with the identifier drawn and the creation stamp. *)
Definition addWO (newId stamp : string) (now : Date) (prev : list WorkOrder)
  : list WorkOrder :=
  {| id := newId; salesOrder := ""; workOrder := ""; customer := "";
     status := NotStarted;
     due_on := None;
     urgency := Some (WOList.computeUrgencyFromDue Number None now);
     notes := [];
     created_at := stamp |} :: prev.

Definition updateWO (wid : string) (patch : Patch) (now : Date) (prev : list WorkOrder)
  : list WorkOrder :=
  let nextPatch :=
    match p_due_on patch with
    | Some due =>
        {| p_id := p_id patch; p_salesOrder := p_salesOrder patch;
           p_workOrder := p_workOrder patch; p_customer := p_customer patch;
           p_status := p_status patch; p_due_on := p_due_on patch;
           p_urgency := Some (Some (WOList.computeUrgencyFromDue Number due now));
           p_notes := p_notes patch; p_created_at := p_created_at patch |}
    | None => patch
    end in
  map (fun w => if String.eqb (id w) wid then applyPatch w nextPatch else w) prev.

Definition removeWO (wid : string) (prev : list WorkOrder) : list WorkOrder :=
  List.filter (fun w => negb (String.eqb (id w) wid)) prev.

Definition addLine (woId newId : string) (prev : list WorkOrder) : list WorkOrder :=
  map (fun w =>
         if String.eqb (id w) woId
         then withNotes ({| line_id := newId; partNumber := "";
                            rfqStatus := WOList.drafted; memo := "" |} :: notes w) w
         else w) prev.

Definition updateLine (woId noteId : string) (patch : NotePatch) (prev : list WorkOrder)
  : list WorkOrder :=
  map (fun w =>
         if String.eqb (id w) woId
         then withNotes (map (fun n => if String.eqb (line_id n) noteId
                                       then applyNotePatch n patch else n) (notes w)) w
         else w) prev.

Definition removeLine (woId noteId : string) (prev : list WorkOrder) : list WorkOrder :=
  map (fun w =>
         if String.eqb (id w) woId
         then withNotes (List.filter (fun n => negb (String.eqb (line_id n) noteId))
                                     (notes w)) w
         else w) prev.

(** [w.urgency !== calc] *)
Definition urgencyDiffers (now : Date) (w : WorkOrder) : bool :=
  negb (bool_decide (urgency w = Some (WOList.computeUrgencyFromDue Number (due_on w) now))).

Definition recomputeAllUrgencies (now : Date) (prev : list WorkOrder) : list WorkOrder :=
  let changed := existsb (urgencyDiffers now) prev in
  let next :=
    map (fun w =>
           let calc := WOList.computeUrgencyFromDue Number (due_on w) now in
           if urgencyDiffers now w then withUrgency (Some calc) w else w) prev in
  if changed then next else prev.

(** [_isDueWithin5to9Weeks]: [dd >= 35 && dd <= 63]. *)
Definition isDueWithin5to9Weeks (iso : option string) (now : Date) : bool :=
  let dd := WOList.daysBetweenUTC Number iso now in
  num_ge dd 35 && num_le dd 63.

(** [fmtShortDate]: the text shown in the due-date field. *)
Definition fmtShortDate (iso : option string) : string :=
  if Js.falsy_str iso then ""
  else
    let parts := map Number (Js.split "-" (default "" iso)) in
    let y := parts !! 0%nat in
    let m := parts !! 1%nat in
    let d := parts !! 2%nat in
    if WOList.falsy_part y || WOList.falsy_part m || WOList.falsy_part d
    then default "" iso
    else Js.padStart 2 "0" (NumToString (default NaN m)) +:+ "/"
         +:+ Js.padStart 2 "0" (NumToString (default NaN d)) +:+ "/"
         +:+ Js.slice_last 2 (NumToString (default NaN y)).
End Handlers.

(** The due-date field on blur: snap to the canonical date when the text
    parses and differs from the stored value. *)
Section DueField.
Variable Number : string -> JsNum.

Definition onDueChange (wid raw : string) (now : Date) (prev : list WorkOrder)
  : list WorkOrder :=
  updateWO Number wid
    {| p_id := None; p_salesOrder := None; p_workOrder := None; p_customer := None;
       p_status := None; p_due_on := Some (WOList.dueOnOfInput raw);
       p_urgency := None; p_notes := None; p_created_at := None |} now prev.

Definition onDueBlur (w : WorkOrder) (raw : string) (now : Date) (prev : list WorkOrder)
  : list WorkOrder :=
  let norm := WOList.toISOIfPossible raw in
  if WOList.valid norm && negb (Js.falsy_str (WOList.iso norm))
     && negb (bool_decide (WOList.iso norm = due_on w))
  then updateWO Number (id w)
         {| p_id := None; p_salesOrder := None; p_workOrder := None; p_customer := None;
            p_status := None; p_due_on := Some (WOList.iso norm);
            p_urgency := None; p_notes := None; p_created_at := None |} now prev
  else prev.
End DueField.

(** The arrow keys: the id that gets the focus; nothing happens on an
    empty list. *)
Definition arrowTarget (down : bool) (items : list WorkOrder) (focusedId : option string)
  : option string :=
  match items with
  | [] => focusedId
  | _ :: _ =>
      let ids := map id items in
      let cur := if negb (Js.falsy_str focusedId)
                    && existsb (String.eqb (default "" focusedId)) ids
                 then default "" focusedId
                 else List.hd "" ids in
      let i := Js.indexOf cur ids in
      let nextIndex := if down then Z.min (i + 1) (Z.of_nat (List.length ids) - 1)
                       else Z.max (i - 1) 0 in
      if nextIndex <? 0 then None else ids !! Z.to_nat nextIndex
  end.

End WorkOrders.

(** ** The minimal TodoList (validated load) *)

Module MinimalTodo.

Record Task := mkTask {
  id : string;
  text : string;
  done : bool;
  priority : string
}.

Section Load.
Variable uuid : nat -> string.
Variable JSON_parse : string -> option JsValue.
(** [String(v)] on a value that is no string; [None] is the TypeError
    thrown for an object or a list that cannot be converted to a
    primitive value (its own [toString] is not callable). *)
Variable ToString : JsValue -> option string.

Definition randomUUID : Eff JsValue := fun n => Some (JStr (uuid n), S n).

(** [String(v)]: a string is returned as it is. *)
Definition stringOf (v : JsValue) : Eff string :=
  match v with
  | JStr s => ret s
  | _ => match ToString v with
         | Some s => ret s
         | None => throw
         end
  end.

Definition isObject (t : JsValue) : bool :=
  match t with
  | JObj _ | JArr _ => true
  | _ => false
  end.

Definition checkPriority (p : JsValue) : string :=
  match p with
  | JStr s =>
      if String.eqb s "high" || String.eqb s "medium" || String.eqb s "low"
      then s else "high"
  | _ => "high"
  end.

Definition parseOne (t : JsValue) : Eff (option Task) :=
  if truthy t && isObject t then
    let! i := (if nullish (getProp t "id") then randomUUID else ret (getProp t "id")) in
    let! idText := stringOf i in
    let! label := stringOf (js_nullish_or (getProp t "text") (JStr "")) in
    ret (Some {| id := idText;
                 text := label;
                 done := truthy (js_nullish_or (getProp t "done") (JBool false));
                 priority := checkPriority (getProp t "priority") |})
  else ret None.

(** The body of the [try] block: [None] inside is the [null] result. *)
Definition safeParseTasks_try (raw : string) : Eff (option (list Task)) :=
  match JSON_parse raw with
  | None => throw
  | Some (JArr arr) =>
      let! ts := mapM parseOne arr in
      ret (Some (omap (fun x => x) ts))
  | Some _ => ret None
  end.

Definition safeParseTasks (raw : string) (n : nat) : option (list Task) * nat :=
  match safeParseTasks_try raw n with
  | Some r => r
  | None => (None, n)
  end.
End Load.

Definition makeTask (newId label p : string) : Task :=
  {| id := newId; text := label; done := false; priority := p |}.

Section Initial.
Variable uuid : nat -> string.
Variable JSON_parse : string -> option JsValue.
Variable ToString : JsValue -> option string.

(** The initial state of the task list, from the stored text. *)
Definition initialTasks (raw : option string) (n : nat) : list Task * nat :=
  let '(parsed, n1) :=
    if Js.falsy_str raw then (None, n)
    else safeParseTasks uuid JSON_parse ToString (default "" raw) n in
  match parsed with
  | Some (t :: ts) => (t :: ts, n1)
  | _ => ([makeTask (uuid n1) "Example task 1" "high";
           makeTask (uuid (S n1)) "Example task 2" "medium"], S (S n1))
  end.
End Initial.

Record State := mkState {
  tasks : list Task;
  editingId : option string;
  pinnedId : option string
}.

Definition withTasks (ts : list Task) (s : State) : State :=
  {| tasks := ts; editingId := editingId s; pinnedId := pinnedId s |}.

Definition toggleDone (tid : string) (s : State) : State :=
  withTasks (map (fun t => if String.eqb (id t) tid
                           then {| id := id t; text := text t; done := negb (done t);
                                   priority := priority t |}
                           else t) (tasks s)) s.

Definition remove (tid : string) (s : State) : State :=
  withTasks (List.filter (fun t => negb (String.eqb (id t) tid)) (tasks s)) s.

Definition cyclePriority (tid : string) (s : State) : State :=
  withTasks (map (fun t => if negb (String.eqb (id t) tid) then t
                           else {| id := id t; text := text t; done := done t;
                                   priority := if String.eqb (priority t) "high" then "medium"
                                               else if String.eqb (priority t) "medium" then "low"
                                               else "high" |}) (tasks s)) s.

Definition addInlineTask (newId : string) (s : State) : State :=
  let t := makeTask newId "New task" "high" in
  {| tasks := t :: tasks s; editingId := Some (id t); pinnedId := Some (id t) |}.

Definition priorityRank (p : string) : option Z :=
  if String.eqb p "high" then Some 0
  else if String.eqb p "medium" then Some 1
  else if String.eqb p "low" then Some 2
  else None.

(** [priorityRank[a.priority] - priorityRank[b.priority]]: with a rank
    missing the difference is NaN, which a sort reads as 0. *)
Definition sortByPriority (a b : Task) : Z :=
  match priorityRank (priority a), priorityRank (priority b) with
  | Some x, Some y => x - y
  | _, _ => 0
  end.

Definition baseOrdered (s : State) : list Task :=
  let undone := List.filter (fun t => negb (done t)) (tasks s) in
  let done_ := List.filter done (tasks s) in
  let ordered := js_sort sortByPriority undone ++ js_sort sortByPriority done_ in
  if negb (Js.falsy_str (pinnedId s)) then
    let pinned := default "" (pinnedId s) in
    match List.find (fun t => String.eqb (id t) pinned) ordered with
    | Some hit => hit :: List.filter (fun t => negb (String.eqb (id t) pinned)) ordered
    | None => ordered
    end
  else ordered.

Definition endEditing (i : option string) (s : State) : State :=
  {| tasks := tasks s;
     editingId := i;
     pinnedId := if Js.falsy_str i && negb (Js.falsy_str (pinnedId s)) then None
                 else pinnedId s |}.

End MinimalTodo.

(** ** Auxiliary definitions used in the proofs *)

(** Year of the era of the [doe]-th day of a 400-year era that starts on
    1 March, and the number of days of the era before the year [y]. *)
Definition yoe_of (doe : Z) : Z :=
  (doe - doe / 1460 + doe / 36524 - doe / 146096) / 365.

Definition ys (y : Z) : Z := 365 * y + y / 4 - y / 100.

(** Chronological order on (year, month, day). *)
Definition lex_ltb (a b : Z * Z * Z) : bool :=
  let '(y1, m1, d1) := a in
  let '(y2, m2, d2) := b in
  (y1 <? y2) || ((y1 =? y2) && ((m1 <? m2) || ((m1 =? m2) && (d1 <? d2)))).

(** The decomposition that [civil_from_days] computes: era, year of era,
    day of (March-based) year, (March-based) month. *)
Record Decomp (z : Z) (era yoe doy mp : Z) : Prop := {
  dec_day : z + 719468 = 146097 * era + ys yoe + doy;
  dec_yoe : 0 <= yoe <= 399;
  dec_doy : 0 <= doy;
  dec_end : ys yoe + doy < ys (yoe + 1) \/ (yoe = 399 /\ doy = 365);
  dec_mp : mp = (5 * doy + 2) / 153;
  dec_civil : civil_from_days z =
              (yoe + era * 400 + (if mp <? 10 then 0 else 1),
               (if mp <? 10 then mp + 3 else mp - 9),
               doy - (153 * mp + 2) / 5 + 1)
}.

(** [p] holds on the [n] integers from [z] upwards. *)
Fixpoint forall_from (n : nat) (z : Z) (p : Z -> bool) : bool :=
  match n with
  | O => true
  | S k => p z && forall_from k (z + 1) p
  end.

(** The character [c] does not occur in [s]. *)
Fixpoint lacks (c : ascii) (s : string) : bool :=
  match s with
  | EmptyString => true
  | String a rest => negb (Ascii.eqb a c) && lacks c rest
  end.

(** Day numbers whose year has four digits. *)
Definition firstDay4 : Z := Eval vm_compute in days_from_civil 1000 1 1.
Definition lastDay4 : Z := Eval vm_compute in days_from_civil 9999 12 31.
Definition canonicalDay (n : Z) : Prop := firstDay4 <= n <= lastDay4.

(** The due options as the specification lists them. *)
Definition isWeekendStart (dow : Z) : bool := (dow =? 5) || (dow =? 6) || (dow =? 0).

Definition weekdayOffsets (now : Date) : list nat :=
  let dow := getDay (startOfDay now) in
  if isWeekendStart dow then [] else seq 2 (Z.to_nat (4 - dow)).

Definition optionsSpec (now : Date) : list TodoList.DueOption :=
  let today := startOfDay now in
  if isWeekendStart (getDay today) then
    [TodoList.todayOption today; TodoList.nextMonOption (nextMondayFrom today)]
  else
    TodoList.todayOption today :: TodoList.tomorrowOption (addDays today 1)
      :: map (fun k => TodoList.weekdayOption (addDays today (Z.of_nat k))) (weekdayOffsets now)
      ++ [TodoList.nextMonOption (nextMondayFrom today)].


(** Monday 1 January 2024, 09:00 local time. *)
Definition monday_2024_01_01 : Date := mkDate 19723 (9 * 3600000).


(** The priority of a task is no property name of [Object.prototype], so
    that its rank is a number: that of its tier, or 99. *)
Definition plainPriority (t : TodoList.Task) : bool :=
  negb (existsb (String.eqb (TodoList.priority t)) TodoList.objectPrototypeNames).

(** The number by which a task is ranked. *)
Definition rankNumber (t : TodoList.Task) : Z :=
  match TodoList.rankOf t with
  | TodoList.RankNum n => n
  | TodoList.RankMember _ => 99
  end.

(** The order that [comparePriority] decides on tasks that are ranked by
    numbers: by rank, then by index. *)
Definition byPriorityThenIndex (indexMap : gmap string nat) (a b : TodoList.Task) : Prop :=
  rankNumber a < rankNumber b
  \/ (rankNumber a = rankNumber b
      /\ TodoList.indexOf indexMap a <= TodoList.indexOf indexMap b).

(** The comparison by rank number, then by index. *)
Definition compareByNumber (indexMap : gmap string nat) (a b : TodoList.Task) : Z :=
  if negb (rankNumber a =? rankNumber b) then rankNumber a - rankNumber b
  else TodoList.indexOf indexMap a - TodoList.indexOf indexMap b.

(** The task that is shown first in a group because it is pinned: the
    first task of the group with the pinned id, when that id is not empty. *)
Definition pinnedRow (pinned : option string) (items : list TodoList.Task)
  : option TodoList.Task :=
  match pinned with
  | Some pid =>
      if String.eqb pid "" then None
      else List.find (fun x => String.eqb (TodoList.id x) pid) items
  | None => None
  end.

(** A task is not the pinned one. *)
Definition notPinned (pinned : option string) (t : TodoList.Task) : bool :=
  match pinned with
  | Some pid => negb (String.eqb (TodoList.id t) pid)
  | None => true
  end.

(** [a] comes before [b] in [l]. *)
Definition before {A} (a b : A) (l : list A) : Prop :=
  exists l1 l2 l3, l = l1 ++ a :: l2 ++ b :: l3.

(** A due date is absent or a canonical date. *)
Definition wellDated (t : TodoList.Task) : Prop :=
  TodoList.dueISO t = None
  \/ exists n, canonicalDay n /\ TodoList.dueISO t = Some (isoOfDay n).

(** The prune condition of the specification: done, with a due date
    strictly before today. *)
Definition shouldPrune (today : Z) (t : TodoList.Task) : Prop :=
  TodoList.done t = true
  /\ exists n, TodoList.dueISO t = Some (isoOfDay n) /\ n < today.

(** The staging step as the specification words it: only the pending due
    fields are written. *)
Definition stagePendingOnly (opt : TodoList.DueOption) (x : TodoList.Task) : TodoList.Task :=
  {| TodoList.id := TodoList.id x; TodoList.text := TodoList.text x;
     TodoList.done := TodoList.done x; TodoList.priority := TodoList.priority x;
     TodoList.dueKey := TodoList.dueKey x; TodoList.dueISO := TodoList.dueISO x;
     TodoList.pendingDueKey := Some (TodoList.key opt);
     TodoList.pendingDueISO := Some (TodoList.iso opt);
     TodoList.dueLabel := TodoList.dueLabel x;
     TodoList.notes := TodoList.notes x; TodoList.expanded := TodoList.expanded x |}.

(** Two tasks agree on every field that a due-date edit leaves alone. *)
Definition sameOutsideDue (x y : TodoList.Task) : Prop :=
  TodoList.id y = TodoList.id x /\ TodoList.text y = TodoList.text x
  /\ TodoList.done y = TodoList.done x /\ TodoList.priority y = TodoList.priority x
  /\ TodoList.notes y = TodoList.notes x /\ TodoList.expanded y = TodoList.expanded x.

(** Sample data: Wednesday 3 January 2024, 09:00 local time. *)
Definition wednesday_2024_01_03 : Date := mkDate 19725 (9 * 3600000).

Definition sampleTask (i : string) (d : bool) (p : string) (due : option string)
  : TodoList.Task :=
  {| TodoList.id := i; TodoList.text := "task " +:+ i; TodoList.done := d;
     TodoList.priority := p;
     TodoList.dueKey := None; TodoList.dueISO := due;
     TodoList.pendingDueKey := None; TodoList.pendingDueISO := None;
     TodoList.dueLabel := Some "Today (01/03/24)";
     TodoList.notes := ""; TodoList.expanded := false |}.

Definition sampleState (ts : list TodoList.Task) (pinned : option string) : TodoList.State :=
  {| TodoList.tasks := ts; TodoList.pinnedNewId := pinned;
     TodoList.lastCleanupISO := None |}.

(** The three tiers. *)
Definition isTier (s : string) : bool :=
  String.eqb s "high" || String.eqb s "medium" || String.eqb s "low".

(** The classification of the specification, on a day distance. *)
Definition classify (d : Z) : string :=
  if d <? 35 then "high" else if d <? 105 then "medium" else "low".

(** [n > 0] as JavaScript compares numbers. *)
Definition positive_num (n : JsNum) : Prop :=
  match n with
  | Fin q => (0 < q)%Q
  | PosInf => True
  | NaN | NegInf => False
  end.

(** The text splits on "-" into at least three parts of which the first
    three are positive numbers. *)
Definition threePositiveParts (Number : string -> JsNum) (s : string) : Prop :=
  exists y m d rest,
    Js.split "-" s = y :: m :: d :: rest
    /\ positive_num (Number y) /\ positive_num (Number m) /\ positive_num (Number d).

(** What the proofs use of [Number]: a numeral without a minus sign does
    not denote a negative number, and decimal numerals, also with a
    leading zero, denote their value. *)
Definition signNeedsMinus (Number : string -> JsNum) : Prop :=
  forall s, lacks "-" s = true ->
    match Number s with
    | Fin q => (0 <= q)%Q
    | NegInf => False
    | NaN | PosInf => True
    end.

Definition readsDecimal (Number : string -> JsNum) : Prop :=
  (forall n, 0 <= n -> Number (Js.String_of_Z n) = Fin (inject_Z n))
  /\ (forall n, 0 <= n <= 99 -> Number (pad2 n) = Fin (inject_Z n)).

(** Day numbers from 0100-01-01 up to the last day that a [Date] can
    hold (100,000,000 days after the epoch). *)
Definition firstDay100 : Z := Eval vm_compute in days_from_civil 100 1 1.
Definition inDateRange (n : Z) : Prop := firstDay100 <= n <= 100000000.

(** A stand-in for [Number] on which examples are run: an unsigned
    decimal numeral denotes its value, the empty string 0, and any other
    text is not a number. *)
Definition NumberDec (s : string) : JsNum :=
  match NilZero.uint_of_string s with
  | Some d => Fin (inject_Z (Z.of_uint d))
  | None => if String.eqb s "" then Fin 0 else NaN
  end.

(** A stored list with one work order whose urgency is not a tier. *)
Definition storedUrgent : JsValue :=
  JArr [JObj [("id", JStr "wo-1"); ("urgency", JStr "urgent"); ("notes", JArr [])]].

(** On Sundays and on Mondays the day that [nextMondayFrom] gives is
    tomorrow. *)
Definition nextMonIsTomorrow (now : Date) : bool :=
  (getDay now =? 0) || (getDay now =? 1).

(** The key and the option under which a chosen due option is committed. *)
Definition committedKey (now : Date) (o : TodoList.DueOption) : string :=
  if nextMonIsTomorrow now && String.eqb (TodoList.key o) "next-mon"
  then "tomorrow" else TodoList.key o.

Definition committedOption (now : Date) (o : TodoList.DueOption) : TodoList.DueOption :=
  if String.eqb (TodoList.key o) "next-mon" then
    if getDay now =? 0 then TodoList.todayOption (startOfDay now)
    else if getDay now =? 1 then TodoList.tomorrowOption (addDays (startOfDay now) 1)
    else o
  else o.

(** Sample work orders. *)
Definition sampleWO (i : string) (due u : option string) : WorkOrders.WorkOrder :=
  {| WorkOrders.id := i; WorkOrders.salesOrder := "SO-" +:+ i;
     WorkOrders.workOrder := "WO-" +:+ i; WorkOrders.customer := "";
     WorkOrders.status := WorkOrders.NotStarted;
     WorkOrders.due_on := due; WorkOrders.urgency := u;
     WorkOrders.notes := []; WorkOrders.created_at := "2024-01-03T09:00:00.000Z" |}.

(** No character of [s] is a decimal digit. *)
Fixpoint lacksDigit (s : string) : bool :=
  match s with
  | EmptyString => true
  | String a rest => negb (Js.is_digit a) && lacksDigit rest
  end.

(** Day numbers of the years 2000 to 2099. *)
Definition firstDay2000 : Z := Eval vm_compute in days_from_civil 2000 1 1.
Definition lastDay2099 : Z := Eval vm_compute in days_from_civil 2099 12 31.
Definition in2000s (n : Z) : Prop := firstDay2000 <= n <= lastDay2099.

(** [pad2 n] is two digits that [parseInt] reads back as [n]. *)
Definition pad2_reads (n : Z) : bool :=
  match pad2 n with
  | String a (String b EmptyString) =>
      Js.is_digit a && Js.is_digit b && (Js.parseInt10 (pad2 n) =? n)
  | _ => false
  end.

(** The last two digits of the year [2000 + k]. *)
Definition year_tail (k : Z) : bool :=
  String.eqb (Js.slice_last 2 (Js.String_of_Z (2000 + k))) (pad2 k).

(** The urgency of every work order is the tier derived from its due date. *)
Definition urgencyDerived (Number : string -> JsNum) (now : Date)
    (items : list WorkOrders.WorkOrder) : Prop :=
  List.Forall (fun w => WorkOrders.urgency w
                        = Some (WOList.computeUrgencyFromDue Number (WorkOrders.due_on w) now))
    items.

(** The rank of a tier in the order of escalation. *)
Definition tierRank (u : string) : Z :=
  if String.eqb u "high" then 0 else if String.eqb u "medium" then 1 else 2.

(** [String(x)] prints a non-negative integer in decimal. *)
Definition printsIntegers (NumToString : JsNum -> string) : Prop :=
  forall n, 0 <= n -> NumToString (Fin (inject_Z n)) = Js.String_of_Z n.

(** A stand-in for [String] on numbers, for examples: integers only. *)
Definition NumToStringDec (x : JsNum) : string :=
  match x with
  | Fin q => Js.String_of_Z (Qnum q / Zpos (Qden q))
  | NaN => "NaN"
  | PosInf => "Infinity"
  | NegInf => "-Infinity"
  end.

(** The notes of a stored work order can be loaded: absent, falsy or a list. *)
Definition notesLoadable (w : JsValue) : bool :=
  match js_or (getProp w "notes") (JArr []) with
  | JArr _ => true
  | _ => false
  end.

(** No character of [s] is white space. *)
Fixpoint noSpace (s : string) : bool :=
  match s with
  | EmptyString => true
  | String a rest => negb (Js.is_space a) && noSpace rest
  end.

(** The text [MM/DD/YY] of month [m], day [d] and a year that ends in [yy]. *)
Definition shortDate (m d yy : Z) : string :=
  pad2 m +:+ "/" +:+ pad2 d +:+ "/" +:+ pad2 yy.

(** The text [YYYY-MM-DD] of a year, a month and a day. *)
Definition isoText (y m d : Z) : string :=
  Js.String_of_Z y +:+ "-" +:+ pad2 m +:+ "-" +:+ pad2 d.

(** The rank by which the minimal task list sorts. *)
Definition minimalRank (t : MinimalTodo.Task) : Z :=
  default 0 (MinimalTodo.priorityRank (MinimalTodo.priority t)).

Definition sampleMini (i : string) (d : bool) (p : string) : MinimalTodo.Task :=
  {| MinimalTodo.id := i; MinimalTodo.text := "task " +:+ i;
     MinimalTodo.done := d; MinimalTodo.priority := p |}.

(** [String(v)] gives a text: [v] is a string, or a value that the
    conversion accepts. *)
Definition converts (ToString : JsValue -> option string) (v : JsValue) : bool :=
  match v with
  | JStr _ => true
  | _ => match ToString v with
         | Some _ => true
         | None => false
         end
  end.

(** An entry of a stored task list can be read: it is no object, or its id
    and its text, where present, can be converted to texts. *)
Definition entryReadable (ToString : JsValue -> option string) (t : JsValue) : bool :=
  negb (MinimalTodo.isObject t)
  || ((nullish (getProp t "id") || converts ToString (getProp t "id"))
      && (nullish (getProp t "text") || converts ToString (getProp t "text"))).

(** A stand-in for [String] on values that are no strings, for examples:
    an object with an own member [toString] (which in stored data is never
    callable) cannot be converted. *)
Definition ToStringPlain (v : JsValue) : option string :=
  match v with
  | JObj fields =>
      if existsb (fun kv => String.eqb (fst kv) "toString") fields then None
      else Some "[object Object]"
  | JUndefined => Some "undefined"
  | JNull => Some "null"
  | JBool b => Some (if b then "true" else "false")
  | JStr s => Some s
  | JNum _ | JArr _ => Some ""
  end.

(** A stored task list with one task whose id is an object with a member
    [toString] that is a number. *)
Definition storedBadId : JsValue :=
  JArr [JObj [("id", JObj [("toString", JNum (Fin 1))]); ("text", JStr "a")]].

(* ================================================================= *)
(** * Part II: properties *)
(* ================================================================= *)

Import TodoList.

(** Division and remainder by constants are in the scope of [lia]. *)
Ltac Zify.zify_post_hook ::= Z.div_mod_to_equations.

(** *** Weekdays and due options *)

Example calendar_samples :
  map isoOfDay [0; 11016; 19723; -25509; 2932896]
  = ["1970-01-01"; "2000-02-29"; "2024-01-01"; "1900-02-28"; "9999-12-31"]
  /\ map (fun n => weekdayName (dateOfDay n)) [0; 11016; 19723]
     = ["Thursday"; "Tuesday"; "Monday"]
  /\ days_from_civil 2024 1 1 = 19723.
Proof. vm_compute. repeat split; reflexivity. Qed.


Lemma getDay_range d : 0 <= getDay d <= 6.
Proof. unfold getDay. pose proof (Z.mod_pos_bound (dayNumber d + 4) 7). lia. Qed.

Lemma getDay_addDays d n :
  getDay (addDays d n) = (getDay d + n) mod 7.
Proof. unfold getDay, addDays; simpl. rewrite Zplus_mod_idemp_l. f_equal. lia. Qed.

Lemma getDay_startOfDay d : getDay (startOfDay d) = getDay d.
Proof. reflexivity. Qed.

Lemma nextMondayFrom_offset d :
  nextMondayFrom d =
  addDays d (if getDay d =? 1 then 1 else if getDay d =? 0 then 1 else 8 - getDay d).
Proof.
  unfold nextMondayFrom. pose proof (getDay_range d) as H.
  assert (C: getDay d = 0 \/ getDay d = 1 \/ getDay d = 2 \/ getDay d = 3 \/ getDay d = 4 \/ getDay d = 5 \/ getDay d = 6) by lia.
  destruct C as [E|[E|[E|[E|[E|[E|E]]]]]]; rewrite E; reflexivity.
Qed.

Lemma weekdayLoop_step cursor options :
  weekdayLoop cursor options =
  if getDay cursor <=? 5
  then weekdayLoop (addDays cursor 1) (options ++ [weekdayOption cursor])
  else options.
Proof.
  rewrite weekdayLoop_equation_1. 
  destruct (Z_le_dec (getDay cursor) 5) as [H|H]; simpl.
  - apply Z.leb_le in H. rewrite H. reflexivity.
  - apply Z.leb_nle in H. rewrite H. reflexivity.
Qed.

Lemma addDays_addDays d a b : addDays (addDays d a) b = addDays d (a + b).
Proof. unfold addDays; simpl. f_equal. lia. Qed.

Lemma weekdayLoop_run (n : nat) : forall cursor options,
  getDay cursor + Z.of_nat n = 6 ->
  weekdayLoop cursor options =
  options ++ map (fun k => weekdayOption (addDays cursor (Z.of_nat k))) (seq 0 n).
Proof.
  induction n as [|n IH]; intros cursor options Hg; rewrite weekdayLoop_step.
  - replace (getDay cursor <=? 5) with false by (symmetry; apply Z.leb_gt; lia).
    simpl. now rewrite app_nil_r.
  - replace (getDay cursor <=? 5) with true by (symmetry; apply Z.leb_le; lia).
    rewrite IH.
    + rewrite <- app_assoc. f_equal. simpl. f_equal.
      * f_equal. unfold addDays. destruct cursor; simpl. f_equal. lia.
      * rewrite <- seq_shift, map_map. apply map_ext. intros k.
        rewrite addDays_addDays. do 2 f_equal. lia.
    + rewrite getDay_addDays. pose proof (getDay_range cursor).
      rewrite Z.mod_small; lia.
Qed.

Lemma weekday_start_range (now : Date) :
  isWeekendStart (getDay (startOfDay now)) = false -> 1 <= getDay (startOfDay now) <= 4.
Proof.
  intros E. pose proof (getDay_range (startOfDay now)) as Hr. unfold isWeekendStart in E.
  apply orb_false_iff in E as [E E0]. apply orb_false_iff in E as [E5 E6]. lia.
Qed.

Lemma buildDueOptions_optionsSpec (now : Date) : buildDueOptions now = optionsSpec now.
Proof.
  unfold buildDueOptions, optionsSpec, weekdayOffsets. cbv zeta.
  fold (isWeekendStart (getDay (startOfDay now))).
  destruct (isWeekendStart (getDay (startOfDay now))) eqn:E; [reflexivity|].
  pose proof (weekday_start_range now E) as Hd.
  rewrite (weekdayLoop_run (Z.to_nat (4 - getDay (startOfDay now)))).
  - simpl. do 3 f_equal.
    rewrite <- seq_shift, <- seq_shift, !map_map. apply map_ext. intros k.
    rewrite addDays_addDays. do 2 f_equal. lia.
  - rewrite getDay_addDays. rewrite Z.mod_small; lia.
Qed.

Lemma weekdayOffsets_weekdays (now : Date) :
  let today := startOfDay now in
  List.Forall (fun k => getDay (addDays today (Z.of_nat k)) = getDay today + Z.of_nat k
                        /\ 3 <= getDay today + Z.of_nat k <= 5) (weekdayOffsets now).
Proof.
  intros today. unfold weekdayOffsets. fold today.
  destruct (isWeekendStart (getDay today)) eqn:E; [constructor|].
  pose proof (weekday_start_range now E) as Hd. fold today in Hd.
  apply List.Forall_forall. intros k Hk. apply in_seq in Hk.
  rewrite getDay_addDays. rewrite Z.mod_small; lia.
Qed.

(** The keys of the due options, in order. *)
Lemma buildDueOptions_keys (now : Date) :
  let today := startOfDay now in
  map key (buildDueOptions now) =
  if isWeekendStart (getDay today) then ["today"; "next-mon"]
  else "today" :: "tomorrow"
       :: map (fun k => "wd-" +:+ toISODate (addDays today (Z.of_nat k))) (weekdayOffsets now)
       ++ ["next-mon"].
Proof.
  intros today. rewrite buildDueOptions_optionsSpec.
  unfold optionsSpec. fold today.
  destruct (isWeekendStart (getDay today)); [reflexivity|].
  simpl. rewrite map_app, map_map. reflexivity.
Qed.

(** C3. The due options always start with "today".  From Friday to
    Sunday the only other option is "next-mon".  From Monday to Thursday
    they continue with "tomorrow", then one option keyed [wd-<date>] for
    every following day up to and including Friday, and end with
    "next-mon". *)
Theorem buildDueOptions_spec (now : Date) :
  let today := startOfDay now in
  buildDueOptions now = optionsSpec now
  /\ map key (buildDueOptions now) =
     (if isWeekendStart (getDay today) then ["today"; "next-mon"]
      else "today" :: "tomorrow"
           :: map (fun k => "wd-" +:+ toISODate (addDays today (Z.of_nat k)))
                  (weekdayOffsets now)
           ++ ["next-mon"])
  /\ List.Forall (fun k => getDay (addDays today (Z.of_nat k)) = getDay today + Z.of_nat k
                           /\ 3 <= getDay today + Z.of_nat k <= 5) (weekdayOffsets now).
Proof.
  intros today. split; [apply buildDueOptions_optionsSpec|].
  split; [apply buildDueOptions_keys|apply weekdayOffsets_weekdays].
Qed.

Example options_saturday :
  map key (buildDueOptions (mkDate 19728 36000000)) = ["today"; "next-mon"].
Proof. reflexivity. Qed.

(** *** The calendar *)

Lemma yoe_spec doe :
  0 <= doe <= 146096 ->
  0 <= yoe_of doe <= 399 /\ ys (yoe_of doe) <= doe
  /\ (doe < ys (yoe_of doe + 1) \/ doe = 146096).
Proof. intros H. unfold ys, yoe_of. lia. Qed.

Lemma ys_mono a b : a <= b -> ys a <= ys b.
Proof. unfold ys. lia. Qed.

Lemma ys_len y : 365 <= ys (y + 1) - ys y <= 366.
Proof. unfold ys. lia. Qed.

Lemma civil_decomp z : exists era yoe doy mp, Decomp z era yoe doy mp.
Proof.
  pose proof (Z.mod_pos_bound (z + 719468) 146097 ltac:(lia)) as Hb.
  pose proof (Z.div_mod (z + 719468) 146097 ltac:(lia)) as Hdm.
  set (doe := (z + 719468) mod 146097) in *.
  set (era := (z + 719468) / 146097) in *.
  destruct (yoe_spec doe ltac:(lia)) as (Hy & Hlo & Hhi).
  exists era, (yoe_of doe), (doe - ys (yoe_of doe)),
         ((5 * (doe - ys (yoe_of doe)) + 2) / 153).
  split; try lia.
  - destruct Hhi as [Hhi| ->]; [left; lia|right].
    change (yoe_of 146096) with 399. change (ys 399) with 145731. lia.
  - unfold civil_from_days. cbv zeta. fold doe. fold era. fold (yoe_of doe).
    change (365 * yoe_of doe + yoe_of doe / 4 - yoe_of doe / 100) with (ys (yoe_of doe)).
    set (mp := (5 * (doe - ys (yoe_of doe)) + 2) / 153).
    assert (Hmp: 0 <= mp <= 11).
    { pose proof (ys_len (yoe_of doe)). unfold mp.
      destruct Hhi as [Hhi|Hhi]; [lia|].
      rewrite Hhi. change (yoe_of 146096) with 399. change (ys 399) with 145731. lia. }
    destruct (mp <? 10) eqn:E.
    + apply Z.ltb_lt in E.
      replace (mp + 3 <=? 2) with false by (symmetry; apply Z.leb_gt; lia).
      f_equal. f_equal. lia.
    + apply Z.ltb_ge in E.
      replace (mp - 9 <=? 2) with true by (symmetry; apply Z.leb_le; lia).
      reflexivity.
Qed.

Lemma Decomp_ranges z era yoe doy mp :
  Decomp z era yoe doy mp ->
  0 <= doy <= 365 /\ 0 <= mp <= 11 /\ 1 <= doy - (153 * mp + 2) / 5 + 1 <= 31.
Proof.
  intros [Hday Hyoe Hdoy Hend Hmp _]. pose proof (ys_len yoe).
  assert (0 <= doy <= 365) by lia. subst mp. lia.
Qed.

Lemma civil_ranges z :
  1 <= snd (fst (civil_from_days z)) <= 12 /\ 1 <= snd (civil_from_days z) <= 31.
Proof.
  destruct (civil_decomp z) as (era & yoe & doy & mp & D).
  pose proof (Decomp_ranges _ _ _ _ _ D) as (_ & Hmp & Hd).
  rewrite (dec_civil _ _ _ _ _ D). simpl. destruct (mp <? 10) eqn:E; lia.
Qed.

Lemma civil_roundtrip z :
  days_from_civil (fst (fst (civil_from_days z))) (snd (fst (civil_from_days z)))
                  (snd (civil_from_days z)) = z.
Proof.
  destruct (civil_decomp z) as (era & yoe & doy & mp & D).
  pose proof (Decomp_ranges _ _ _ _ _ D) as (Hdoy & Hmp & Hd).
  rewrite (dec_civil _ _ _ _ _ D). simpl.
  destruct D as [Hday Hyoe _ _ _ _]. unfold days_from_civil.
  assert (Hy': (if (if mp <? 10 then mp + 3 else mp - 9) <=? 2
                then yoe + era * 400 + (if mp <? 10 then 0 else 1) - 1
                else yoe + era * 400 + (if mp <? 10 then 0 else 1)) = yoe + era * 400).
  { destruct (mp <? 10) eqn:E.
    - replace (mp + 3 <=? 2) with false by (symmetry; apply Z.leb_gt; lia). lia.
    - replace (mp - 9 <=? 2) with true by (symmetry; apply Z.leb_le; lia). lia. }
  assert (Hm': (if 2 <? (if mp <? 10 then mp + 3 else mp - 9)
                then (if mp <? 10 then mp + 3 else mp - 9) - 3
                else (if mp <? 10 then mp + 3 else mp - 9) + 9) = mp).
  { destruct (mp <? 10) eqn:E.
    - replace (2 <? mp + 3) with true by (symmetry; apply Z.ltb_lt; lia). lia.
    - replace (2 <? mp - 9) with false by (symmetry; apply Z.ltb_ge; lia). lia. }
  cbv zeta. rewrite Hy', Hm'.
  rewrite Z.div_add, Z.mod_add by lia.
  rewrite (Z.mod_small yoe 400), (Z.div_small yoe 400) by lia.
  unfold ys in Hday. lia.
Qed.

Lemma civil_from_days_inj z1 z2 : civil_from_days z1 = civil_from_days z2 -> z1 = z2.
Proof.
  intros H. rewrite <- (civil_roundtrip z1), <- (civil_roundtrip z2), H. reflexivity.
Qed.

Lemma Decomp_order z1 era1 yoe1 doy1 mp1 z2 era2 yoe2 doy2 mp2 :
  Decomp z1 era1 yoe1 doy1 mp1 -> Decomp z2 era2 yoe2 doy2 mp2 -> z1 < z2 ->
  400 * era1 + yoe1 < 400 * era2 + yoe2
  \/ (400 * era1 + yoe1 = 400 * era2 + yoe2 /\ doy1 < doy2).
Proof.
  intros D1 D2 Hlt.
  pose proof (Decomp_ranges _ _ _ _ _ D1) as (Hdoy1 & _).
  pose proof (Decomp_ranges _ _ _ _ _ D2) as (Hdoy2 & _).
  destruct D1 as [Hday1 Hyoe1 _ Hend1 _ _], D2 as [Hday2 Hyoe2 _ Hend2 _ _].
  assert (Hys1: 0 <= ys yoe1 /\ ys yoe1 + doy1 <= 146096).
  { split; [change 0 with (ys 0); apply ys_mono; lia|].
    destruct Hend1 as [H|[-> ->]]; [|change (ys 399) with 145731; lia].
    pose proof (ys_mono (yoe1 + 1) 400 ltac:(lia)). change (ys 400) with 146096 in *. lia. }
  assert (Hys2: 0 <= ys yoe2 /\ ys yoe2 + doy2 <= 146096).
  { split; [change 0 with (ys 0); apply ys_mono; lia|].
    destruct Hend2 as [H|[-> ->]]; [|change (ys 399) with 145731; lia].
    pose proof (ys_mono (yoe2 + 1) 400 ltac:(lia)). change (ys 400) with 146096 in *. lia. }
  assert (Hera: era1 <= era2) by lia.
  destruct (Z.eq_dec era1 era2) as [->|Hne]; [|left; lia].
  assert (Hdoe: ys yoe1 + doy1 < ys yoe2 + doy2) by lia.
  destruct (Z_lt_le_dec yoe2 yoe1) as [Hy|Hy].
  - exfalso. pose proof (ys_mono (yoe2 + 1) yoe1 ltac:(lia)).
    destruct Hend2 as [H2|[-> ->]]; lia.
  - destruct (Z.eq_dec yoe1 yoe2) as [->|Hne]; [right; lia|left; lia].
Qed.

Lemma civil_mono z1 z2 :
  z1 < z2 -> lex_ltb (civil_from_days z1) (civil_from_days z2) = true.
Proof.
  intros Hlt.
  destruct (civil_decomp z1) as (era1 & yoe1 & doy1 & mp1 & D1).
  destruct (civil_decomp z2) as (era2 & yoe2 & doy2 & mp2 & D2).
  pose proof (Decomp_order _ _ _ _ _ _ _ _ _ _ D1 D2 Hlt) as Hord.
  pose proof (Decomp_ranges _ _ _ _ _ D1) as (Hdoy1 & Hmp1 & Hd1).
  pose proof (Decomp_ranges _ _ _ _ _ D2) as (Hdoy2 & Hmp2 & Hd2).
  rewrite (dec_civil _ _ _ _ _ D1), (dec_civil _ _ _ _ _ D2).
  pose proof (dec_mp _ _ _ _ _ D1) as E1. pose proof (dec_mp _ _ _ _ _ D2) as E2.
  assert (Hmd: 400 * era1 + yoe1 = 400 * era2 + yoe2 ->
               mp1 < mp2 \/ (mp1 = mp2 /\ doy1 < doy2)).
  { intros Heq. destruct Hord as [?|[_ Hd]]; [lia|]. subst mp1 mp2. lia. }
  clear E1 E2 D1 D2.
  unfold lex_ltb.
  rewrite !orb_true_iff, !andb_true_iff, !orb_true_iff, !andb_true_iff.
  rewrite !Z.ltb_lt, !Z.eqb_eq.
  destruct (mp1 <? 10) eqn:C1; destruct (mp2 <? 10) eqn:C2;
    try apply Z.ltb_lt in C1; try apply Z.ltb_ge in C1;
    try apply Z.ltb_lt in C2; try apply Z.ltb_ge in C2;
    destruct Hord as [Hy|[Hy Hd]]; lia.
Qed.

(** *** Strings *)

#[local] Arguments String.append !s1 s2 : simpl nomatch.

Lemma forall_from_spec n : forall z0 p,
  forall_from n z0 p = true -> forall z, z0 <= z < z0 + Z.of_nat n -> p z = true.
Proof.
  induction n as [|n IH]; intros z0 p H z Hz; [lia|].
  simpl in H. apply andb_true_iff in H as [H1 H2].
  destruct (Z.eq_dec z z0) as [->|Hne]; [exact H1|].
  apply (IH (z0 + 1) p H2). lia.
Qed.

Lemma append_length s t : String.length (s +:+ t) = (String.length s + String.length t)%nat.
Proof. induction s as [|a s IH]; simpl; [reflexivity|now rewrite IH]. Qed.

Lemma append_assoc s t u : (s +:+ t) +:+ u = s +:+ (t +:+ u).
Proof. induction s as [|a s IH]; simpl; [reflexivity|now rewrite IH]. Qed.

Lemma append_inj s1 : forall s2 t1 t2,
  String.length s1 = String.length s2 ->
  s1 +:+ t1 = s2 +:+ t2 -> s1 = s2 /\ t1 = t2.
Proof.
  induction s1 as [|a s1 IH]; intros [|b s2] t1 t2 Hl H; simpl in *; try discriminate.
  - auto.
  - injection H as -> H. destruct (IH s2 t1 t2) as [-> ->]; auto.
Qed.

Lemma append_inj_r s1 s2 t1 t2 :
  String.length t1 = String.length t2 ->
  s1 +:+ t1 = s2 +:+ t2 -> s1 = s2 /\ t1 = t2.
Proof.
  intros Hl H. apply append_inj; [|exact H].
  apply (f_equal String.length) in H. rewrite !append_length in H. lia.
Qed.

Lemma compare_refl s : String.compare s s = Eq.
Proof.
  induction s as [|a s IH]; simpl; [reflexivity|].
  unfold Ascii.compare. now rewrite N.compare_refl.
Qed.

Lemma compare_append s1 : forall s2 t1 t2,
  String.length s1 = String.length s2 ->
  String.compare (s1 +:+ t1) (s2 +:+ t2) =
  match String.compare s1 s2 with Eq => String.compare t1 t2 | c => c end.
Proof.
  induction s1 as [|a s1 IH]; intros [|b s2] t1 t2 Hl; simpl in *; try discriminate.
  - reflexivity.
  - destruct (Ascii.compare a b); auto.
Qed.

Lemma to_int_not_nil z :
  Z.to_int z <> Decimal.Pos Decimal.Nil /\ Z.to_int z <> Decimal.Neg Decimal.Nil.
Proof.
  destruct z as [|p|p]; simpl; split; try discriminate;
    intros H; injection H as H; now apply DecimalPos.Unsigned.to_uint_nonnil in H.
Qed.

Lemma String_of_Z_inj a b : Js.String_of_Z a = Js.String_of_Z b -> a = b.
Proof.
  unfold Js.String_of_Z. intros H. apply DecimalZ.to_int_inj.
  destruct (to_int_not_nil a) as [Ha1 Ha2], (to_int_not_nil b) as [Hb1 Hb2].
  pose proof (NilZero.isi _ Ha1 Ha2) as Ea. pose proof (NilZero.isi _ Hb1 Hb2) as Eb.
  rewrite H in Ea. congruence.
Qed.

Lemma pad2_length n : 0 <= n <= 99 -> String.length (pad2 n) = 2%nat.
Proof.
  intros H.
  assert (E: forall_from 100 0 (fun n => (String.length (pad2 n) =? 2)%nat) = true)
    by (vm_compute; reflexivity).
  apply Nat.eqb_eq. apply (forall_from_spec _ _ _ E). lia.
Qed.

Lemma pad2_compare a b :
  0 <= a <= 99 -> 0 <= b <= 99 -> String.compare (pad2 a) (pad2 b) = (a ?= b).
Proof.
  intros Ha Hb.
  assert (E: forall_from 100 0 (fun a => forall_from 100 0 (fun b =>
               match String.compare (pad2 a) (pad2 b), a ?= b with
               | Eq, Eq | Lt, Lt | Gt, Gt => true
               | _, _ => false
               end)) = true) by (vm_compute; reflexivity).
  pose proof (forall_from_spec _ _ _ E a ltac:(lia)) as E1. cbv beta in E1.
  pose proof (forall_from_spec _ _ _ E1 b ltac:(lia)) as E2. cbv beta in E2.
  destruct (String.compare (pad2 a) (pad2 b)), (a ?= b); congruence.
Qed.

Lemma pad2_inj a b : 0 <= a <= 99 -> 0 <= b <= 99 -> pad2 a = pad2 b -> a = b.
Proof.
  intros Ha Hb H. apply Z.compare_eq. rewrite <- pad2_compare by assumption.
  rewrite H. apply compare_refl.
Qed.

Lemma toISODate_civil d :
  toISODate d =
  let '(y, m, dd) := civil_from_days (dayNumber d) in
  Js.String_of_Z y +:+ "-" +:+ pad2 m +:+ "-" +:+ pad2 dd.
Proof.
  unfold toISODate, getFullYear, getMonth, getDate.
  destruct (civil_from_days (dayNumber d)) as [[y m] dd]. simpl.
  now replace (m - 1 + 1) with m by lia.
Qed.

Lemma iso_format_inj y1 m1 d1 y2 m2 d2 :
  0 <= m1 <= 99 -> 0 <= d1 <= 99 -> 0 <= m2 <= 99 -> 0 <= d2 <= 99 ->
  Js.String_of_Z y1 +:+ "-" +:+ pad2 m1 +:+ "-" +:+ pad2 d1 =
  Js.String_of_Z y2 +:+ "-" +:+ pad2 m2 +:+ "-" +:+ pad2 d2 ->
  y1 = y2 /\ m1 = m2 /\ d1 = d2.
Proof.
  intros Hm1 Hd1 Hm2 Hd2 H.
  apply append_inj_r in H.
  2:{ rewrite !append_length, !pad2_length by assumption. reflexivity. }
  destruct H as [Hy H]. apply String_of_Z_inj in Hy.
  apply (append_inj "-" "-") in H; [|reflexivity]. destruct H as [_ H].
  apply append_inj in H; [|now rewrite !pad2_length].
  destruct H as [Hm H]. apply pad2_inj in Hm; try assumption.
  apply (append_inj "-" "-") in H; [|reflexivity]. destruct H as [_ H].
  apply pad2_inj in H; auto.
Qed.

Lemma toISODate_inj d1 d2 : toISODate d1 = toISODate d2 -> dayNumber d1 = dayNumber d2.
Proof.
  rewrite !toISODate_civil. intros H.
  pose proof (civil_ranges (dayNumber d1)) as R1.
  pose proof (civil_ranges (dayNumber d2)) as R2.
  apply civil_from_days_inj.
  destruct (civil_from_days (dayNumber d1)) as [[y1 m1] dd1].
  destruct (civil_from_days (dayNumber d2)) as [[y2 m2] dd2]. simpl in *.
  apply iso_format_inj in H; [|lia..]. destruct H as (-> & -> & ->). reflexivity.
Qed.

Lemma toISODate_eqb d1 d2 :
  String.eqb (toISODate d1) (toISODate d2) = (dayNumber d1 =? dayNumber d2).
Proof.
  destruct (Z.eqb_spec (dayNumber d1) (dayNumber d2)) as [E|E].
  - apply String.eqb_eq. rewrite !toISODate_civil, E. reflexivity.
  - apply String.eqb_neq. intros H. now apply toISODate_inj in H.
Qed.

Lemma toISODate_nonempty d : String.eqb (toISODate d) "" = false.
Proof.
  apply String.eqb_neq. intros H. apply (f_equal String.length) in H.
  rewrite toISODate_civil in H.
  destruct (civil_from_days (dayNumber d)) as [[y m] dd].
  rewrite !append_length in H. simpl in H. lia.
Qed.

(** *** Buckets *)

Lemma nextMondayFrom_dayNumber d :
  dayNumber d + 1 <= dayNumber (nextMondayFrom d) <= dayNumber d + 6.
Proof.
  rewrite nextMondayFrom_offset. pose proof (getDay_range d).
  destruct (getDay d =? 1) eqn:E1; [simpl; lia|].
  destruct (getDay d =? 0) eqn:E0; [simpl; lia|].
  apply Z.eqb_neq in E1, E0. simpl. lia.
Qed.

Lemma nextMondayFrom_monday d :
  getDay d = 1 -> nextMondayFrom d = addDays d 1 /\ getDay (nextMondayFrom d) = 2.
Proof.
  intros H. rewrite nextMondayFrom_offset, H. simpl. split; [reflexivity|].
  rewrite getDay_addDays, H. reflexivity.
Qed.

Lemma nextMondayFrom_other d :
  getDay d <> 1 ->
  getDay (nextMondayFrom d) = 1
  /\ dayNumber d < dayNumber (nextMondayFrom d)
  /\ forall n, dayNumber d < n < dayNumber (nextMondayFrom d) -> (n + 4) mod 7 <> 1.
Proof.
  intros H. pose proof (getDay_range d) as Hr.
  rewrite nextMondayFrom_offset.
  apply Z.eqb_neq in H. rewrite H.
  unfold getDay in *. apply Z.eqb_neq in H.
  destruct ((dayNumber d + 4) mod 7 =? 0) eqn:E0; simpl.
  - apply Z.eqb_eq in E0. repeat split; try lia. 
  - apply Z.eqb_neq in E0. repeat split; try lia. 
Qed.

Lemma computeKeyForISO_day (n : Z) (now : Date) :
  computeKeyForISO (Some (isoOfDay n)) now =
  if n =? dayNumber now then "today"
  else if n =? dayNumber now + 1 then "tomorrow"
  else if n =? dayNumber (nextMondayFrom (startOfDay now)) then "next-mon"
  else "wd-" +:+ isoOfDay n.
Proof.
  unfold computeKeyForISO, isoOfDay. simpl Js.falsy_str.
  rewrite toISODate_nonempty. simpl default.
  rewrite !toISODate_eqb. reflexivity.
Qed.

(** C8. A date 10 days ahead keeps the key [wd-<date>] from one day to
    the next; today's date has the key "today" now and, one day later, the
    key [wd-<date>] of its literal date. *)
Theorem bucket_key_stability (now : Date) :
  let today := dayNumber now in
  let tomorrowNow := addDays now 1 in
  computeKeyForISO (Some (isoOfDay (today + 10))) now = "wd-" +:+ isoOfDay (today + 10)
  /\ computeKeyForISO (Some (isoOfDay (today + 10))) tomorrowNow
     = computeKeyForISO (Some (isoOfDay (today + 10))) now
  /\ computeKeyForISO (Some (isoOfDay today)) now = "today"
  /\ computeKeyForISO (Some (isoOfDay today)) tomorrowNow = "wd-" +:+ isoOfDay today.
Proof.
  intros today tomorrowNow.
  pose proof (nextMondayFrom_dayNumber (startOfDay now)) as H1.
  pose proof (nextMondayFrom_dayNumber (startOfDay tomorrowNow)) as H2.
  simpl in H1, H2. fold today in H1, H2.
  rewrite !computeKeyForISO_day. simpl dayNumber. fold today.
  repeat match goal with
         | |- context [?a =? ?b] =>
             destruct (Z.eqb_spec a b); try lia
         end.
  auto.
Qed.

(** C1 (failing input). On Monday 2024-01-01 the date computed for
    "next Monday" is Tuesday 2024-01-02, today plus one day, and the
    "next-mon" due option carries that date. *)
Theorem nextMonday_on_a_monday :
  let today := startOfDay monday_2024_01_01 in
  toISODate today = "2024-01-01"
  /\ getDay today = 1
  /\ nextMondayFrom today = addDays today 1
  /\ toISODate (nextMondayFrom today) = "2024-01-02"
  /\ getDay (nextMondayFrom today) = 2
  /\ List.find (fun o => String.eqb (key o) "next-mon") (buildDueOptions monday_2024_01_01)
     = Some {| key := "next-mon"; label := "Next Monday (01/02/24)"; iso := "2024-01-02" |}.
Proof. vm_compute. repeat split; reflexivity. Qed.

(** *** Order of canonical dates and the daily clean-up *)

Lemma year4_digits y :
  1000 <= y <= 9999 -> Js.String_of_Z y = pad2 (y / 100) +:+ pad2 (y mod 100).
Proof.
  intros H.
  assert (E: forall_from (Z.to_nat 9000) 1000 (fun y =>
               String.eqb (Js.String_of_Z y) (pad2 (y / 100) +:+ pad2 (y mod 100))) = true)
    by (vm_compute; reflexivity).
  apply String.eqb_eq. apply (forall_from_spec _ _ _ E). rewrite Z2Nat.id; lia.
Qed.

Lemma year4_compare y1 y2 :
  1000 <= y1 <= 9999 -> 1000 <= y2 <= 9999 ->
  String.compare (Js.String_of_Z y1) (Js.String_of_Z y2) = (y1 ?= y2).
Proof.
  intros H1 H2. rewrite !year4_digits by assumption.
  rewrite compare_append by (rewrite !pad2_length; lia).
  rewrite !pad2_compare by lia.
  destruct (Z.compare_spec (y1 / 100) (y2 / 100)) as [E|E|E];
    destruct (Z.compare_spec y1 y2) as [F|F|F]; try reflexivity; try lia;
    destruct (Z.compare_spec (y1 mod 100) (y2 mod 100)); try reflexivity; lia.
Qed.

Lemma year4_length y : 1000 <= y <= 9999 -> String.length (Js.String_of_Z y) = 4%nat.
Proof.
  intros H. rewrite year4_digits by assumption.
  rewrite append_length, !pad2_length; lia.
Qed.

Lemma iso_format_lt y1 m1 d1 y2 m2 d2 :
  1000 <= y1 <= 9999 -> 1000 <= y2 <= 9999 ->
  0 <= m1 <= 99 -> 0 <= d1 <= 99 -> 0 <= m2 <= 99 -> 0 <= d2 <= 99 ->
  lex_ltb (y1, m1, d1) (y2, m2, d2) = true ->
  String.compare (Js.String_of_Z y1 +:+ "-" +:+ pad2 m1 +:+ "-" +:+ pad2 d1)
                 (Js.String_of_Z y2 +:+ "-" +:+ pad2 m2 +:+ "-" +:+ pad2 d2) = Lt.
Proof.
  intros Hy1 Hy2 Hm1 Hd1 Hm2 Hd2 H. unfold lex_ltb in H.
  rewrite !orb_true_iff, !andb_true_iff, !orb_true_iff, !andb_true_iff in H.
  rewrite !Z.ltb_lt, !Z.eqb_eq in H.
  rewrite compare_append by (rewrite !year4_length; lia).
  rewrite year4_compare by assumption.
  destruct (Z.compare_spec y1 y2) as [E|E|E]; [|reflexivity|lia].
  rewrite (compare_append "-" "-") by reflexivity. simpl String.compare at 1.
  rewrite compare_append by (rewrite !pad2_length; lia).
  rewrite pad2_compare by assumption.
  destruct (Z.compare_spec m1 m2) as [F|F|F]; [|reflexivity|lia].
  rewrite (compare_append "-" "-") by reflexivity. simpl String.compare at 1.
  rewrite pad2_compare by assumption.
  apply Z.compare_lt_iff. lia.
Qed.

Lemma canonicalDay_year n :
  canonicalDay n -> 1000 <= fst (fst (civil_from_days n)) <= 9999.
Proof.
  intros [Hlo Hhi]. split.
  - destruct (Z.eq_dec n firstDay4) as [->|Hne]; [vm_compute; discriminate|].
    pose proof (civil_mono firstDay4 n ltac:(lia)) as H.
    change (civil_from_days firstDay4) with (1000, 1, 1) in H.
    destruct (civil_from_days n) as [[y m] d]. simpl. unfold lex_ltb in H.
    rewrite !orb_true_iff, !andb_true_iff in H. lia.
  - destruct (Z.eq_dec n lastDay4) as [->|Hne]; [vm_compute; discriminate|].
    pose proof (civil_mono n lastDay4 ltac:(lia)) as H.
    change (civil_from_days lastDay4) with (9999, 12, 31) in H.
    destruct (civil_from_days n) as [[y m] d]. simpl. unfold lex_ltb in H.
    rewrite !orb_true_iff, !andb_true_iff in H. lia.
Qed.

Lemma isoOfDay_lt a b :
  canonicalDay a -> canonicalDay b -> a < b ->
  String.compare (isoOfDay a) (isoOfDay b) = Lt.
Proof.
  intros Ha Hb Hlt. unfold isoOfDay. rewrite !toISODate_civil. simpl dayNumber.
  pose proof (canonicalDay_year a Ha) as Ya. pose proof (canonicalDay_year b Hb) as Yb.
  pose proof (civil_ranges a) as Ra. pose proof (civil_ranges b) as Rb.
  pose proof (civil_mono a b Hlt) as Hm.
  destruct (civil_from_days a) as [[y1 m1] d1], (civil_from_days b) as [[y2 m2] d2].
  simpl in *. apply iso_format_lt; try lia. exact Hm.
Qed.

(** On canonical dates the order of ISO strings is the order of days. *)
Lemma isoOfDay_compare a b :
  canonicalDay a -> canonicalDay b ->
  String.compare (isoOfDay a) (isoOfDay b) = (a ?= b).
Proof.
  intros Ha Hb. destruct (Z.compare_spec a b) as [E|E|E].
  - subst. apply compare_refl.
  - now apply isoOfDay_lt.
  - rewrite String.compare_antisym, (isoOfDay_lt b a) by assumption. reflexivity.
Qed.

Lemma isoOfDay_leb a b :
  canonicalDay a -> canonicalDay b ->
  String.leb (isoOfDay a) (isoOfDay b) = (a <=? b).
Proof.
  intros Ha Hb. unfold String.leb. rewrite isoOfDay_compare by assumption.
  unfold Z.leb. destruct (a ?= b); reflexivity.
Qed.

(** *** Sorting *)

Section JsSortFacts.
Context {A : Type} (cmp : A -> A -> Z) (le : A -> A -> Prop).
Hypothesis cmp_le : forall a b, cmp a b <= 0 <-> le a b.
Hypothesis le_total : forall a b, le a b \/ le b a.
Hypothesis le_trans : forall a b c, le a b -> le b c -> le a c.

Lemma sort_insert_perm x l : Permutation (sort_insert cmp x l) (x :: l).
Proof.
  induction l as [|y l IH]; simpl; [reflexivity|].
  destruct (cmp x y <=? 0); [reflexivity|].
  rewrite IH. apply perm_swap.
Qed.

Lemma js_sort_perm l : Permutation (js_sort cmp l) l.
Proof.
  induction l as [|x l IH]; simpl; [reflexivity|].
  rewrite sort_insert_perm. now constructor.
Qed.

Lemma sort_insert_sorted x l :
  StronglySorted le l -> StronglySorted le (sort_insert cmp x l).
Proof.
  induction 1 as [|y l Hs IH Hy]; simpl; [repeat constructor|].
  destruct (Z.leb_spec (cmp x y) 0) as [Hc|Hc].
  - apply cmp_le in Hc. constructor; [now constructor|].
    constructor; [exact Hc|].
    eapply List.Forall_impl; [|exact Hy]. intros z Hz. eapply le_trans; eauto.
  - assert (Hyx: le y x).
    { destruct (le_total x y) as [H|H]; [apply cmp_le in H; lia|exact H]. }
    constructor; [exact IH|].
    apply (Permutation_Forall (x := x :: l)); [symmetry; apply sort_insert_perm|].
    constructor; assumption.
Qed.

Lemma js_sort_sorted l : StronglySorted le (js_sort cmp l).
Proof.
  induction l as [|x l IH]; simpl; [constructor|].
  now apply sort_insert_sorted.
Qed.

(** Sorting a sorted sequence changes nothing. *)
Lemma js_sort_id l : StronglySorted le l -> js_sort cmp l = l.
Proof.
  induction 1 as [|x l Hs IH Hx]; simpl; [reflexivity|].
  rewrite IH. destruct l as [|y l]; simpl; [reflexivity|].
  inversion Hx as [|? ? Hxy _]; subst.
  apply cmp_le in Hxy. apply Z.leb_le in Hxy. now rewrite Hxy.
Qed.

Lemma js_sort_idempotent l : js_sort cmp (js_sort cmp l) = js_sort cmp l.
Proof. apply js_sort_id, js_sort_sorted. Qed.

(** In a sorted sequence an element that comes later is not smaller. *)
Lemma sorted_before a b l :
  StronglySorted le l -> before a b l -> le a b.
Proof.
  intros Hs (l1 & l2 & l3 & ->).
  induction l1 as [|x l1 IH]; simpl in Hs.
  - inversion Hs as [|? ? _ Hall]; subst.
    rewrite List.Forall_forall in Hall. apply Hall.
    apply in_or_app. right. now left.
  - inversion Hs; subst. auto.
Qed.
End JsSortFacts.

Lemma in_split_two {A} (a b : A) l :
  In a l -> In b l -> a <> b -> before a b l \/ before b a l.
Proof.
  intros Ha Hb Hne. apply in_split in Ha as (l1 & l2 & ->).
  apply in_app_or in Hb as [Hb|Hb].
  - right. apply in_split in Hb as (k1 & k2 & ->).
    exists k1, k2, l2. now rewrite <- app_assoc.
  - destruct Hb as [Hb|Hb]; [congruence|].
    left. apply in_split in Hb as (k1 & k2 & ->). now exists l1, k1, k2.
Qed.

Lemma before_app_l {A} (a b : A) l l' : before a b l -> before a b (l ++ l').
Proof.
  intros (l1 & l2 & l3 & ->). exists l1, l2, (l3 ++ l').
  now rewrite <- !app_assoc, <- !app_comm_cons, <- !app_assoc.
Qed.

Lemma before_app_r {A} (a b : A) l l' : before a b l' -> before a b (l ++ l').
Proof.
  intros (l1 & l2 & l3 & ->). exists (l ++ l1), l2, l3. now rewrite <- app_assoc.
Qed.

Lemma js_sort_In {A} (cmp : A -> A -> Z) l x : In x (js_sort cmp l) <-> In x l.
Proof.
  split; apply Permutation_in; [| symmetry]; apply js_sort_perm.
Qed.

Lemma sort_insert_ext {A} (cmp cmp' : A -> A -> Z) x l :
  (forall b, In b l -> cmp x b = cmp' x b) ->
  sort_insert cmp x l = sort_insert cmp' x l.
Proof.
  induction l as [| y l IH]; intros H; simpl; [reflexivity |].
  rewrite (H y) by now left.
  destruct (cmp' x y <=? 0); [reflexivity |].
  f_equal. apply IH. intros b Hb. apply H. now right.
Qed.

(** Sorting depends on the comparator only through its values on the
    elements of the sequence. *)
Lemma js_sort_ext {A} (cmp cmp' : A -> A -> Z) l :
  (forall a b, In a l -> In b l -> cmp a b = cmp' a b) ->
  js_sort cmp l = js_sort cmp' l.
Proof.
  induction l as [| x l IH]; intros H; simpl; [reflexivity |].
  rewrite IH by (intros a b Ha Hb; apply H; now right).
  apply sort_insert_ext. intros b Hb. apply H; [now left |].
  right. now apply (js_sort_In cmp' l b).
Qed.

Lemma filter_sort_insert {A} (cmp : A -> A -> Z) (p : A -> bool) x l :
  p x = false -> List.filter p (sort_insert cmp x l) = List.filter p l.
Proof.
  intros Hx. induction l as [| y l IH]; simpl; [now rewrite Hx |].
  destruct (cmp x y <=? 0); simpl; [now rewrite Hx |].
  now rewrite IH.
Qed.

Lemma StronglySorted_filter {A} (R : A -> A -> Prop) (p : A -> bool) l :
  StronglySorted R l -> StronglySorted R (List.filter p l).
Proof.
  induction 1 as [| x l Hs IH Hx]; simpl; [constructor |].
  destruct (p x); [| exact IH].
  constructor; [exact IH |].
  apply List.Forall_forall. intros y Hy. apply List.filter_In in Hy as [Hy _].
  rewrite List.Forall_forall in Hx. now apply Hx.
Qed.

Lemma Forall_filter {A} (P : A -> Prop) (p : A -> bool) l :
  List.Forall P l -> List.Forall P (List.filter p l).
Proof.
  intros H. apply List.Forall_forall. intros x Hx. apply List.filter_In in Hx as [Hx _].
  rewrite List.Forall_forall in H. now apply H.
Qed.

(** A task whose priority is no name of [Object.prototype] is ranked by a
    number, and on such tasks the comparator compares by rank number,
    then by index. *)
Lemma plain_rank t : plainPriority t = true -> rankOf t = RankNum (rankNumber t).
Proof.
  unfold plainPriority, rankNumber, rankOf, priorityRank. intros H.
  apply negb_true_iff in H. rewrite H.
  destruct (String.eqb (priority t) "high"); [reflexivity |].
  destruct (String.eqb (priority t) "medium"); [reflexivity |].
  now destruct (String.eqb (priority t) "low").
Qed.

Lemma tier_plain t : isTier (priority t) = true -> plainPriority t = true.
Proof.
  unfold isTier, plainPriority. intros H.
  apply orb_true_iff in H as [H | H]; [apply orb_true_iff in H as [H | H] |];
    apply String.eqb_eq in H; rewrite H; reflexivity.
Qed.

Lemma comparePriority_plain m a b :
  plainPriority a = true -> plainPriority b = true ->
  comparePriority m a b = compareByNumber m a b.
Proof.
  intros Ha Hb. unfold comparePriority, compareByNumber.
  now rewrite (plain_rank a Ha), (plain_rank b Hb).
Qed.

Lemma compareByNumber_le m a b :
  compareByNumber m a b <= 0 <-> byPriorityThenIndex m a b.
Proof.
  unfold compareByNumber, byPriorityThenIndex.
  destruct (Z.eqb_spec (rankNumber a) (rankNumber b)); simpl; lia.
Qed.

Lemma byPriorityThenIndex_total m a b :
  byPriorityThenIndex m a b \/ byPriorityThenIndex m b a.
Proof. unfold byPriorityThenIndex. lia. Qed.

Lemma byPriorityThenIndex_trans m a b c :
  byPriorityThenIndex m a b -> byPriorityThenIndex m b c -> byPriorityThenIndex m a c.
Proof. unfold byPriorityThenIndex. lia. Qed.

Lemma sortByPriorityStable_perm items m :
  Permutation (sortByPriorityStable items m) items.
Proof. apply js_sort_perm. Qed.

Lemma sortByPriorityStable_plain items m :
  List.Forall (fun t => plainPriority t = true) items ->
  sortByPriorityStable items m = js_sort (compareByNumber m) items.
Proof.
  intros P. unfold sortByPriorityStable. apply js_sort_ext.
  intros a b Ha Hb. rewrite List.Forall_forall in P.
  apply comparePriority_plain; now apply P.
Qed.

Lemma sortByPriorityStable_sorted items m :
  List.Forall (fun t => plainPriority t = true) items ->
  StronglySorted (byPriorityThenIndex m) (sortByPriorityStable items m).
Proof.
  intros P. rewrite (sortByPriorityStable_plain items m P).
  apply js_sort_sorted.
  - apply compareByNumber_le.
  - apply byPriorityThenIndex_total.
  - apply byPriorityThenIndex_trans.
Qed.

Lemma sortByPriorityStable_id items m :
  List.Forall (fun t => plainPriority t = true) items ->
  StronglySorted (byPriorityThenIndex m) items -> sortByPriorityStable items m = items.
Proof.
  intros P. rewrite (sortByPriorityStable_plain items m P).
  apply js_sort_id, compareByNumber_le.
Qed.

Lemma filter_all {A} (p : A -> bool) l :
  List.Forall (fun x => p x = true) l -> List.filter p l = l.
Proof.
  induction 1 as [|x l Hx _ IH]; simpl; [reflexivity|]. now rewrite Hx, IH.
Qed.

Lemma filter_none {A} (p : A -> bool) l :
  List.Forall (fun x => p x = false) l -> List.filter p l = [].
Proof.
  induction 1 as [|x l Hx _ IH]; simpl; [reflexivity|]. now rewrite Hx, IH.
Qed.

Lemma sorted_filter_all (p : Task -> bool) items m :
  List.Forall (fun x => p x = true) (sortByPriorityStable (List.filter p items) m).
Proof.
  apply (Permutation_Forall (x := List.filter p items)).
  - symmetry. apply sortByPriorityStable_perm.
  - apply List.Forall_forall. intros x Hx. now apply List.filter_In in Hx.
Qed.

Lemma sorted_plain items m :
  List.Forall (fun t => plainPriority t = true) items ->
  List.Forall (fun t => plainPriority t = true) (sortByPriorityStable items m).
Proof.
  intros P. apply (Permutation_Forall (x := items)); [| exact P].
  symmetry. apply sortByPriorityStable_perm.
Qed.

(** A selection from an ordered group is a fixed point of the ordering. *)
Lemma ordered_filter_fixed (p : Task -> bool) lbl items m :
  List.Forall (fun t => plainPriority t = true) items ->
  ordered lbl (List.filter p (ordered lbl items m)) m = List.filter p (ordered lbl items m).
Proof.
  intros P. unfold ordered. destruct (String.eqb lbl "Today").
  - set (U := sortByPriorityStable (List.filter (fun x => negb (done x)) items) m).
    set (D := sortByPriorityStable (List.filter done items) m).
    assert (PU : List.Forall (fun t => plainPriority t = true) U)
      by now apply sorted_plain, Forall_filter.
    assert (PD : List.Forall (fun t => plainPriority t = true) D)
      by now apply sorted_plain, Forall_filter.
    assert (SU : StronglySorted (byPriorityThenIndex m) U)
      by now apply sortByPriorityStable_sorted, Forall_filter.
    assert (SD : StronglySorted (byPriorityThenIndex m) D)
      by now apply sortByPriorityStable_sorted, Forall_filter.
    assert (HU : List.Forall (fun x => negb (done x) = true) (List.filter p U))
      by apply Forall_filter, (sorted_filter_all (fun x => negb (done x))).
    assert (HD : List.Forall (fun x => done x = true) (List.filter p D))
      by apply Forall_filter, (sorted_filter_all done).
    rewrite !List.filter_app.
    rewrite (filter_all _ _ HU), (filter_all _ _ HD).
    rewrite (filter_none (fun x => negb (done x)) (List.filter p D)).
    2:{ eapply List.Forall_impl; [| exact HD]. simpl. intros x ->. reflexivity. }
    rewrite (filter_none done (List.filter p U)).
    2:{ eapply List.Forall_impl; [| exact HU]. simpl. intros x Hx.
        now apply negb_true_iff in Hx. }
    rewrite app_nil_r. simpl.
    rewrite !sortByPriorityStable_id;
      auto using Forall_filter, StronglySorted_filter.
  - apply sortByPriorityStable_id.
    + now apply Forall_filter, sorted_plain.
    + now apply StronglySorted_filter, sortByPriorityStable_sorted.
Qed.

Lemma ordered_idempotent lbl items m :
  List.Forall (fun t => plainPriority t = true) items ->
  ordered lbl (ordered lbl items m) m = ordered lbl items m.
Proof.
  intros P. pose proof (ordered_filter_fixed (fun _ => true) lbl items m P) as H.
  rewrite (filter_all (fun _ => true)) in H; [exact H |].
  apply List.Forall_forall. reflexivity.
Qed.

Lemma filter_split_perm {A} (p : A -> bool) l :
  Permutation (List.filter (fun x => negb (p x)) l ++ List.filter p l) l.
Proof.
  induction l as [| a l IH]; simpl; [constructor |].
  destruct (p a); simpl.
  - rewrite <- Permutation_middle. now constructor.
  - now constructor.
Qed.

Lemma ordered_perm lbl items m : Permutation (ordered lbl items m) items.
Proof.
  unfold ordered. destruct (String.eqb lbl "Today").
  - rewrite !sortByPriorityStable_perm. apply filter_split_perm.
  - apply sortByPriorityStable_perm.
Qed.

Lemma setIndexes_notin k : forall ts i m,
  ~ In k (map id ts) -> setIndexes i ts m !! k = m !! k.
Proof.
  induction ts as [|t ts IH]; intros i m Hk; simpl; [reflexivity|].
  simpl in Hk. rewrite IH by tauto. apply lookup_insert_ne. tauto.
Qed.

Lemma setIndexes_lookup : forall ts i m p a,
  NoDup (map id ts) -> ts !! p = Some a ->
  setIndexes i ts m !! id a = Some (i + p)%nat.
Proof.
  induction ts as [|t ts IH]; intros i m p a Hnd Hp; [discriminate|].
  simpl in Hnd. apply NoDup_cons in Hnd as [Hnotin Hnd].
  destruct p as [|p]; simpl in *.
  - injection Hp as ->. rewrite setIndexes_notin.
    + rewrite lookup_insert_eq. f_equal. lia.
    + intros H. apply Hnotin. now apply list_elem_of_In.
  - rewrite (IH (S i) _ p a Hnd Hp). f_equal. lia.
Qed.

(** With distinct ids, the index map gives every task its position in
    the whole collection. *)
Lemma indexOf_position ts p a :
  NoDup (map id ts) -> ts !! p = Some a -> indexOf (buildIndexMap ts) a = Z.of_nat p.
Proof.
  intros Hnd Hp. unfold indexOf, buildIndexMap.
  now rewrite (setIndexes_lookup ts 0 ∅ p a Hnd Hp).
Qed.

(** *** The ordering engine *)

Lemma rankOf_priority a b : priority a = priority b -> rankOf a = rankOf b.
Proof. unfold rankOf. now intros ->. Qed.

Lemma rankNumber_priority a b : priority a = priority b -> rankNumber a = rankNumber b.
Proof. intros H. unfold rankNumber. now rewrite (rankOf_priority a b H). Qed.

Lemma before_sorted_part m (part : list Task) a b p q :
  StronglySorted (byPriorityThenIndex m) part ->
  In a part -> In b part ->
  rankNumber a = rankNumber b -> indexOf m a = Z.of_nat p -> indexOf m b = Z.of_nat q ->
  (p < q)%nat -> before a b part.
Proof.
  intros Hs Ha Hb Hr Hp Hq Hlt.
  assert (Hne: a <> b) by (intros ->; lia).
  destruct (in_split_two a b part Ha Hb Hne) as [H|H]; [exact H|].
  apply (sorted_before _ b a part Hs) in H.
  unfold byPriorityThenIndex in H. lia.
Qed.

Lemma before_cons {A} (x a b : A) l : before a b l -> before a b (x :: l).
Proof. intros (l1 & l2 & l3 & ->). now exists (x :: l1), l2, l3. Qed.

Lemma before_filter {A} (p : A -> bool) (a b : A) l :
  p a = true -> p b = true -> before a b l -> before a b (List.filter p l).
Proof.
  intros Ha Hb (l1 & l2 & l3 & ->).
  exists (List.filter p l1), (List.filter p l2), (List.filter p l3).
  rewrite List.filter_app. cbn [List.filter]. rewrite Ha, List.filter_app.
  cbn [List.filter]. now rewrite Hb.
Qed.

(** While no task of the group is pinned, the displayed sequence is the
    sorted one; a pinned task of the group is displayed first. *)
Lemma finalOrdered_pinnedRow pinned lbl items m :
  finalOrdered pinned lbl items m
  = match pinnedRow pinned items with
    | Some row => row :: List.filter (notPinned pinned) (ordered lbl items m)
    | None => ordered lbl items m
    end.
Proof.
  unfold finalOrdered, pinnedRow. destruct pinned as [pid |]; [| reflexivity].
  cbn [Js.falsy_str]. destruct (String.eqb pid ""); reflexivity.
Qed.

Lemma finalOrdered_unpinned lbl items m :
  finalOrdered None lbl items m = ordered lbl items m.
Proof. reflexivity. Qed.

Lemma finalOrdered_elsewhere pid lbl items m :
  List.Forall (fun x => id x <> pid) items ->
  finalOrdered (Some pid) lbl items m = ordered lbl items m.
Proof.
  intros H. rewrite finalOrdered_pinnedRow. unfold pinnedRow.
  destruct (String.eqb pid ""); [reflexivity |].
  destruct (List.find (fun x => String.eqb (id x) pid) items) as [x|] eqn:E; [|reflexivity].
  apply List.find_some in E as [Hin Hx]. rewrite List.Forall_forall in H.
  apply String.eqb_eq in Hx. now apply H in Hin.
Qed.

Lemma finalOrdered_pinned_first pid lbl items m x :
  pid <> "" -> In x items -> id x = pid ->
  exists pinned rest, finalOrdered (Some pid) lbl items m = pinned :: rest /\ id pinned = pid.
Proof.
  intros Hne Hin Hx. rewrite finalOrdered_pinnedRow. unfold pinnedRow.
  apply String.eqb_neq in Hne. rewrite Hne.
  destruct (List.find (fun x => String.eqb (id x) pid) items) as [p|] eqn:E.
  - apply List.find_some in E as [_ Hp]. apply String.eqb_eq in Hp. eauto.
  - exfalso. apply (List.find_none _ _ E) in Hin. apply String.eqb_neq in Hin. auto.
Qed.

Lemma pinnedRow_spec pinned items row :
  pinnedRow pinned items = Some row ->
  In row items /\ notPinned pinned row = false
  /\ forall l, pinnedRow pinned (row :: l) = Some row.
Proof.
  unfold pinnedRow, notPinned. destruct pinned as [pid |]; [| discriminate].
  destruct (String.eqb pid "") eqn:E; [discriminate |]. intros F.
  apply List.find_some in F as [Hin Hid]. split; [exact Hin |].
  split; [now rewrite Hid |]. intros l. cbn [List.find]. now rewrite Hid.
Qed.

Lemma pinnedRow_none pinned items l :
  pinnedRow pinned items = None -> (forall x, In x l -> In x items) ->
  pinnedRow pinned l = None.
Proof.
  unfold pinnedRow. destruct pinned as [pid |]; [| reflexivity].
  destruct (String.eqb pid ""); [reflexivity |]. intros F Hsub.
  destruct (List.find (fun x => String.eqb (id x) pid) l) as [x |] eqn:E; [| reflexivity].
  apply List.find_some in E as [Hin Hid].
  pose proof (List.find_none _ _ F x (Hsub x Hin)) as C. cbn in C. congruence.
Qed.

Lemma ordered_In lbl items m x : In x (ordered lbl items m) <-> In x items.
Proof.
  split; apply Permutation_in; [| symmetry]; apply ordered_perm.
Qed.

(** Putting one more task into a group changes nothing among the tasks
    that a selection keeps, when the selection drops the new task. *)
Lemma filter_ordered_cons (p : Task -> bool) lbl x items m :
  p x = false ->
  List.filter p (ordered lbl (x :: items) m) = List.filter p (ordered lbl items m).
Proof.
  intros Hx. unfold ordered, sortByPriorityStable.
  destruct (String.eqb lbl "Today").
  - cbn [List.filter]. rewrite !List.filter_app.
    destruct (done x); cbn [negb js_sort]; now rewrite filter_sort_insert.
  - cbn [js_sort]. now apply filter_sort_insert.
Qed.

(** Ordering what is displayed, with the same pin, changes nothing. *)
Lemma finalOrdered_idempotent pinned lbl items m :
  List.Forall (fun t => plainPriority t = true) items ->
  finalOrdered pinned lbl (finalOrdered pinned lbl items m) m
  = finalOrdered pinned lbl items m.
Proof.
  intros P. rewrite (finalOrdered_pinnedRow pinned lbl items m).
  destruct (pinnedRow pinned items) as [row |] eqn:E.
  - destruct (pinnedRow_spec _ _ _ E) as (_ & Hrow & Hfirst).
    rewrite finalOrdered_pinnedRow, Hfirst. f_equal.
    rewrite (filter_ordered_cons _ _ _ _ _ Hrow).
    rewrite (ordered_filter_fixed _ _ _ _ P).
    apply filter_all. apply List.Forall_forall. intros x Hx.
    now apply List.filter_In in Hx.
  - rewrite finalOrdered_pinnedRow.
    rewrite (pinnedRow_none pinned items _ E) by (intros x; apply ordered_In).
    now apply ordered_idempotent.
Qed.

(** C7 (amended). For tasks whose priority is no property name of
    [Object.prototype]: within a bucket the sequence is sorted by priority
    rank (high 0, medium 1, low 2, any other such priority 99), ties by
    the index of the task in the whole collection; the "Today" bucket
    sorts its not-done and its done tasks separately and puts the not-done
    ones first, the other buckets sort the whole set.  What is displayed
    is that sequence, except that a pinned task of the bucket is moved to
    the front.  Ordering twice gives the same sequence, with or without a
    pin.  Two tasks of equal priority appear in insertion order, provided
    that neither of them is the pinned task and that in the "Today"
    bucket they have the same done flag. *)
Theorem ordering_engine (tasks items : list Task) (lbl : string) (pinned : option string) :
  List.Forall (fun t => plainPriority t = true) items ->
  let m := buildIndexMap tasks in
  let sorted := ordered lbl items m in
  let out := finalOrdered pinned lbl items m in
  (priorityRank "high" = Some (RankNum 0) /\ priorityRank "medium" = Some (RankNum 1)
   /\ priorityRank "low" = Some (RankNum 2)
   /\ forall t, In t items -> isTier (priority t) = false -> rankOf t = RankNum 99)
  /\ sorted = (if String.eqb lbl "Today"
               then sortByPriorityStable (List.filter (fun x => negb (done x)) items) m
                    ++ sortByPriorityStable (List.filter done items) m
               else sortByPriorityStable items m)
  /\ out = match pinnedRow pinned items with
           | Some row => row :: List.filter (notPinned pinned) sorted
           | None => sorted
           end
  /\ (forall l, List.Forall (fun t => plainPriority t = true) l ->
        StronglySorted (byPriorityThenIndex m) (sortByPriorityStable l m)
        /\ Permutation (sortByPriorityStable l m) l)
  /\ ordered lbl sorted m = sorted
  /\ finalOrdered pinned lbl out m = out
  /\ (NoDup (map id tasks) ->
      forall p q a b,
        tasks !! p = Some a -> tasks !! q = Some b -> (p < q)%nat ->
        In a items -> In b items ->
        priority a = priority b ->
        (lbl = "Today" -> done a = done b) ->
        before a b sorted
        /\ (pinnedRow pinned items = None
            \/ (notPinned pinned a = true /\ notPinned pinned b = true) ->
            before a b out)).
Proof.
  intros P m sorted out.
  split.
  { split; [reflexivity |]. split; [reflexivity |]. split; [reflexivity |].
    intros t Ht Hno. rewrite List.Forall_forall in P. specialize (P t Ht).
    unfold plainPriority in P. apply negb_true_iff in P.
    unfold isTier in Hno. rewrite !orb_false_iff in Hno. destruct Hno as [[H1 H2] H3].
    unfold rankOf, priorityRank. now rewrite H1, H2, H3, P. }
  split; [reflexivity |].
  split; [apply finalOrdered_pinnedRow |].
  split.
  { intros l Pl. split; [now apply sortByPriorityStable_sorted
                        | apply sortByPriorityStable_perm]. }
  split; [now apply ordered_idempotent |].
  split; [now apply finalOrdered_idempotent |].
  intros Hnd p q a b Hp Hq Hlt Ha Hb Hpr Hdone.
  assert (S : before a b sorted).
  { pose proof (indexOf_position tasks p a Hnd Hp) as Ip.
    pose proof (indexOf_position tasks q b Hnd Hq) as Iq.
    fold m in Ip, Iq. apply rankNumber_priority in Hpr.
    unfold sorted, ordered. destruct (String.eqb_spec lbl "Today") as [E|E].
    - specialize (Hdone E). destruct (done a) eqn:Da.
      + apply before_app_r.
        apply (before_sorted_part m _ a b p q); auto.
        * now apply sortByPriorityStable_sorted, Forall_filter.
        * apply (Permutation_in (l := List.filter done items));
            [symmetry; apply sortByPriorityStable_perm|].
          apply List.filter_In. auto.
        * apply (Permutation_in (l := List.filter done items));
            [symmetry; apply sortByPriorityStable_perm|].
          apply List.filter_In. auto.
      + apply before_app_l.
        apply (before_sorted_part m _ a b p q); auto.
        * now apply sortByPriorityStable_sorted, Forall_filter.
        * apply (Permutation_in (l := List.filter (fun x => negb (done x)) items));
            [symmetry; apply sortByPriorityStable_perm|].
          apply List.filter_In. rewrite Da. auto.
        * apply (Permutation_in (l := List.filter (fun x => negb (done x)) items));
            [symmetry; apply sortByPriorityStable_perm|].
          apply List.filter_In. rewrite <- Hdone. auto.
    - apply (before_sorted_part m _ a b p q); auto.
      + now apply sortByPriorityStable_sorted.
      + apply (Permutation_in (l := items)); [symmetry; apply sortByPriorityStable_perm|auto].
      + apply (Permutation_in (l := items)); [symmetry; apply sortByPriorityStable_perm|auto]. }
  split; [exact S |].
  unfold out. rewrite finalOrdered_pinnedRow. fold sorted.
  destruct (pinnedRow pinned items); [| intros _; exact S].
  intros [C | [Na Nb]]; [discriminate |].
  now apply before_cons, before_filter.
Qed.

Lemma ordering_engine_witness :
  let a := sampleTask "a" false "high" (Some "2024-01-03") in
  let b := sampleTask "b" false "high" (Some "2024-01-03") in
  let c := sampleTask "c" false "medium" (Some "2024-01-03") in
  List.Forall (fun t => plainPriority t = true) [c; a; b]
  /\ NoDup (map id [c; a; b])
  /\ before a b (ordered "Today" [c; a; b] (buildIndexMap [c; a; b]))
  /\ before a b (finalOrdered (Some "c") "Today" [c; a; b] (buildIndexMap [c; a; b])).
Proof.
  intros a b c.
  assert (Hpl: List.Forall (fun t => plainPriority t = true) [c; a; b]).
  { apply List.Forall_cons; [reflexivity |]. apply List.Forall_cons; [reflexivity |].
    apply List.Forall_cons; [reflexivity | apply List.Forall_nil]. }
  assert (Hnd: NoDup (map id [c; a; b])).
  { simpl. repeat (apply NoDup_cons_2; [rewrite list_elem_of_In; simpl; intuition discriminate|]).
    apply NoDup_nil_2. }
  split; [exact Hpl|]. split; [exact Hnd|].
  destruct (proj2 (proj2 (proj2 (proj2 (proj2 (proj2
              (ordering_engine [c; a; b] [c; a; b] "Today" (Some "c") Hpl)))))) Hnd
              1%nat 2%nat a b) as [S O];
    [reflexivity | reflexivity | lia | simpl; auto | simpl; auto
     | reflexivity | reflexivity |].
  split; [exact S |]. apply O. right. split; reflexivity.
Defined.

(** C7 (counterexample). In the "Today" bucket a done task with the
    smaller insertion index comes after a not-done task of the same
    priority. *)
Lemma tie_break_across_done_flag :
  let a := sampleTask "a" true "high" (Some "2024-01-03") in
  let b := sampleTask "b" false "high" (Some "2024-01-03") in
  let tasks := [a; b] in
  let out := ordered "Today" tasks (buildIndexMap tasks) in
  tasks !! 0%nat = Some a /\ tasks !! 1%nat = Some b /\ priority a = priority b
  /\ out = [b; a] /\ ~ before a b out.
Proof.
  intros a b tasks out.
  assert (E: out = [b; a]) by (vm_compute; reflexivity).
  repeat split; try reflexivity; try exact E.
  rewrite E. intros (l1 & l2 & l3 & H).
  destruct l1 as [|x [|y l1]]; simpl in H.
  - inversion H.
  - inversion H as [[H1 H2]]. destruct l2; discriminate H2.
  - inversion H as [[H1 H2 H3]]. destruct l1; discriminate H3.
Qed.

(** *** The daily clean-up *)

Lemma isoOfDay_inj a b : isoOfDay a = isoOfDay b -> a = b.
Proof. unfold isoOfDay. intros H. exact (toISODate_inj _ _ H). Qed.

Lemma keepOnCleanup_spec today t :
  canonicalDay today -> wellDated t ->
  keepOnCleanup (isoOfDay today) t = true <-> ~ shouldPrune today t.
Proof.
  intros Ht Hw. unfold keepOnCleanup, shouldPrune.
  destruct (done t) eqn:Hd; simpl.
  2:{ split; [intros _ [H _]; discriminate|reflexivity]. }
  destruct Hw as [Hn|(n & Hc & Hn)]; rewrite Hn; simpl.
  - split; [intros _ (_ & k & Hk & _); discriminate|reflexivity].
  - unfold isoOfDay at 1. rewrite toISODate_nonempty.
    rewrite isoOfDay_leb by assumption. rewrite Z.leb_le. split.
    + intros Hle (_ & k & Hk & Hlt). injection Hk as Hk.
      apply isoOfDay_inj in Hk. lia.
    + intros Hnot. destruct (Z_le_gt_dec today n) as [H|H]; [exact H|].
      exfalso. apply Hnot. split; [reflexivity|]. exists n. split; [reflexivity|lia].
Qed.

Lemma keepOnCleanup_text todayIso t :
  keepOnCleanup todayIso t = true <->
  ~ (done t = true /\ exists due, dueISO t = Some due /\ due <> ""
                                  /\ String.ltb due todayIso = true).
Proof.
  unfold keepOnCleanup. destruct (done t); simpl.
  2:{ split; [intros _ [H _]; discriminate|reflexivity]. }
  destruct (dueISO t) as [due|]; simpl.
  2:{ split; [intros _ (_ & d & H & _); discriminate|reflexivity]. }
  destruct (String.eqb_spec due "") as [E|E].
  { split; [intros _ (_ & d & [= <-] & H & _); contradiction|reflexivity]. }
  unfold String.leb, String.ltb. rewrite (String.compare_antisym todayIso due).
  destruct (String.compare due todayIso) eqn:C; simpl.
  - split; [intros _ (_ & d & [= <-] & _ & H); rewrite C in H; discriminate H|reflexivity].
  - split; [discriminate|]. intros H. exfalso. apply H.
    split; [reflexivity|]. exists due. rewrite C. auto.
  - split; [intros _ (_ & d & [= <-] & _ & H); rewrite C in H; discriminate H|reflexivity].
Qed.

(** C6. The clean-up keeps every task that is not done and every task
    without a due date, and removes a task exactly when it is done and
    its due date is present and, as a string, before the ISO date of
    today; on canonical due dates that is: exactly when the task is done
    and its due date is strictly before today. *)
Theorem cleanup_prunes_exactly (now : Date) (s : State) :
  let s' := cleanupDoneBeforeToday now s in
  (forall t, In t (tasks s) -> done t = false -> In t (tasks s'))
  /\ (forall t, In t (tasks s) -> dueISO t = None -> In t (tasks s'))
  /\ (forall t, In t (tasks s') <->
                In t (tasks s)
                /\ ~ (done t = true
                      /\ exists due, dueISO t = Some due /\ due <> ""
                           /\ String.ltb due (toISODate (startOfDay now)) = true))
  /\ (canonicalDay (dayNumber now) -> List.Forall wellDated (tasks s) ->
      forall t, In t (tasks s') <-> In t (tasks s) /\ ~ shouldPrune (dayNumber now) t).
Proof.
  intros s'. unfold s', cleanupDoneBeforeToday. simpl tasks.
  split; [|split; [|split]].
  - intros t Ht Hd. apply List.filter_In. split; [exact Ht|].
    unfold keepOnCleanup. now rewrite Hd.
  - intros t Ht Hn. apply List.filter_In. split; [exact Ht|].
    unfold keepOnCleanup. rewrite Hn. simpl. now destruct (done t).
  - intros t. rewrite List.filter_In, keepOnCleanup_text. reflexivity.
  - intros Hc Hw t. rewrite List.filter_In.
    change (toISODate (startOfDay now)) with (isoOfDay (dayNumber now)).
    split.
    + intros [Ht Hk]. split; [exact Ht|].
      rewrite List.Forall_forall in Hw. now apply keepOnCleanup_spec in Hk; auto.
    + intros [Ht Hk]. split; [exact Ht|].
      rewrite List.Forall_forall in Hw. apply keepOnCleanup_spec; auto.
Qed.

Lemma cleanup_prunes_exactly_witness :
  let doneYesterday := sampleTask "a" true "high" (Some (isoOfDay 19724)) in
  let doneUndated := sampleTask "b" true "high" None in
  let openYesterday := sampleTask "c" false "high" (Some (isoOfDay 19724)) in
  let s := sampleState [doneYesterday; doneUndated; openYesterday] None in
  canonicalDay (dayNumber wednesday_2024_01_03)
  /\ List.Forall wellDated (tasks s)
  /\ forall t, In t (tasks (cleanupDoneBeforeToday wednesday_2024_01_03 s))
               <-> In t (tasks s) /\ ~ shouldPrune (dayNumber wednesday_2024_01_03) t.
Proof.
  intros doneYesterday doneUndated openYesterday s.
  assert (Hc: canonicalDay (dayNumber wednesday_2024_01_03))
    by (unfold canonicalDay, firstDay4, lastDay4, wednesday_2024_01_03, dayNumber; lia).
  assert (Hw: List.Forall wellDated (tasks s)).
  { apply List.Forall_cons; [|apply List.Forall_cons; [|apply List.Forall_cons; [|apply List.Forall_nil]]].
    - right. exists 19724. split; [unfold canonicalDay, firstDay4, lastDay4; lia|reflexivity].
    - left. reflexivity.
    - right. exists 19724. split; [unfold canonicalDay, firstDay4, lastDay4; lia|reflexivity]. }
  split; [exact Hc|]. split; [exact Hw|].
  exact (proj2 (proj2 (proj2 (cleanup_prunes_exactly wednesday_2024_01_03 s))) Hc Hw).
Defined.

(** The three cases of the specification, run on 3 January 2024: only the
    done task due the day before is removed, and the stamp is written. *)
Example cleanup_on_rollover :
  let doneYesterday := sampleTask "a" true "high" (Some "2024-01-02") in
  let doneUndated := sampleTask "b" true "high" None in
  let openYesterday := sampleTask "c" false "high" (Some "2024-01-02") in
  let s := sampleState [doneYesterday; doneUndated; openYesterday] None in
  cleanupDoneBeforeToday wednesday_2024_01_03 s
  = {| tasks := [doneUndated; openYesterday]; pinnedNewId := None;
       lastCleanupISO := Some "2024-01-03" |}.
Proof. vm_compute. reflexivity. Qed.

(** The effect on mount runs the clean-up at most once per calendar day. *)
Lemma cleanupOnMount_once now s :
  cleanupOnMount now (cleanupOnMount now s) = cleanupOnMount now s.
Proof.
  unfold cleanupOnMount.
  destruct (bool_decide (lastCleanupISO s = Some (toISODate (startOfDay now)))) eqn:E; simpl.
  - now rewrite E.
  - rewrite bool_decide_eq_true_2 by reflexivity. reflexivity.
Qed.

(** *** Staged due-date edits *)

Lemma Forall2_map_self {A B} (R : A -> B -> Prop) (f : A -> B) l :
  (forall x, R x (f x)) -> Forall2 R l (map f l).
Proof. intros H. induction l; simpl; constructor; auto. Qed.

Lemma sameOutsideDue_refl x : sameOutsideDue x x.
Proof. repeat split. Qed.

(** The unpin event of another row changes nothing. *)
Lemma onUnpin_other eid now s : pinnedNewId s <> Some eid -> onUnpin eid now s = s.
Proof.
  unfold onUnpin. destruct (pinnedNewId s) as [pid|]; [|reflexivity].
  destruct (String.eqb_spec pid eid) as [->|]; [congruence|reflexivity].
Qed.

(** The unpin event of the pinned row commits its staged due date. *)
Lemma onUnpin_commits eid now s :
  pinnedNewId s = Some eid ->
  let s2 := onUnpin eid now s in
  pinnedNewId s2 = None
  /\ lastCleanupISO s2 = lastCleanupISO s
  /\ Forall2 (fun x x2 =>
        sameOutsideDue x x2
        /\ (id x <> eid -> x2 = x)
        /\ (id x = eid ->
              dueISO x2 = match pendingDueISO x with
                          | Some p => Some p
                          | None => dueISO x
                          end
              /\ dueKey x2 = Some (computeKeyForISO (dueISO x2) now)
              /\ pendingDueISO x2 = None /\ pendingDueKey x2 = None))
       (tasks s) (tasks s2).
Proof.
  intros Hp. unfold onUnpin. rewrite Hp, String.eqb_refl. simpl.
  split; [reflexivity|]. split; [reflexivity|].
  apply Forall2_map_self. intros x.
  destruct (String.eqb_spec (id x) eid) as [E|E]; simpl.
  - split; [repeat split|]. split; [congruence|]. intros _. repeat split.
  - split; [apply sameOutsideDue_refl|]. split; [reflexivity|congruence].
Qed.

(** C5 (amended). Changing the due date of a row writes the pending due
    fields and the displayed label [dueLabel] of that task and pins it;
    [dueISO], [dueKey], every other field, every other task and the group
    of every task stay as they were.  When the edit of the pinned row
    ends, the staged date becomes [dueISO], [dueKey] is recomputed from
    it, and the pending fields are cleared. *)
Theorem staged_due_edit (s : State) (tid k : string) (now : Date) :
  let opt := findOption k now in
  let s1 := onChangeDue tid k now s in
  pinnedNewId s1 = Some tid
  /\ Forall2 (fun x x1 =>
        sameOutsideDue x x1 /\ dueISO x1 = dueISO x /\ dueKey x1 = dueKey x
        /\ (id x <> tid -> x1 = x)
        /\ (id x = tid -> pendingDueKey x1 = Some (key opt)
                          /\ pendingDueISO x1 = Some (iso opt)
                          /\ dueLabel x1 = Some (label opt)))
       (tasks s) (tasks s1)
  /\ (forall DateParse at_,
        map (groupLabel DateParse at_) (tasks s1) = map (groupLabel DateParse at_) (tasks s))
  /\ (forall end_,
        let s2 := onUnpin tid end_ s1 in
        pinnedNewId s2 = None
        /\ Forall2 (fun x x2 =>
              sameOutsideDue x x2
              /\ (id x <> tid -> x2 = x)
              /\ (id x = tid ->
                    dueISO x2 = Some (iso opt)
                    /\ dueKey x2 = Some (computeKeyForISO (Some (iso opt)) end_)
                    /\ pendingDueISO x2 = None /\ pendingDueKey x2 = None))
             (tasks s) (tasks s2)).
Proof.
  intros opt s1. split; [reflexivity|]. split; [|split].
  - unfold s1, onChangeDue. simpl tasks. apply Forall2_map_self. intros x. fold opt.
    destruct (String.eqb_spec (id x) tid) as [E|E]; simpl.
    + repeat split; congruence.
    + split; [apply sameOutsideDue_refl|]. repeat split; congruence.
  - intros DateParse at_. unfold s1, onChangeDue. simpl tasks. rewrite map_map.
    apply map_ext. intros x. destruct (String.eqb (id x) tid); reflexivity.
  - intros end_ s2. unfold s2, s1, onChangeDue, onUnpin. simpl.
    rewrite String.eqb_refl. simpl. split; [reflexivity|].
    rewrite map_map. apply Forall2_map_self. intros x. fold opt.
    destruct (String.eqb_spec (id x) tid) as [E|E]; simpl.
    + rewrite E, String.eqb_refl. simpl. repeat split; congruence.
    + apply String.eqb_neq in E. rewrite E. simpl.
      split; [apply sameOutsideDue_refl|]. apply String.eqb_neq in E. split; [reflexivity|congruence].
Qed.

(** C5 (counterexample). Staging "tomorrow" on a task whose label reads
    "Today (01/03/24)" also rewrites the label, so the step writes more
    than the pending due fields. *)
Lemma staging_writes_label :
  let t := sampleTask "a" false "high" (Some "2024-01-03") in
  let s := sampleState [t] None in
  let opt := findOption "tomorrow" wednesday_2024_01_03 in
  tasks (onChangeDue "a" "tomorrow" wednesday_2024_01_03 s) <> [stagePendingOnly opt t]
  /\ map dueLabel (tasks (onChangeDue "a" "tomorrow" wednesday_2024_01_03 s))
     = [Some "Tomorrow (01/04/24)"]
  /\ dueLabel t = Some "Today (01/03/24)".
Proof.
  intros t s opt. split; [|split; [vm_compute; reflexivity|reflexivity]].
  intros H. apply (f_equal (map dueLabel)) in H. vm_compute in H. discriminate H.
Qed.

(** The staged edit of the specification, end to end: the task stays in
    group "Today" while "next-mon" is staged, and is due on Monday
    2024-01-08 with key "next-mon" once the edit ends. *)
Example staged_edit_isolation :
  let t := sampleTask "a" false "high" (Some "2024-01-03") in
  let s := sampleState [t] None in
  let s1 := onChangeDue "a" "next-mon" wednesday_2024_01_03 s in
  let s2 := onUnpin "a" wednesday_2024_01_03 s1 in
  map dueISO (tasks s1) = [Some "2024-01-03"]
  /\ map pendingDueISO (tasks s1) = [Some "2024-01-08"]
  /\ map dueISO (tasks s2) = [Some "2024-01-08"]
  /\ map dueKey (tasks s2) = [Some "next-mon"]
  /\ map pendingDueISO (tasks s2) = [None].
Proof. vm_compute. repeat split; reflexivity. Qed.

(** *** The date normalizer *)

Import WOList.

(** What the normalizer accepts, after trimming: the ISO shape as it is,
    or the short form with month in 1..12 and day in 1..31. *)
Lemma toISOIfPossible_valid input :
  valid (toISOIfPossible input) = true <->
  Js.trim input <> "" /\
  (matchIso (Js.trim input) = true
   \/ exists g1 g2 g3, matchUS (Js.trim input) = Some (g1, g2, g3)
        /\ 1 <= Js.parseInt10 g1 <= 12 /\ 1 <= Js.parseInt10 g2 <= 31).
Proof.
  unfold toISOIfPossible.
  destruct (String.eqb_spec (Js.trim input) "") as [E|E]; simpl.
  { split; [discriminate|intros [H _]; congruence]. }
  destruct (matchIso (Js.trim input)) eqn:Hi; simpl.
  { split; auto. }
  destruct (matchUS (Js.trim input)) as [[[g1 g2] g3]|] eqn:Hu.
  - destruct ((1 <=? Js.parseInt10 g1) && (Js.parseInt10 g1 <=? 12)
              && (1 <=? Js.parseInt10 g2) && (Js.parseInt10 g2 <=? 31)) eqn:Hr; simpl.
    + split; [intros _|reflexivity]. split; [exact E|]. right. exists g1, g2, g3.
      rewrite !andb_true_iff, !Z.leb_le in Hr. split; [reflexivity|lia].
    + split; [discriminate|]. intros [_ [H|(h1 & h2 & h3 & H & H1 & H2)]]; [discriminate|].
      injection H as <- <- <-.
      rewrite !andb_false_iff, !Z.leb_gt in Hr. lia.
  - simpl. split; [discriminate|].
    intros [_ [H|(h1 & h2 & h3 & H & _)]]; discriminate.
Qed.

(** C4 (failing input). A short date with a three-digit year is accepted,
    and its result does not have the canonical shape; so is a four-digit
    year below 100, which is read as 20YY.  The examples of the
    specification come out as stated. *)
Theorem three_digit_year_accepted :
  toISOIfPossible "3/4/125" = {| iso := Some "125-03-04"; valid := true |}
  /\ matchIso "125-03-04" = false
  /\ toISOIfPossible "125-03-04" = {| iso := None; valid := false |}
  /\ toISOIfPossible "3/4/0025" = {| iso := Some "2025-03-04"; valid := true |}
  /\ toISOIfPossible "3/4/25" = {| iso := Some "2025-03-04"; valid := true |}
  /\ toISOIfPossible "2025-03-04" = {| iso := Some "2025-03-04"; valid := true |}
  /\ toISOIfPossible "not a date" = {| iso := None; valid := false |}
  /\ toISOIfPossible "2/31/25" = {| iso := Some "2025-02-31"; valid := true |}.
Proof. vm_compute. repeat split; reflexivity. Qed.

(** *** Stored tiers *)

Section StoredTiers.
Variable uuid : nat -> string.
Variable JSON_parse : string -> option JsValue.
Variable ToString : JsValue -> option string.

Lemma checkPriority_tier p : isTier (MinimalTodo.checkPriority p) = true.
Proof.
  unfold MinimalTodo.checkPriority. destruct p; try reflexivity.
  fold (isTier s). destruct (isTier s) eqn:E; [exact E|reflexivity].
Qed.

Lemma parseOne_tier t n r n' :
  MinimalTodo.parseOne uuid ToString t n = Some (Some r, n') ->
  isTier (MinimalTodo.priority r) = true.
Proof.
  unfold MinimalTodo.parseOne.
  destruct (truthy t && MinimalTodo.isObject t); [|discriminate].
  unfold bind. intros H.
  destruct ((if nullish (getProp t "id") then MinimalTodo.randomUUID uuid
             else ret (getProp t "id")) n) as [[i n1] |]; [| discriminate].
  destruct (MinimalTodo.stringOf ToString i n1) as [[idText n2] |]; [| discriminate].
  destruct (MinimalTodo.stringOf ToString _ n2) as [[label n3] |]; [| discriminate].
  unfold ret in H. injection H as <- _. apply checkPriority_tier.
Qed.

Lemma mapM_parseOne_tier arr : forall n ts n',
  mapM (MinimalTodo.parseOne uuid ToString) arr n = Some (ts, n') ->
  List.Forall (fun t => isTier (MinimalTodo.priority t) = true) (omap (fun x => x) ts).
Proof.
  induction arr as [|t arr IH]; intros n ts n' H; simpl in H.
  - injection H as <- _. constructor.
  - unfold bind in H.
    destruct (MinimalTodo.parseOne uuid ToString t n) as [[r n1]|] eqn:E1; [|discriminate].
    destruct (mapM (MinimalTodo.parseOne uuid ToString) arr n1) as [[rs n2]|] eqn:E2;
      [|discriminate].
    injection H as <- _. specialize (IH _ _ _ E2).
    destruct r as [r|]; simpl; [|exact IH].
    constructor; [|exact IH]. eapply parseOne_tier; eauto.
Qed.

Lemma mapM_loadOne_urgency arr : forall n ws n',
  mapM (loadOne uuid) arr n = Some (ws, n') ->
  map urgency ws = map (fun w => js_or (getProp w "urgency") (JStr "medium")) arr.
Proof.
  induction arr as [|w arr IH]; intros n ws n' H; simpl in H.
  - injection H as <- _. reflexivity.
  - unfold bind in H.
    destruct (loadOne uuid w n) as [[r n1]|] eqn:E1; [|discriminate].
    destruct (mapM (loadOne uuid) arr n1) as [[rs n2]|] eqn:E2; [|discriminate].
    injection H as <- _. simpl. rewrite (IH _ _ _ E2). f_equal.
    unfold loadOne, bind in E1.
    destruct (arrayMap (js_or (getProp w "notes") (JArr [])) (loadNote uuid) n)
      as [[ns k]|]; [|discriminate].
    injection E1 as <- _. reflexivity.
Qed.

Lemma js_or_truthy a b : truthy b = true -> truthy (js_or a b) = true.
Proof. unfold js_or. destruct (truthy a) eqn:E; auto. Qed.

(** What the two loaders do with stored tiers.  Every task returned by
    the validated loader has one of the three tiers, a stored priority
    that is not one of them being replaced by "high".  The work-order
    loader replaces a missing (or otherwise falsy) urgency by "medium"
    and keeps any other stored value as it is, so no loaded work order
    lacks an urgency. *)
Theorem stored_tiers_on_load :
  (forall raw n,
     match fst (MinimalTodo.safeParseTasks uuid JSON_parse ToString raw n) with
     | Some ts => List.Forall (fun t => isTier (MinimalTodo.priority t) = true) ts
     | None => True
     end)
  /\ (forall p,
        MinimalTodo.checkPriority p =
        match p with
        | JStr s => if isTier s then s else "high"
        | _ => "high"
        end)
  /\ (forall item n,
        let ws := fst (loadWO uuid JSON_parse item n) in
        match JSON_parse (if Js.falsy_str item then "[]" else default "" item) with
        | Some (JArr arr) =>
            ws = []
            \/ map urgency ws
               = map (fun w => if truthy (getProp w "urgency")
                               then getProp w "urgency" else JStr "medium") arr
        | _ => ws = []
        end)
  /\ (forall item n,
        List.Forall (fun w => truthy (urgency w) = true)
                    (fst (loadWO uuid JSON_parse item n)))
  /\ (forall v, js_or v (JStr "medium") = if truthy v then v else JStr "medium").
Proof.
  split; [|split; [|split; [|split]]].
  - intros raw n. unfold MinimalTodo.safeParseTasks, MinimalTodo.safeParseTasks_try.
    destruct (JSON_parse raw) as [v|]; [|exact I].
    destruct v; try exact I.
    unfold bind.
    destruct (mapM (MinimalTodo.parseOne uuid ToString) items n) as [[ts n']|] eqn:E;
      [|exact I].
    simpl. eapply mapM_parseOne_tier; eauto.
  - intros p. reflexivity.
  - intros item n ws. unfold ws, loadWO, loadWO_try.
    destruct (JSON_parse _) as [raw|]; [|reflexivity].
    destruct raw as [| |b|x|x|arr|fs]; try reflexivity.
    + destruct b; reflexivity.
    + unfold js_or. destruct (truthy (JNum x)); reflexivity.
    + unfold js_or. destruct (truthy (JStr x)); reflexivity.
    + simpl. destruct (mapM (loadOne uuid) arr n) as [[rs n']|] eqn:E; [|left; reflexivity].
      right. simpl. apply (mapM_loadOne_urgency _ _ _ _ E).
  - intros item n. unfold loadWO, loadWO_try.
    destruct (JSON_parse _) as [raw|]; [|constructor].
    unfold arrayMap. destruct (js_or raw (JArr [])) as [| | | | |arr|]; try constructor.
    destruct (mapM (loadOne uuid) arr n) as [[rs n']|] eqn:E; [|constructor].
    simpl. pose proof (mapM_loadOne_urgency _ _ _ _ E) as Hu.
    clear E. revert arr Hu. induction rs as [|w rs IH]; intros arr Hu; [constructor|].
    destruct arr as [|a arr]; [discriminate|]. simpl in Hu. injection Hu as Hw Hws.
    constructor; [|eapply IH; eauto].
    rewrite Hw. apply js_or_truthy. reflexivity.
  - intros v. reflexivity.
Qed.
End StoredTiers.

(** C9 (failing input). A stored work order whose urgency is "urgent" is
    loaded with that urgency: it is neither replaced by "medium" nor one
    of the three tiers, whereas the task loader turns the priority
    "urgent" into "high". *)
Theorem unknown_urgency_is_kept :
  map urgency (fst (loadWO (fun _ => "fresh") (fun _ => Some storedUrgent) (Some "stored") 0))
  = [JStr "urgent"]
  /\ isTier "urgent" = false
  /\ MinimalTodo.checkPriority (JStr "urgent") = "high".
Proof. vm_compute. repeat split; reflexivity. Qed.

(** *** Day distance and urgency *)

Lemma split_lacks c s : lacks c s = true -> Js.split c s = [s].
Proof.
  induction s as [|a s IH]; simpl; [reflexivity|].
  intros H. apply andb_true_iff in H as [Ha Hs]. apply negb_true_iff in Ha.
  rewrite Ha, (IH Hs). reflexivity.
Qed.

Lemma split_append c s t :
  lacks c s = true -> Js.split c (s +:+ String c t) = s :: Js.split c t.
Proof.
  induction s as [|a s IH]; simpl; intros H.
  - now rewrite Ascii.eqb_refl.
  - apply andb_true_iff in H as [Ha Hs]. apply negb_true_iff in Ha.
    rewrite Ha, (IH Hs). reflexivity.
Qed.

Lemma split_parts_lack c s : List.Forall (fun p => lacks c p = true) (Js.split c s).
Proof.
  induction s as [|a s IH]; simpl; [repeat constructor|].
  destruct (Ascii.eqb a c) eqn:E; [constructor; [reflexivity|exact IH]|].
  destruct (Js.split c s) as [|h t]; [repeat constructor; simpl; now rewrite E|].
  inversion IH; subst. constructor; [simpl; rewrite E; assumption|assumption].
Qed.

Lemma uint_lacks_minus d : lacks "-" (NilEmpty.string_of_uint d) = true.
Proof. induction d; simpl; auto. Qed.

Lemma String_of_Z_lacks_minus n : 0 <= n -> lacks "-" (Js.String_of_Z n) = true.
Proof.
  intros H. unfold Js.String_of_Z. destruct n as [|p|p]; [reflexivity| |lia].
  simpl. unfold NilZero.string_of_uint.
  destruct (Pos.to_uint p) eqn:E; try (rewrite <- E; apply uint_lacks_minus).
  reflexivity.
Qed.

Lemma pad2_lacks_minus n : 0 <= n <= 99 -> lacks "-" (pad2 n) = true.
Proof.
  intros H.
  assert (E: forall_from 100 0 (fun n => lacks "-" (pad2 n)) = true)
    by (vm_compute; reflexivity).
  apply (forall_from_spec _ _ _ E). lia.
Qed.

Lemma split_iso y m d :
  0 <= y -> 0 <= m <= 99 -> 0 <= d <= 99 ->
  Js.split "-" (Js.String_of_Z y +:+ "-" +:+ pad2 m +:+ "-" +:+ pad2 d)
  = [Js.String_of_Z y; pad2 m; pad2 d].
Proof.
  intros Hy Hm Hd.
  change ("-" +:+ pad2 m +:+ "-" +:+ pad2 d) with (String "-" (pad2 m +:+ "-" +:+ pad2 d)).
  rewrite split_append by now apply String_of_Z_lacks_minus.
  change ("-" +:+ pad2 d) with (String "-" (pad2 d)).
  rewrite split_append by now apply pad2_lacks_minus.
  rewrite split_lacks by now apply pad2_lacks_minus. reflexivity.
Qed.

Lemma truthy_inject n : truthy_num (Fin (inject_Z n)) = negb (n =? 0).
Proof.
  destruct n; reflexivity.
Qed.

Lemma trunc_inject n : trunc (inject_Z n) = n.
Proof. unfold trunc. simpl. apply Z.quot_1_r. Qed.

Lemma trunc_pred n : trunc (inject_Z n - 1) = n - 1.
Proof. unfold trunc. simpl. rewrite Z.quot_1_r. lia. Qed.

Lemma num_lt_inject k c : num_lt (Fin (inject_Z k)) (inject_Z c) = (k <? c).
Proof.
  unfold num_lt, Qle_bool. simpl. rewrite !Z.mul_1_r.
  rewrite Z.ltb_antisym. reflexivity.
Qed.

Lemma round_quotient a b :
  MathRound (num_div (num_sub (Fin (inject_Z (a * msPerDay))) (Fin (inject_Z (b * msPerDay))))
                     (inject_Z (1000 * 60 * 60 * 24)))
  = Fin (inject_Z (a - b)).
Proof.
  unfold MathRound, num_div, num_sub. f_equal. f_equal.
  assert (E: ((inject_Z (a * msPerDay) - inject_Z (b * msPerDay))
              / inject_Z (1000 * 60 * 60 * 24) + (1 # 2) == inject_Z (a - b) + (1 # 2))%Q).
  { apply Qplus_inj_r. unfold msPerDay.
    change (1000 * 60 * 60 * 24) with 86400000.
    unfold Qminus. rewrite <- inject_Z_opp, <- inject_Z_plus.
    replace (a * 86400000 + - (b * 86400000)) with ((a - b) * 86400000) by lia.
    rewrite inject_Z_mult. field. }
  rewrite (Qfloor_comp _ _ E). unfold Qfloor. simpl.
  rewrite Z.mul_1_r. replace ((a - b) * 2 + 1) with (1 + (a - b) * 2) by lia.
  rewrite Z.div_add by lia. reflexivity.
Qed.

Lemma days_from_civil_day y m d : days_from_civil y m 1 + d - 1 = days_from_civil y m d.
Proof. unfold days_from_civil. lia. Qed.

Lemma MakeDay_civil y m d : 1 <= m <= 12 -> MakeDay y (m - 1) d = days_from_civil y m d.
Proof.
  intros H. unfold MakeDay.
  rewrite (Z.div_small (m - 1) 12), (Z.mod_small (m - 1) 12) by lia.
  rewrite Z.add_0_r. replace (m - 1 + 1) with m by lia. apply days_from_civil_day.
Qed.

Lemma inDateRange_year n : inDateRange n -> 100 <= fst (fst (civil_from_days n)).
Proof.
  intros [Hlo _].
  destruct (Z.eq_dec n firstDay100) as [->|Hne]; [vm_compute; discriminate|].
  pose proof (civil_mono firstDay100 n ltac:(lia)) as H.
  change (civil_from_days firstDay100) with (100, 1, 1) in H.
  destruct (civil_from_days n) as [[y m] d]. simpl. unfold lex_ltb in H.
  rewrite !orb_true_iff, !andb_true_iff in H. lia.
Qed.

(** [Date.UTC] of the calendar fields of a day is that day at midnight. *)
Lemma DateUTC_civil n :
  inDateRange n ->
  DateUTC (Fin (inject_Z (fst (fst (civil_from_days n)))))
          (Fin (inject_Z (snd (fst (civil_from_days n))) - 1))
          (Fin (inject_Z (snd (civil_from_days n))))
  = Fin (inject_Z (n * msPerDay)).
Proof.
  intros Hr. pose proof (inDateRange_year n Hr) as Hy.
  pose proof (civil_ranges n) as [Hm Hd]. pose proof (civil_roundtrip n) as Hrt.
  unfold DateUTC. rewrite !trunc_inject, trunc_pred.
  unfold MakeFullYear.
  replace (fst (fst (civil_from_days n)) <=? 99) with false
    by (symmetry; apply Z.leb_gt; lia).
  rewrite andb_false_r. rewrite MakeDay_civil by exact Hm. rewrite Hrt.
  unfold TimeClip. destruct Hr as [Hlo Hhi]. unfold firstDay100 in Hlo.
  replace (8640000000000000 <? Z.abs (n * msPerDay)) with false; [reflexivity|].
  symmetry. apply Z.ltb_ge. unfold msPerDay. lia.
Qed.

Section UrgencyFacts.
Variable Number : string -> JsNum.

Lemma daysBetweenUTC_absent now : daysBetweenUTC Number None now = PosInf.
Proof. reflexivity. Qed.

Lemma falsy_part_not_positive v :
  (forall n, v = Some n ->
     match n with Fin q => (0 <= q)%Q | NegInf => False | _ => True end) ->
  falsy_part v = false -> exists n, v = Some n /\ positive_num n.
Proof.
  intros Hs Hf. destruct v as [n|]; [|discriminate]. exists n. split; [reflexivity|].
  specialize (Hs n eq_refl). simpl in Hf. apply negb_false_iff in Hf.
  destruct n as [| | |q]; simpl in *; try discriminate; auto.
  apply negb_true_iff in Hf.
  destruct (Qlt_le_dec 0 q) as [H|H]; [exact H|].
  assert (E: (q == 0)%Q) by (apply Qle_antisym; assumption).
  apply Qeq_bool_iff in E. congruence.
Qed.

(** C10. When the due text is absent, empty, or does not split on "-"
    into three positive numbers (a part being positive when [Number]
    of it is greater than 0), the day distance is positive infinity
    and the urgency is "low"; free text that the normalizer rejects is
    what the due-date field writes, as it was typed.  The functions of
    the embedding are total, so nothing is thrown. *)
Theorem urgency_total_on_unparseable :
  signNeedsMinus Number ->
  forall (due_on : option string) (now : Date),
    (due_on = None \/ due_on = Some "" \/
     exists s, due_on = Some s /\ ~ threePositiveParts Number s) ->
    daysBetweenUTC Number due_on now = PosInf
    /\ computeUrgencyFromDue Number due_on now = "low"
    /\ (forall raw, valid (toISOIfPossible raw) = false -> Js.trim raw <> "" ->
          dueOnOfInput raw = Some raw).
Proof.
  intros HN due_on now Hiso.
  assert (Hd: daysBetweenUTC Number due_on now = PosInf).
  { destruct Hiso as [->|[->|(s & -> & Hs)]]; try reflexivity.
    unfold daysBetweenUTC. destruct (Js.falsy_str (Some s)); [reflexivity|].
    simpl default. cbv zeta.
    set (parts := map Number (Js.split "-" s)).
    destruct (falsy_part (parts !! 0%nat)) eqn:F0; [reflexivity|].
    destruct (falsy_part (parts !! 1%nat)) eqn:F1; [reflexivity|].
    destruct (falsy_part (parts !! 2%nat)) eqn:F2; [reflexivity|].
    exfalso. apply Hs.
    pose proof (split_parts_lack "-" s) as Hl. unfold parts in *.
    destruct (Js.split "-" s) as [|y [|m [|d rest]]] eqn:Es; try discriminate.
    inversion Hl as [|? ? Ly Hl1]; subst. inversion Hl1 as [|? ? Lm Hl2]; subst.
    inversion Hl2 as [|? ? Ld _]; subst.
    exists y, m, d, rest. split; [exact Es|].
    simpl in F0, F1, F2.
    destruct (falsy_part_not_positive (Some (Number y))) as (? & [= <-] & Py); auto.
    { intros n [= <-]. now apply HN. }
    destruct (falsy_part_not_positive (Some (Number m))) as (? & [= <-] & Pm); auto.
    { intros n [= <-]. now apply HN. }
    destruct (falsy_part_not_positive (Some (Number d))) as (? & [= <-] & Pd); auto.
    intros n [= <-]. now apply HN. }
  split; [exact Hd|]. split.
  - unfold computeUrgencyFromDue. rewrite Hd. reflexivity.
  - intros raw Hv Ht. unfold dueOnOfInput.
    assert (Hi: WOList.iso (toISOIfPossible raw) = None).
    { unfold toISOIfPossible in *.
      destruct (String.eqb (Js.trim raw) ""); [reflexivity|].
      destruct (matchIso (Js.trim raw)); [discriminate|].
      destruct (matchUS (Js.trim raw)) as [[[g1 g2] g3]|]; [|reflexivity].
      destruct ((1 <=? Js.parseInt10 g1) && (Js.parseInt10 g1 <=? 12)
                && (1 <=? Js.parseInt10 g2) && (Js.parseInt10 g2 <=? 31));
        [discriminate|reflexivity]. }
    rewrite Hi. apply String.eqb_neq in Ht. now rewrite Ht.
Qed.

Lemma daysBetweenUTC_canonical due now :
  readsDecimal Number -> inDateRange due -> inDateRange (dayNumber now) ->
  daysBetweenUTC Number (Some (isoOfDay due)) now = Fin (inject_Z (due - dayNumber now)).
Proof.
  intros [HS HP] Hdue Hnow. unfold daysBetweenUTC.
  unfold isoOfDay at 1. simpl Js.falsy_str. rewrite toISODate_nonempty.
  simpl default. unfold isoOfDay. rewrite toISODate_civil. simpl dayNumber.
  pose proof (inDateRange_year due Hdue) as Hy.
  pose proof (civil_ranges due) as [Hm Hd].
  pose proof (DateUTC_civil due Hdue) as HA.
  pose proof (DateUTC_civil (dayNumber now) Hnow) as HB.
  destruct (civil_from_days due) as [[y m] d] eqn:Ec. cbn [fst snd] in Hy, Hm, Hd, HA.
  rewrite split_iso by lia. cbv zeta. simpl map.
  rewrite HS, !HP by lia.
  change ([Fin (inject_Z y); Fin (inject_Z m); Fin (inject_Z d)] !! 0%nat)
    with (Some (Fin (inject_Z y))).
  change ([Fin (inject_Z y); Fin (inject_Z m); Fin (inject_Z d)] !! 1%nat)
    with (Some (Fin (inject_Z m))).
  change ([Fin (inject_Z y); Fin (inject_Z m); Fin (inject_Z d)] !! 2%nat)
    with (Some (Fin (inject_Z d))).
  unfold falsy_part, num_or. rewrite !truthy_inject.
  replace (y =? 0) with false by (symmetry; apply Z.eqb_neq; lia).
  replace (m =? 0) with false by (symmetry; apply Z.eqb_neq; lia).
  replace (d =? 0) with false by (symmetry; apply Z.eqb_neq; lia).
  simpl negb. cbv iota. simpl orb. cbv iota. simpl default.
  change (num_sub (Fin (inject_Z m)) (Fin 1)) with (Fin (inject_Z m - 1)).
  rewrite HA.
  unfold getFullYear, getMonth, getDate.
  assert (EM: Fin (inject_Z (snd (fst (civil_from_days (dayNumber now))) - 1))
              = Fin (inject_Z (snd (fst (civil_from_days (dayNumber now)))) - 1)).
  { f_equal. unfold Qminus, Qplus, inject_Z. simpl. f_equal. lia. }
  rewrite EM, HB. apply round_quotient.
Qed.

(** C2. No date gives "low".  For a due date and a current date that a
    [Date] can hold from the year 100 on, the day distance is the
    number of days from today to the due date, and the urgency is
    "high" below 35 days, "medium" from 35 to 104 days and "low" from
    105 days on. *)
Theorem urgency_thresholds :
  readsDecimal Number ->
  forall (due : Z) (now : Date),
    inDateRange due -> inDateRange (dayNumber now) ->
    let d := due - dayNumber now in
    computeUrgencyFromDue Number None now = "low"
    /\ daysBetweenUTC Number (Some (isoOfDay due)) now = Fin (inject_Z d)
    /\ computeUrgencyFromDue Number (Some (isoOfDay due)) now = classify d
    /\ (d < 35 -> classify d = "high")
    /\ (35 <= d < 105 -> classify d = "medium")
    /\ (105 <= d -> classify d = "low").
Proof.
  intros HN due now Hdue Hnow d. split; [reflexivity|].
  pose proof (daysBetweenUTC_canonical due now HN Hdue Hnow) as Hd. fold d in Hd.
  split; [exact Hd|]. split.
  - unfold computeUrgencyFromDue. rewrite Hd. simpl isFinite. simpl negb. cbv iota.
    change 35%Q with (inject_Z 35). change 105%Q with (inject_Z 105).
    rewrite !num_lt_inject. reflexivity.
  - unfold classify. repeat split; intros H.
    + replace (d <? 35) with true by (symmetry; apply Z.ltb_lt; lia). reflexivity.
    + replace (d <? 35) with false by (symmetry; apply Z.ltb_ge; lia).
      replace (d <? 105) with true by (symmetry; apply Z.ltb_lt; lia). reflexivity.
    + replace (d <? 35) with false by (symmetry; apply Z.ltb_ge; lia).
      replace (d <? 105) with false by (symmetry; apply Z.ltb_ge; lia). reflexivity.
Qed.
End UrgencyFacts.

(** *** The stand-in for [Number] meets the assumptions *)

Lemma NumberDec_signNeedsMinus : signNeedsMinus NumberDec.
Proof.
  intros s _. unfold NumberDec.
  destruct (NilZero.uint_of_string s) as [d|].
  - unfold Qle, inject_Z. simpl. rewrite Z.mul_1_r. unfold Z.of_uint. lia.
  - destruct (String.eqb s ""); [|exact I]. unfold Qle. simpl. lia.
Qed.

Lemma NumberDec_readsDecimal : readsDecimal NumberDec.
Proof.
  split.
  - intros n Hn. unfold NumberDec, Js.String_of_Z.
    pose proof (DecimalZ.of_to n) as Hof.
    destruct (to_int_not_nil n) as [Hnil _].
    destruct (Z.to_int n) as [u|u] eqn:E.
    + simpl NilZero.string_of_int. rewrite NilZero.usu by congruence.
      simpl in Hof. now rewrite Hof.
    + destruct n; simpl in E; try discriminate. lia.
  - intros n Hn.
    assert (E: forall_from 100 0 (fun n =>
                 match NumberDec (pad2 n) with
                 | Fin q => (Qnum q =? n) && (Qden q =? 1)%positive
                 | _ => false
                 end) = true) by (vm_compute; reflexivity).
    pose proof (forall_from_spec _ _ _ E n ltac:(lia)) as H. cbv beta in H.
    destruct (NumberDec (pad2 n)) as [| | |[num den]]; try discriminate.
    cbn [Qnum Qden] in H. apply andb_true_iff in H as [H1 H2].
    apply Z.eqb_eq in H1. apply Pos.eqb_eq in H2. subst. reflexivity.
Qed.

Lemma urgency_total_on_unparseable_witness :
  signNeedsMinus NumberDec
  /\ ~ threePositiveParts NumberDec "next week"
  /\ daysBetweenUTC NumberDec (Some "next week") wednesday_2024_01_03 = PosInf
  /\ computeUrgencyFromDue NumberDec (Some "next week") wednesday_2024_01_03 = "low".
Proof.
  assert (Hn: ~ threePositiveParts NumberDec "next week").
  { intros (y & m & d & rest & H & _). vm_compute in H. discriminate H. }
  split; [exact NumberDec_signNeedsMinus|]. split; [exact Hn|].
  destruct (urgency_total_on_unparseable NumberDec NumberDec_signNeedsMinus
              (Some "next week") wednesday_2024_01_03) as (H1 & H2 & _).
  - right. right. exists "next week". split; [reflexivity|exact Hn].
  - split; [exact H1|exact H2].
Defined.

Lemma urgency_thresholds_witness :
  readsDecimal NumberDec
  /\ inDateRange (19725 + 34) /\ inDateRange (dayNumber wednesday_2024_01_03)
  /\ computeUrgencyFromDue NumberDec (Some (isoOfDay (19725 + 34))) wednesday_2024_01_03
     = classify 34.
Proof.
  assert (H1: inDateRange (19725 + 34)) by (unfold inDateRange, firstDay100; lia).
  assert (H2: inDateRange (dayNumber wednesday_2024_01_03))
    by (unfold inDateRange, firstDay100, wednesday_2024_01_03, dayNumber; lia).
  split; [exact NumberDec_readsDecimal|]. split; [exact H1|]. split; [exact H2|].
  exact (proj1 (proj2 (proj2
           (urgency_thresholds NumberDec NumberDec_readsDecimal (19725 + 34)
              wednesday_2024_01_03 H1 H2)))).
Defined.

(** The boundaries of the specification, run on 3 January 2024 with due
    dates 34, 35, 104 and 105 days ahead, and on text that is no date. *)
Example urgency_boundaries :
  map (fun due => computeUrgencyFromDue NumberDec (Some due) wednesday_2024_01_03)
      ["2024-02-06"; "2024-02-07"; "2024-04-16"; "2024-04-17"; "2024-01-02"; "call Bob"]
  = ["high"; "medium"; "medium"; "low"; "high"; "low"]
  /\ map (fun due => daysBetweenUTC NumberDec (Some due) wednesday_2024_01_03)
         ["2024-02-06"; "2024-02-07"; "2024-04-16"; "2024-04-17"; "2024-01-02"]
     = [Fin 34; Fin 35; Fin 104; Fin 105; Fin (-1)].
Proof. vm_compute. split; reflexivity. Qed.

(** ** The due options: dates, keys and the round trip through a staged edit *)

Lemma toISODate_day d : toISODate d = isoOfDay (dayNumber d).
Proof. reflexivity. Qed.

Lemma getDay_day d : getDay d = getDay (dateOfDay (dayNumber d)).
Proof. reflexivity. Qed.

Lemma weekendStart_cases dow :
  0 <= dow <= 6 -> isWeekendStart dow = true -> dow = 5 \/ dow = 6 \/ dow = 0.
Proof. unfold isWeekendStart. intros R H. lia. Qed.

Lemma nextMonday_weekday (today : Date) :
  dayNumber today < dayNumber (nextMondayFrom today) <= dayNumber today + 6
  /\ 1 <= getDay (nextMondayFrom today) <= 2.
Proof.
  pose proof (getDay_range today) as R.
  destruct (Z.eq_dec (getDay today) 1) as [E | E].
  - destruct (nextMondayFrom_monday today E) as [E1 E2].
    rewrite E2, E1. unfold addDays. simpl. lia.
  - destruct (nextMondayFrom_other today E) as (E1 & E2 & _).
    pose proof (nextMondayFrom_dayNumber today). lia.
Qed.

(** [X1] Every due option is a day of the seven days that start today, and
    every option other than today's is a later day from Monday to Friday. *)
Theorem due_options_within_week (now : Date) :
  List.Forall (fun o => exists n,
      TodoList.iso o = isoOfDay n
      /\ dayNumber now <= n <= dayNumber now + 6
      /\ (key o <> "today" -> dayNumber now < n /\ 1 <= getDay (dateOfDay n) <= 5))
    (buildDueOptions now).
Proof.
  rewrite buildDueOptions_optionsSpec. unfold optionsSpec.
  set (today := startOfDay now).
  pose proof (nextMonday_weekday today) as [NM1 NM2].
  assert (Hnm : exists n, TodoList.iso (nextMonOption (nextMondayFrom today)) = isoOfDay n
      /\ dayNumber now <= n <= dayNumber now + 6
      /\ (key (nextMonOption (nextMondayFrom today)) <> "today"
          -> dayNumber now < n /\ 1 <= getDay (dateOfDay n) <= 5)).
  { exists (dayNumber (nextMondayFrom today)). split; [reflexivity |].
    rewrite <- getDay_day. unfold today in *. simpl in *. lia. }
  assert (Htoday : exists n, TodoList.iso (todayOption today) = isoOfDay n
      /\ dayNumber now <= n <= dayNumber now + 6
      /\ (key (todayOption today) <> "today"
          -> dayNumber now < n /\ 1 <= getDay (dateOfDay n) <= 5)).
  { exists (dayNumber now). split; [reflexivity |]. split; [lia |].
    simpl. intros C. now contradiction C. }
  destruct (isWeekendStart (getDay today)) eqn:W.
  - repeat constructor; assumption.
  - pose proof (weekday_start_range now W) as R. fold today in R.
    constructor; [assumption |].
    constructor.
    { exists (dayNumber now + 1). split; [reflexivity |]. split; [lia |].
      intros _. split; [lia |].
      change (getDay (dateOfDay (dayNumber now + 1))) with (getDay (addDays today 1)).
      rewrite getDay_addDays. lia. }
    apply List.Forall_app. split; [| repeat constructor; assumption].
    apply List.Forall_map.
    pose proof (weekdayOffsets_weekdays now) as F. cbv zeta in F. fold today in F.
    assert (B : List.Forall (fun k => (2 <= k <= 4)%nat) (weekdayOffsets now)).
    { unfold weekdayOffsets. fold today. rewrite W.
      apply List.Forall_forall. intros k Hk. apply in_seq in Hk. lia. }
    revert B. induction F as [| k l [Hk1 Hk2] F IH]; intros B; constructor.
    + inversion B; subst.
      exists (dayNumber now + Z.of_nat k). split; [reflexivity |]. split; [lia |].
      intros _. split; [lia |].
      change (getDay (dateOfDay (dayNumber now + Z.of_nat k)))
        with (getDay (addDays today (Z.of_nat k))).
      lia.
    + inversion B; subst. now apply IH.
Qed.

Lemma find_by_key (l : list DueOption) :
  NoDup (map key l) ->
  List.Forall (fun o => List.find (fun o' => String.eqb (key o') (key o)) l = Some o) l.
Proof.
  rewrite NoDup_ListNoDup.
  induction l as [| a l IH]; intros ND; constructor.
  - simpl. now rewrite String.eqb_refl.
  - inversion ND as [| ? ? Hnot ND']; subst.
    specialize (IH ND').
    rewrite List.Forall_forall in *. intros o Ho. simpl.
    destruct (String.eqb (key a) (key o)) eqn:E.
    + apply String.eqb_eq in E. exfalso. apply Hnot. rewrite E. now apply in_map.
    + now apply IH.
Qed.

Lemma find_key_absent (l : list DueOption) k :
  ~ In k (map key l) -> List.find (fun o => String.eqb (key o) k) l = None.
Proof.
  induction l as [| a l IH]; intros H; simpl; [reflexivity |].
  destruct (String.eqb (key a) k) eqn:E.
  - apply String.eqb_eq in E. exfalso. apply H. now left.
  - apply IH. intros C. apply H. now right.
Qed.

Lemma buildDueOptions_head now :
  List.hd (todayOption (startOfDay now)) (buildDueOptions now) = todayOption (startOfDay now).
Proof.
  rewrite buildDueOptions_optionsSpec. unfold optionsSpec.
  now destruct (isWeekendStart (getDay (startOfDay now))).
Qed.

Lemma buildDueOptions_NoDup now : NoDup (map key (buildDueOptions now)).
Proof.
  apply NoDup_ListNoDup.
  pose proof (buildDueOptions_keys now) as K. cbv zeta in K. rewrite K. clear K.
  destruct (isWeekendStart (getDay (startOfDay now))).
  - repeat constructor; simpl; intros C; intuition discriminate.
  - set (f := fun k : nat => "wd-" +:+ toISODate (addDays (startOfDay now) (Z.of_nat k))).
    assert (Hf : forall s, In s (map f (weekdayOffsets now)) -> exists r, s = "wd-" +:+ r).
    { intros s Hs. apply in_map_iff in Hs as (k & <- & _). now eexists. }
    constructor.
    { simpl. rewrite in_app_iff. intros [C | [C | C]]; [discriminate | |].
      - apply Hf in C as (r & C). discriminate.
      - simpl in C. intuition discriminate. }
    constructor.
    { rewrite in_app_iff. intros [C | C].
      - apply Hf in C as (r & C). discriminate.
      - simpl in C. intuition discriminate. }
    apply NoDup_ListNoDup, NoDup_app. split; [| split].
    + assert (I : Inj (=) (=) f).
      { intros a b E. unfold f in E. simpl in E. injection E as E.
        apply toISODate_inj in E. simpl in E. lia. }
      apply (NoDup_fmap_2 f).
      unfold weekdayOffsets. destruct (isWeekendStart _); [constructor | apply NoDup_seq].
    + intros s Hs C. apply list_elem_of_In in Hs, C. apply Hf in Hs as (r & ->). simpl in C.
      destruct C as [C | []]. discriminate.
    + apply NoDup_ListNoDup. repeat constructor. simpl. tauto.
Qed.

(** [X2] The keys of the due options are pairwise distinct: looking an
    option up by its key finds that option, and an unknown key falls back
    to the option for today. *)
Theorem due_option_lookup (now : Date) :
  NoDup (map key (buildDueOptions now))
  /\ List.Forall (fun o => findOption (key o) now = o) (buildDueOptions now)
  /\ (forall k, ~ In k (map key (buildDueOptions now)) ->
        findOption k now = todayOption (startOfDay now)).
Proof.
  split; [apply buildDueOptions_NoDup |]. split.
  - pose proof (find_by_key _ (buildDueOptions_NoDup now)) as F.
    eapply List.Forall_impl; [| exact F].
    intros o Ho. unfold findOption. now rewrite Ho.
  - intros k Hk. unfold findOption. rewrite (find_key_absent _ _ Hk).
    apply buildDueOptions_head.
Qed.

Lemma substring_all s : substring 0 (String.length s) s = s.
Proof. induction s as [| a s IH]; simpl; [reflexivity | now rewrite IH]. Qed.

Lemma slice_from_wd s : Js.slice_from 3 ("wd-" +:+ s) = s.
Proof.
  unfold Js.slice_from. simpl. rewrite Nat.sub_0_r. apply substring_all.
Qed.

Lemma deriveDueFromKey_wd s now : deriveDueFromKey ("wd-" +:+ s) now = ("wd-" +:+ s, s).
Proof.
  unfold deriveDueFromKey.
  change (String.eqb ("wd-" +:+ s) "today") with false.
  change (String.eqb ("wd-" +:+ s) "tomorrow") with false.
  change (String.eqb ("wd-" +:+ s) "next-mon") with false.
  assert (P : Js.startsWith "wd-" ("wd-" +:+ s) = true) by now destruct s.
  rewrite P. cbv iota. now rewrite slice_from_wd.
Qed.

(** [X3] The key of a due date encodes the date: on the same day,
    [deriveDueFromKey] gives back the key and the date from which
    [computeKeyForISO] made the key, for every non-empty date text, and
    it gives back key and date of every due option. *)
Theorem due_key_round_trip (now : Date) :
  (forall due, due <> "" ->
     deriveDueFromKey (computeKeyForISO (Some due) now) now
     = (computeKeyForISO (Some due) now, due))
  /\ List.Forall (fun o => deriveDueFromKey (key o) now = (key o, TodoList.iso o))
       (buildDueOptions now).
Proof.
  split.
  - intros due Hne. unfold computeKeyForISO.
    assert (F : Js.falsy_str (Some due) = false).
    { simpl. now apply String.eqb_neq. }
    rewrite F. cbv zeta. change (default "" (Some due)) with due.
    destruct (String.eqb due (toISODate (startOfDay now))) eqn:E1.
    { apply String.eqb_eq in E1. now subst. }
    destruct (String.eqb due (toISODate (addDays (startOfDay now) 1))) eqn:E2.
    { apply String.eqb_eq in E2. now subst. }
    destruct (String.eqb due (toISODate (nextMondayFrom (startOfDay now)))) eqn:E3.
    { apply String.eqb_eq in E3. now subst. }
    apply deriveDueFromKey_wd.
  - rewrite buildDueOptions_optionsSpec. unfold optionsSpec.
    destruct (isWeekendStart (getDay (startOfDay now))).
    + repeat constructor.
    + constructor; [reflexivity |]. constructor; [reflexivity |].
      apply List.Forall_app. split; [| repeat constructor].
      apply List.Forall_map, List.Forall_forall. intros k _.
      apply deriveDueFromKey_wd.
Qed.

Lemma nextMonday_day (now : Date) :
  dayNumber (nextMondayFrom (startOfDay now))
  = dayNumber now + (if getDay now =? 1 then 1 else if getDay now =? 0 then 1 else 8 - getDay now).
Proof.
  rewrite nextMondayFrom_offset, getDay_startOfDay. reflexivity.
Qed.

Lemma computeKeyForISO_option (now : Date) :
  List.Forall (fun o => computeKeyForISO (Some (TodoList.iso o)) now = committedKey now o)
    (buildDueOptions now).
Proof.
  rewrite buildDueOptions_optionsSpec. unfold optionsSpec.
  pose proof (getDay_range now) as R.
  pose proof (nextMonday_day now) as NM.
  assert (Htoday : computeKeyForISO (Some (TodoList.iso (todayOption (startOfDay now)))) now
                   = committedKey now (todayOption (startOfDay now))).
  { change (TodoList.iso (todayOption (startOfDay now))) with (isoOfDay (dayNumber now)).
    rewrite computeKeyForISO_day, Z.eqb_refl.
    unfold committedKey. simpl. now rewrite andb_false_r. }
  assert (Hnm : computeKeyForISO
                  (Some (TodoList.iso (nextMonOption (nextMondayFrom (startOfDay now))))) now
                = committedKey now (nextMonOption (nextMondayFrom (startOfDay now)))).
  { change (TodoList.iso (nextMonOption (nextMondayFrom (startOfDay now))))
      with (isoOfDay (dayNumber (nextMondayFrom (startOfDay now)))).
    rewrite computeKeyForISO_day, Z.eqb_refl.
    unfold committedKey, nextMonIsTomorrow.
    change (key (nextMonOption (nextMondayFrom (startOfDay now)))) with "next-mon".
    change (String.eqb "next-mon" "next-mon") with true.
    rewrite andb_true_r, NM.
    destruct (getDay now =? 1) eqn:E1; [| destruct (getDay now =? 0) eqn:E0].
    - rewrite orb_true_r.
      replace (dayNumber now + 1 =? dayNumber now) with false by lia.
      now rewrite Z.eqb_refl.
    - replace (dayNumber now + 1 =? dayNumber now) with false by lia.
      now rewrite Z.eqb_refl.
    - replace (dayNumber now + (8 - getDay now) =? dayNumber now) with false by lia.
      replace (dayNumber now + (8 - getDay now) =? dayNumber now + 1) with false by lia.
      reflexivity. }
  rewrite getDay_startOfDay.
  destruct (isWeekendStart (getDay now)) eqn:W.
  - repeat constructor; assumption.
  - pose proof (weekday_start_range now) as WR. rewrite getDay_startOfDay in WR.
    specialize (WR W).
    constructor; [assumption |]. constructor.
    { change (TodoList.iso (tomorrowOption (addDays (startOfDay now) 1)))
        with (isoOfDay (dayNumber now + 1)).
      rewrite computeKeyForISO_day, Z.eqb_refl.
      replace (dayNumber now + 1 =? dayNumber now) with false by lia.
      unfold committedKey. simpl. now rewrite andb_false_r. }
    apply List.Forall_app. split; [| repeat constructor; assumption].
    apply List.Forall_map, List.Forall_forall. intros k Hk.
    unfold weekdayOffsets in Hk. rewrite getDay_startOfDay, W in Hk.
    apply in_seq in Hk.
    change (TodoList.iso (weekdayOption (addDays (startOfDay now) (Z.of_nat k))))
      with (isoOfDay (dayNumber now + Z.of_nat k)).
    rewrite computeKeyForISO_day.
    replace (dayNumber now + Z.of_nat k =? dayNumber now) with false by lia.
    replace (dayNumber now + Z.of_nat k =? dayNumber now + 1) with false by lia.
    rewrite NM.
    replace (dayNumber now + Z.of_nat k
             =? dayNumber now + (if getDay now =? 1 then 1
                                 else if getDay now =? 0 then 1 else 8 - getDay now))
      with false
      by (destruct (getDay now =? 1) eqn:E1; [lia |]; destruct (getDay now =? 0) eqn:E0; lia).
    unfold committedKey. simpl. now rewrite andb_false_r.
Qed.

Lemma findOption_key now o : In o (buildDueOptions now) -> findOption (key o) now = o.
Proof.
  intros Ho. unfold findOption.
  pose proof (find_by_key _ (buildDueOptions_NoDup now)) as F.
  rewrite List.Forall_forall in F. now rewrite (F o Ho).
Qed.

Lemma findOption_committed (now : Date) :
  List.Forall (fun o => findOption (committedKey now o) now = committedOption now o)
    (buildDueOptions now).
Proof.
  apply List.Forall_forall. intros o Ho.
  unfold committedKey, committedOption, nextMonIsTomorrow.
  pose proof (getDay_range now) as R.
  destruct (String.eqb (key o) "next-mon") eqn:K.
  2:{ rewrite andb_false_r. now apply findOption_key. }
  rewrite andb_true_r.
  destruct (getDay now =? 0) eqn:E0.
  - simpl. unfold findOption.
    rewrite find_key_absent; [apply buildDueOptions_head |].
    pose proof (buildDueOptions_keys now) as Ks. cbv zeta in Ks. rewrite Ks.
    rewrite getDay_startOfDay.
    replace (isWeekendStart (getDay now)) with true by (unfold isWeekendStart; lia).
    simpl. intuition discriminate.
  - destruct (getDay now =? 1) eqn:E1.
    + simpl.
      change "tomorrow" with (key (tomorrowOption (addDays (startOfDay now) 1))).
      apply findOption_key.
      rewrite buildDueOptions_optionsSpec. unfold optionsSpec.
      rewrite getDay_startOfDay.
      replace (isWeekendStart (getDay now)) with false by (unfold isWeekendStart; lia).
      right. now left.
    + simpl. now apply findOption_key.
Qed.

(** [X4] Choosing a due option and ending the edit on the same day commits
    the date of that option to the task, clears the staged fields and
    leaves every other task alone. The key and the label follow the date,
    not the choice: when "Next Monday" is chosen on a Monday it is
    committed as "tomorrow", and when it is chosen on a Sunday it is
    committed with the key "tomorrow" and the label of the option for
    today. *)
Theorem chosen_option_committed (s : State) (tid : string) (now : Date) :
  List.Forall (fun o =>
      let s2 := onUnpin tid now (onChangeDue tid (key o) now s) in
      pinnedNewId s2 = None
      /\ Forall2 (fun x x2 =>
           (id x <> tid -> x2 = x)
           /\ (id x = tid ->
               dueISO x2 = Some (TodoList.iso o)
               /\ dueKey x2 = Some (committedKey now o)
               /\ dueLabel x2 = Some (label (committedOption now o))
               /\ pendingDueKey x2 = None /\ pendingDueISO x2 = None
               /\ sameOutsideDue x x2))
         (tasks s) (tasks s2))
    (buildDueOptions now).
Proof.
  pose proof (computeKeyForISO_option now) as CK.
  pose proof (findOption_committed now) as FC.
  rewrite List.Forall_forall in *. intros o Ho.
  specialize (CK o Ho). specialize (FC o Ho).
  cbv zeta. unfold onUnpin, onChangeDue. cbn [pinnedNewId tasks lastCleanupISO].
  rewrite String.eqb_refl. cbn [pinnedNewId tasks].
  split; [reflexivity |].
  rewrite map_map. apply Forall2_map_self. intros x.
  rewrite (findOption_key now o Ho).
  destruct (String.eqb (id x) tid) eqn:E.
  - apply String.eqb_eq in E. cbn [id stageDue]. rewrite E, String.eqb_refl. cbn [negb].
    split; [intros C; now contradiction C |]. intros _.
    unfold commitDue. cbn [stageDue pendingDueISO dueISO dueKey dueLabel pendingDueKey].
    rewrite CK, FC. repeat split; reflexivity.
  - rewrite E. cbn [negb]. split; [reflexivity |].
    intros C. apply String.eqb_neq in E. now contradiction E.
Qed.

Example sunday_next_monday_label :
  let sunday := mkDate 19729 (9 * 3600000) in
  let t := sampleTask "a" false "high" (Some "2024-01-07") in
  let s2 := onUnpin "a" sunday (onChangeDue "a" "next-mon" sunday (sampleState [t] None)) in
  weekdayName sunday = "Sunday"
  /\ map label (buildDueOptions sunday) = ["Today (01/07/24)"; "Next Monday (01/08/24)"]
  /\ map dueISO (tasks s2) = [Some "2024-01-08"]
  /\ map dueKey (tasks s2) = [Some "tomorrow"]
  /\ map dueLabel (tasks s2) = [Some "Today (01/07/24)"].
Proof. vm_compute. repeat split. Qed.

Lemma weekdayName_not_fixed d :
  weekdayName d <> "Today" /\ weekdayName d <> "Tomorrow" /\ weekdayName d <> "Next Monday"
  /\ weekdayName d <> "No Date" /\ weekdayName d <> "".
Proof.
  unfold weekdayName.
  repeat match goal with
         | |- context [match ?x with _ => _ end] => destruct x
         end; repeat split; discriminate.
Qed.

(** [X5] For a task with a due date the key and the group agree: the key
    is "today", "tomorrow" or "next-mon" exactly when the group is
    "Today", "Tomorrow" or "Next Monday". For a task without due date
    they differ: the key is "today" while the group is "No Date". *)
Theorem key_and_group_agree (DateParse : string -> option Date) (now : Date)
    (due : option string) :
  let k := computeKeyForISO due now in
  let g := computeGroupLabelForISO DateParse due now in
  (Js.falsy_str due = true -> k = "today" /\ g = "No Date")
  /\ (Js.falsy_str due = false ->
      (k = "today" <-> g = "Today")
      /\ (k = "tomorrow" <-> g = "Tomorrow")
      /\ (k = "next-mon" <-> g = "Next Monday")).
Proof.
  cbv zeta. unfold computeKeyForISO, computeGroupLabelForISO.
  destruct (Js.falsy_str due) eqn:F.
  - split; [now split | discriminate].
  - split; [discriminate | intros _]. cbv zeta.
    destruct (String.eqb (default "" due) (toISODate (startOfDay now))).
    { repeat split; intros; discriminate. }
    destruct (String.eqb (default "" due) (toISODate (addDays (startOfDay now) 1))).
    { repeat split; intros; discriminate. }
    destruct (String.eqb (default "" due) (toISODate (nextMondayFrom (startOfDay now)))).
    { repeat split; intros; discriminate. }
    assert (W : "wd-" +:+ default "" due <> "today"
                /\ "wd-" +:+ default "" due <> "tomorrow"
                /\ "wd-" +:+ default "" due <> "next-mon").
    { repeat split; discriminate. }
    destruct W as (W1 & W2 & W3).
    destruct (DateParse (default "" due +:+ "T00:00:00")) as [dt |].
    + destruct (weekdayName_not_fixed dt) as (N1 & N2 & N3 & _).
      repeat split; intros C; congruence.
    + repeat split; intros C; congruence.
Qed.

(** ** The handlers of the task list *)

Lemma flipDone_flipDone t : flipDone (flipDone t) = t.
Proof. destruct t. unfold flipDone. simpl. now rewrite negb_involutive. Qed.

Lemma mapWhere_id tid f ts :
  (forall t, id (f t) = id t) -> map id (mapWhere tid f ts) = map id ts.
Proof.
  intros Hf. unfold mapWhere. rewrite map_map. apply map_ext.
  intros t. destruct (String.eqb (id t) tid); [apply Hf | reflexivity].
Qed.

Lemma mapWhere_involutive tid f ts :
  (forall t, id (f t) = id t) -> (forall t, f (f t) = t) ->
  mapWhere tid f (mapWhere tid f ts) = ts.
Proof.
  intros Hid Hf. unfold mapWhere. rewrite map_map.
  rewrite <- (map_id ts) at 2. apply map_ext. intros t.
  destruct (String.eqb (id t) tid) eqn:E.
  - now rewrite Hid, E, Hf.
  - now rewrite E.
Qed.

Lemma toggleDone_involutive tid s : toggleDone tid (toggleDone tid s) = s.
Proof.
  destruct s as [ts p l]. unfold toggleDone, withTasks. simpl.
  rewrite mapWhere_involutive; auto using flipDone_flipDone.
Qed.

Lemma hotkeyD_cases focusedId s :
  hotkeyD false focusedId s = (s, focusedId)
  \/ exists tid,
       hotkeyD false focusedId s = (toggleDone tid s, Some tid)
       /\ forall s', hotkeyD false (Some tid) s' = (toggleDone tid s', Some tid).
Proof.
  assert (K : forall tid s', String.eqb tid "" = false ->
                hotkeyD false (Some tid) s' = (toggleDone tid s', Some tid)).
  { intros tid s' F. unfold hotkeyD. cbn [Js.falsy_str default]. now rewrite F. }
  destruct focusedId as [f |].
  - destruct (String.eqb f "") eqn:F.
    + left. unfold hotkeyD. cbn [Js.falsy_str]. now rewrite F.
    + right. exists f. split; [now apply K | intros s'; now apply K].
  - destruct s as [[| t ts] p l].
    + now left.
    + destruct (String.eqb (id t) "") eqn:F.
      * left. unfold hotkeyD. cbn [tasks List.head option_map Js.falsy_str]. now rewrite F.
      * right. exists (id t). split; [| intros s'; now apply K].
        unfold hotkeyD. cbn [tasks List.head option_map Js.falsy_str default]. now rewrite F.
Qed.

(** [X6] Pressing the hotkey "d" twice leaves the task list as it was,
    whatever is focused: the first press toggles the focused task, or the
    first task when none is focused, and moves the focus to it; the second
    press toggles the same task back. A press never adds, removes or
    reorders tasks. *)
Theorem done_hotkey_twice (focusedId : option string) (s : State) :
  let r1 := hotkeyD false focusedId s in
  let r2 := hotkeyD false (snd r1) (fst r1) in
  fst r2 = s /\ snd r2 = snd r1
  /\ map id (tasks (fst r1)) = map id (tasks s).
Proof.
  cbv zeta.
  destruct (hotkeyD_cases focusedId s) as [E | (tid & E & K)]; rewrite E; cbn [fst snd].
  - now rewrite E.
  - rewrite K. cbn [fst snd]. rewrite toggleDone_involutive. repeat split.
    apply mapWhere_id. now intros [].
Qed.

Lemma groupLabel_today DateParse now t :
  dueISO t = Some (toISODate (startOfDay now)) -> groupLabel DateParse now t = "Today".
Proof.
  intros E. unfold groupLabel, computeGroupLabelForISO. rewrite E.
  cbn [Js.falsy_str default]. rewrite toISODate_nonempty. cbv zeta.
  now rewrite String.eqb_refl.
Qed.

(** [X7] A task added inline is a blank, open, high-priority task due
    today; it is put first in the collection and pinned, it belongs to the
    group "Today", and it is shown first in that group, before every task
    that was there. *)
Theorem new_task_first_today (DateParse : string -> option Date) (newId : string)
    (now : Date) (s : State) :
  newId <> "" ->
  let s1 := addInlineTask newId now s in
  exists t rest,
    tasks s1 = t :: tasks s
    /\ pinnedNewId s1 = Some newId
    /\ id t = newId /\ text t = "New task" /\ done t = false /\ priority t = "high"
    /\ dueKey t = Some "today" /\ dueISO t = Some (toISODate (startOfDay now))
    /\ pendingDueKey t = None /\ pendingDueISO t = None
    /\ groupLabel DateParse now t = "Today"
    /\ finalOrdered (pinnedNewId s1) "Today"
         (groupItems DateParse now (tasks s1) "Today") (buildIndexMap (tasks s1))
       = t :: rest.
Proof.
  intros Hne. apply String.eqb_neq in Hne.
  cbv zeta. unfold addInlineTask. rewrite buildDueOptions_head.
  cbn [tasks pinnedNewId makeTask key TodoList.iso label todayOption
       id text done priority dueLabel notes expanded].
  eexists. eexists.
  split; [reflexivity |]. split; [reflexivity |].
  cbn [id text done priority dueKey dueISO pendingDueKey pendingDueISO].
  do 8 (split; [reflexivity |]).
  split; [now apply groupLabel_today |].
  unfold finalOrdered, groupItems. cbn [List.filter Js.falsy_str].
  rewrite Hne. cbn [negb].
  change (default "" (Some newId)) with newId.
  rewrite groupLabel_today by reflexivity.
  change (String.eqb "Today" "Today") with true. cbv iota.
  cbn [List.find id]. rewrite String.eqb_refl. reflexivity.
Qed.

Lemma new_task_first_today_witness :
  let s := sampleState [sampleTask "a" false "high" (Some "2024-01-03")] None in
  let s1 := addInlineTask "b" wednesday_2024_01_03 s in
  "b" <> ""
  /\ exists t rest,
       tasks s1 = t :: tasks s /\ id t = "b"
       /\ finalOrdered (pinnedNewId s1) "Today"
            (groupItems (fun _ => None) wednesday_2024_01_03 (tasks s1) "Today")
            (buildIndexMap (tasks s1)) = t :: rest.
Proof.
  cbv zeta.
  assert (N : "b" <> "") by discriminate.
  split; [exact N |].
  destruct (new_task_first_today (fun _ => None) "b" wednesday_2024_01_03
              (sampleState [sampleTask "a" false "high" (Some "2024-01-03")] None) N)
    as (t & rest & H1 & _ & H2 & _ & _ & _ & _ & _ & _ & _ & _ & H3).
  exists t, rest. split; [exact H1 |]. split; [exact H2 | exact H3].
Defined.

(** [X8] Removing a task that was just added inline gives back the task
    list as it was before, provided the new identifier was not in use. *)
Theorem add_then_remove (newId : string) (now : Date) (s : State) :
  ~ In newId (map id (tasks s)) ->
  tasks (remove newId (addInlineTask newId now s)) = tasks s.
Proof.
  intros Fresh. unfold remove, addInlineTask, withTasks. cbn [tasks List.filter id makeTask].
  rewrite String.eqb_refl. cbn [negb].
  apply filter_all. apply List.Forall_forall. intros t Ht.
  apply negb_true_iff, String.eqb_neq. intros E. apply Fresh. rewrite <- E.
  now apply in_map.
Qed.

Lemma add_then_remove_witness :
  let s := sampleState [sampleTask "a" false "high" (Some "2024-01-03")] None in
  ~ In "b" (map id (tasks s))
  /\ tasks (remove "b" (addInlineTask "b" wednesday_2024_01_03 s)) = tasks s.
Proof.
  cbv zeta.
  assert (F : ~ In "b" (map id (tasks (sampleState
                 [sampleTask "a" false "high" (Some "2024-01-03")] None)))).
  { simpl. intros [C | []]. discriminate. }
  split; [exact F |].
  exact (add_then_remove "b" wednesday_2024_01_03 _ F).
Defined.





(** ** What is shown: every task once, in one group *)

Lemma filter_perm {A} (p : A -> bool) l l' :
  Permutation l l' -> Permutation (List.filter p l) (List.filter p l').
Proof.
  induction 1 as [| x l l' H IH | x y l | l l' l'' H1 IH1 H2 IH2]; simpl.
  - constructor.
  - destruct (p x); [now constructor | assumption].
  - destruct (p x), (p y); try reflexivity. constructor.
  - now transitivity (List.filter p l').
Qed.

Lemma pinned_extract (items : list Task) pid x :
  NoDup (map id items) ->
  List.find (fun t => String.eqb (id t) pid) items = Some x ->
  id x = pid
  /\ Permutation (x :: List.filter (fun t => negb (String.eqb (id t) pid)) items) items.
Proof.
  rewrite NoDup_ListNoDup.
  induction items as [| a l IH]; intros ND F; [discriminate |].
  inversion ND as [| ? ? Hnot ND']; subst.
  simpl in F. simpl.
  destruct (String.eqb (id a) pid) eqn:E.
  - injection F as <-. apply String.eqb_eq in E. split; [assumption |].
    simpl. constructor. rewrite filter_all; [reflexivity |].
    apply List.Forall_forall. intros t Ht.
    apply negb_true_iff, String.eqb_neq. intros C. apply Hnot.
    rewrite E, <- C. now apply in_map.
  - destruct (IH ND' F) as [I P]. split; [assumption |].
    simpl. rewrite perm_swap. now constructor.
Qed.

(** [X10] With distinct ids, the rows of a group are a rearrangement of
    the tasks of the group: none is dropped and none is shown twice, with
    or without a pinned task; a pinned task of the group is the first
    row. *)
Theorem group_rows_permutation (pinned : option string) (lbl : string)
    (items : list Task) (m : gmap string nat) :
  NoDup (map id items) ->
  Permutation (finalOrdered pinned lbl items m) items
  /\ (forall x, In x items -> id x <> "" -> pinned = Some (id x) ->
        List.head (finalOrdered pinned lbl items m) = Some x).
Proof.
  intros ND. rewrite finalOrdered_pinnedRow. unfold pinnedRow, notPinned.
  destruct pinned as [pid |].
  2:{ split; [apply ordered_perm | intros; discriminate]. }
  destruct (String.eqb pid "") eqn:Epid.
  { split; [apply ordered_perm |]. intros x Hx Hne [= ->].
    apply String.eqb_neq in Hne. congruence. }
  destruct (List.find (fun x => String.eqb (id x) pid) items) as [hit |] eqn:F.
  - destruct (pinned_extract items pid hit ND F) as [I P]. split.
    + rewrite <- P at 2. constructor. apply filter_perm, ordered_perm.
    + intros x Hx _ [= ->]. simpl. f_equal.
      apply find_some in F as [Hhit _].
      apply NoDup_ListNoDup in ND.
      clear P. revert Hx Hhit I ND. clear. intros Hx Hhit I ND.
      induction items as [| a l IH]; [contradiction |].
      inversion ND as [| ? ? Hnot ND']; subst.
      destruct Hx as [-> | Hx], Hhit as [E | Hhit]; try congruence.
      * exfalso. apply Hnot. rewrite <- I. now apply in_map.
      * subst. exfalso. apply Hnot. rewrite I. now apply in_map.
      * now apply IH.
  - split; [apply ordered_perm |].
    intros x Hx _ [= ->]. exfalso.
    eapply find_none in F; [| exact Hx]. simpl in F. now rewrite String.eqb_refl in F.
Qed.

Lemma group_rows_permutation_witness :
  let a := sampleTask "a" true "low" (Some "2024-01-03") in
  let b := sampleTask "b" false "high" (Some "2024-01-03") in
  NoDup (map id [a; b])
  /\ Permutation (finalOrdered (Some "a") "Today" [a; b] (buildIndexMap [a; b])) [a; b].
Proof.
  cbv zeta.
  assert (ND : NoDup (map id [sampleTask "a" true "low" (Some "2024-01-03");
                              sampleTask "b" false "high" (Some "2024-01-03")])).
  { apply NoDup_ListNoDup. simpl. repeat constructor; simpl; intuition discriminate. }
  split; [exact ND |].
  exact (proj1 (group_rows_permutation (Some "a") "Today" _ _ ND)).
Defined.

Lemma keysOf_In labels x : In x (keysOf labels) <-> In x labels.
Proof.
  induction labels as [| l rest IH]; simpl; [tauto |].
  rewrite filter_In, IH, negb_true_iff, String.eqb_neq.
  destruct (String.eqb_spec l x) as [E | E]; [tauto |].
  split; [tauto |]. intros [C | C]; [tauto |]. right. split; [assumption | congruence].
Qed.

Lemma keysOf_NoDup labels : List.NoDup (keysOf labels).
Proof.
  induction labels as [| l rest IH]; simpl; constructor.
  - rewrite filter_In, negb_true_iff, String.eqb_neq. tauto.
  - now apply List.NoDup_filter.
Qed.

Lemma concat_by_label {A} (lab : A -> string) (L : list string) :
  List.NoDup L ->
  forall ts, List.Forall (fun t => In (lab t) L) ts ->
  Permutation (concat (map (fun l => List.filter (fun t => String.eqb (lab t) l) ts) L)) ts.
Proof.
  induction 1 as [| a L' Hnot ND IH]; intros ts Hall.
  - destruct ts as [| t ts]; [constructor |].
    inversion Hall as [| ? ? C _]; subst. contradiction.
  - simpl.
    set (others := List.filter (fun t => negb (String.eqb (lab t) a)) ts).
    assert (E : map (fun l => List.filter (fun t => String.eqb (lab t) l) ts) L'
                = map (fun l => List.filter (fun t => String.eqb (lab t) l) others) L').
    { apply map_ext_in. intros l Hl. unfold others.
      clear - Hl Hnot. induction ts as [| t ts IHts]; simpl; [reflexivity |].
      destruct (String.eqb (lab t) a) eqn:Ea; simpl.
      - apply String.eqb_eq in Ea.
        destruct (String.eqb_spec (lab t) l) as [El | El]; [| assumption].
        exfalso. apply Hnot. congruence.
      - now rewrite IHts. }
    rewrite E, (IH others).
    + rewrite Permutation_app_comm. apply filter_split_perm.
    + unfold others. apply List.Forall_forall. intros t Ht.
      apply filter_In in Ht as [Ht Hne].
      rewrite List.Forall_forall in Hall. destruct (Hall t Ht) as [C | C]; [| assumption].
      apply negb_true_iff, String.eqb_neq in Hne. congruence.
Qed.

Lemma concat_skip_empty {A B} (f : A -> list B) (g : B -> string) (L : list A) :
  concat (map (fun l => map g (f l))
            (List.filter (fun k => negb (Nat.eqb (List.length (f k)) 0)) L))
  = concat (map (fun l => map g (f l)) L).
Proof.
  induction L as [| a L IH]; simpl; [reflexivity |].
  destruct (f a) eqn:E; simpl; [assumption |].
  rewrite E. simpl. now rewrite IH.
Qed.

(** [X11] The sequence that the arrow keys walk through holds every task id
    exactly as often as the collection does: each task falls in exactly
    one group, whatever its due date is. *)
Theorem orderedIds_permutation (DateParse : string -> option Date) (now : Date)
    (ts : list Task) :
  Permutation (orderedIds DateParse now ts) (map id ts).
Proof.
  unfold orderedIds, groupLabels.
  rewrite (concat_skip_empty (groupItems DateParse now ts) id).
  set (L := fixedOrder ++ _).
  replace (map (fun l => map id (groupItems DateParse now ts l)) L)
    with (map (map id) (map (groupItems DateParse now ts) L)) by now rewrite map_map.
  rewrite <- concat_map.
  apply Permutation_map. unfold groupItems, L.
  apply (concat_by_label (groupLabel DateParse now)).
  - apply NoDup_ListNoDup, NoDup_app. split; [| split].
    + apply NoDup_ListNoDup. unfold fixedOrder.
      repeat constructor; simpl; intuition discriminate.
    + intros x Hx Hd. apply list_elem_of_In in Hx, Hd.
      apply filter_In in Hd as [_ Hd]. apply negb_true_iff in Hd.
      assert (C : existsb (String.eqb x) fixedOrder = true).
      { apply existsb_exists. exists x. split; [assumption | apply String.eqb_refl]. }
      congruence.
    + apply NoDup_ListNoDup, List.NoDup_filter, keysOf_NoDup.
  - apply List.Forall_forall. intros t Ht. apply in_app_iff.
    destruct (existsb (String.eqb (groupLabel DateParse now t)) fixedOrder) eqn:E.
    + left. apply existsb_exists in E as (y & Hy & E).
      apply String.eqb_eq in E. now subst.
    + right. apply filter_In. split; [| now rewrite E].
      apply keysOf_In. now apply in_map.
Qed.

(** ** Arrow-key navigation *)

Lemma indexOf_lookup (ids : list string) : forall p f,
  NoDup ids -> ids !! p = Some f -> Js.indexOf f ids = Z.of_nat p.
Proof.
  induction ids as [| a l IH]; intros p f ND H; [discriminate |].
  apply NoDup_cons in ND as [Hnot ND].
  destruct p as [| p]; simpl in H; cbn [Js.indexOf].
  - injection H as ->. now rewrite String.eqb_refl.
  - destruct (String.eqb_spec a f) as [E | E].
    + subst. exfalso. apply Hnot. eapply list_elem_of_lookup_2. exact H.
    + rewrite (IH p f ND H). cbv zeta.
      replace (Z.of_nat p <? 0) with false by (symmetry; apply Z.ltb_ge; lia). lia.
Qed.

Lemma existsb_lookup (ids : list string) p f :
  ids !! p = Some f -> existsb (String.eqb f) ids = true.
Proof.
  intros H. apply existsb_exists. exists f. split; [| apply String.eqb_refl].
  apply list_elem_of_In. eapply list_elem_of_lookup_2. exact H.
Qed.

Lemma clamp_down (p n : nat) :
  (p < n)%nat ->
  Z.to_nat (Z.min (Z.of_nat p + 1) (Z.of_nat n - 1)) = Nat.min (p + 1) (n - 1)
  /\ (Z.min (Z.of_nat p + 1) (Z.of_nat n - 1) <? 0) = false.
Proof. intros H. split; [lia | apply Z.ltb_ge; lia]. Qed.

Lemma clamp_up (p : nat) :
  Z.to_nat (Z.max (Z.of_nat p - 1) 0) = (p - 1)%nat
  /\ (Z.max (Z.of_nat p - 1) 0 <? 0) = false.
Proof. split; [lia | apply Z.ltb_ge; lia]. Qed.

(** [X12] In the task list, with distinct non-empty ids, an arrow key moves
    the focus from the focused row to the next row (arrow down) or to the
    previous row (arrow up) of the walk order, and stays on the last or on
    the first row at the ends; the row under edit is not consulted while a
    row of the list is focused. *)
Theorem task_arrow_moves_focus (down : bool) (ids : list string) (p : nat) (f : string)
    (editingId : option string) :
  NoDup ids -> List.Forall (fun i => i <> "") ids -> ids !! p = Some f ->
  TodoList.arrowTarget down ids (Some f) editingId
  = ids !! (if down then Nat.min (p + 1) (List.length ids - 1) else (p - 1)%nat).
Proof.
  intros ND NE H.
  assert (Hf : f <> "").
  { rewrite List.Forall_forall in NE. apply NE, list_elem_of_In.
    eapply list_elem_of_lookup_2. exact H. }
  assert (Hp : (p < List.length ids)%nat) by (eapply lookup_lt_Some; exact H).
  unfold TodoList.arrowTarget.
  destruct ids as [| first rest] eqn:Eids; [discriminate |]. rewrite <- Eids in *.
  change (default "" (Some f)) with f. cbn [Js.falsy_str].
  apply String.eqb_neq in Hf. rewrite Hf. cbn [negb andb].
  rewrite (existsb_lookup ids p f H).
  rewrite (indexOf_lookup ids p f ND H).
  set (q := if down then Nat.min (p + 1) (List.length ids - 1) else (p - 1)%nat).
  assert (E : (if (if down then Z.min (Z.of_nat p + 1) (Z.of_nat (List.length ids) - 1)
                   else Z.max (Z.of_nat p - 1) 0) <? 0
               then None
               else ids !! Z.to_nat (if down
                                      then Z.min (Z.of_nat p + 1) (Z.of_nat (List.length ids) - 1)
                                      else Z.max (Z.of_nat p - 1) 0))
              = ids !! q).
  { unfold q. destruct down.
    - destruct (clamp_down p (List.length ids) Hp) as [-> ->]. reflexivity.
    - destruct (clamp_up p) as [-> ->]. reflexivity. }
  rewrite E.
  destruct (ids !! q) as [nextId |] eqn:Q; [| reflexivity].
  assert (Hn : nextId <> "").
  { rewrite List.Forall_forall in NE. apply NE, list_elem_of_In.
    eapply list_elem_of_lookup_2. exact Q. }
  apply String.eqb_neq in Hn. now rewrite Hn.
Qed.

Lemma task_arrow_moves_focus_witness :
  NoDup ["a"; "b"; "c"] /\ List.Forall (fun i => i <> "") ["a"; "b"; "c"]
  /\ ["a"; "b"; "c"] !! 2%nat = Some "c"
  /\ TodoList.arrowTarget true ["a"; "b"; "c"] (Some "c") None = Some "c".
Proof.
  assert (ND : NoDup ["a"; "b"; "c"]).
  { apply NoDup_ListNoDup. repeat constructor; simpl; intuition discriminate. }
  assert (NE : List.Forall (fun i => i <> "") ["a"; "b"; "c"]).
  { repeat constructor; discriminate. }
  split; [exact ND |]. split; [exact NE |]. split; [reflexivity |].
  exact (task_arrow_moves_focus true ["a"; "b"; "c"] 2 "c" None ND NE eq_refl).
Defined.

(** [X13] In the work-order list, with distinct ids, an arrow key moves the
    focus from the focused card to the next or to the previous card and
    stays at the ends; without a focused card of the list the walk starts
    from the first card; on an empty list the focus is left as it is. *)
Theorem wo_arrow_moves_focus (down : bool) (items : list WorkOrders.WorkOrder) :
  NoDup (map WorkOrders.id items) ->
  (forall p w, items !! p = Some w -> WorkOrders.id w <> "" ->
     WorkOrders.arrowTarget down items (Some (WorkOrders.id w))
     = WorkOrders.id <$> items !! (if down then Nat.min (p + 1) (List.length items - 1)
                                   else (p - 1)%nat))
  /\ (forall focusedId,
        (Js.falsy_str focusedId = true
         \/ ~ In (default "" focusedId) (map WorkOrders.id items)) ->
        WorkOrders.arrowTarget down items focusedId
        = match items with
          | [] => focusedId
          | _ => WorkOrders.id <$> items !! (if down then Nat.min 1 (List.length items - 1)
                                             else 0%nat)
          end).
Proof.
  intros ND.
  assert (Step : forall p f, (map WorkOrders.id items) !! p = Some f ->
            (if (if down then Z.min (Js.indexOf f (map WorkOrders.id items) + 1)
                                    (Z.of_nat (List.length (map WorkOrders.id items)) - 1)
                 else Z.max (Js.indexOf f (map WorkOrders.id items) - 1) 0) <? 0
             then None
             else map WorkOrders.id items
                  !! Z.to_nat (if down
                               then Z.min (Js.indexOf f (map WorkOrders.id items) + 1)
                                          (Z.of_nat (List.length (map WorkOrders.id items)) - 1)
                               else Z.max (Js.indexOf f (map WorkOrders.id items) - 1) 0))
            = WorkOrders.id <$> items !! (if down
                                          then Nat.min (p + 1) (List.length items - 1)
                                          else (p - 1)%nat)).
  { intros p f H.
    assert (Hp : (p < List.length (map WorkOrders.id items))%nat)
      by (eapply lookup_lt_Some; exact H).
    rewrite (indexOf_lookup _ p f ND H). rewrite <- list_lookup_fmap.
    rewrite length_map in *.
    destruct down.
    - destruct (clamp_down p (List.length items) Hp) as [-> ->]. reflexivity.
    - destruct (clamp_up p) as [-> ->]. reflexivity. }
  split.
  - intros p w H Hne.
    assert (Hm : map WorkOrders.id items !! p = Some (WorkOrders.id w)).
    { change (map WorkOrders.id items) with (WorkOrders.id <$> items).
      now rewrite list_lookup_fmap, H. }
    unfold WorkOrders.arrowTarget.
    destruct items as [| w0 rest] eqn:Eitems; [discriminate |]. rewrite <- Eitems in *.
    change (default "" (Some (WorkOrders.id w))) with (WorkOrders.id w). cbn [Js.falsy_str].
    apply String.eqb_neq in Hne. rewrite Hne. cbn [negb andb].
    rewrite (existsb_lookup _ p _ Hm).
    now apply Step.
  - intros focusedId Hfoc.
    unfold WorkOrders.arrowTarget.
    destruct items as [| w0 rest] eqn:Eitems; [reflexivity |]. rewrite <- Eitems in *.
    assert (C : negb (Js.falsy_str focusedId)
                && existsb (String.eqb (default "" focusedId)) (map WorkOrders.id items)
                = false).
    { destruct Hfoc as [F | F]; [now rewrite F |].
      apply andb_false_iff. right. apply not_true_iff_false. intros E.
      apply existsb_exists in E as (y & Hy & E). apply String.eqb_eq in E. now subst. }
    rewrite C.
    assert (H0 : map WorkOrders.id items !! 0%nat
                 = Some (List.hd "" (map WorkOrders.id items))) by now rewrite Eitems.
    rewrite (Step 0%nat _ H0). reflexivity.
Qed.

Lemma wo_arrow_moves_focus_witness :
  let items := [sampleWO "a" None None; sampleWO "b" None None] in
  NoDup (map WorkOrders.id items)
  /\ WorkOrders.arrowTarget true items (Some "a") = Some "b"
  /\ WorkOrders.arrowTarget true items (Some "b") = Some "b"
  /\ WorkOrders.arrowTarget false items None = Some "a".
Proof.
  cbv zeta.
  assert (ND : NoDup (map WorkOrders.id [sampleWO "a" None None; sampleWO "b" None None])).
  { apply NoDup_ListNoDup. repeat constructor; simpl; intuition discriminate. }
  destruct (wo_arrow_moves_focus true _ ND) as [Hd _].
  destruct (wo_arrow_moves_focus false _ ND) as [_ Hu].
  split; [exact ND |]. split; [| split].
  - apply (Hd 0%nat (sampleWO "a" None None)); [reflexivity | discriminate].
  - apply (Hd 1%nat (sampleWO "b" None None)); [reflexivity | discriminate].
  - apply (Hu None). now left.
Defined.

(** ** The clean-up over several days *)

Lemma compare_le_trans a : forall b c,
  String.compare a b <> Gt -> String.compare b c <> Gt -> String.compare a c <> Gt.
Proof.
  induction a as [| x a IH]; intros [| y b] [| z c]; simpl; try congruence.
  unfold Ascii.compare.
  destruct (N.compare_spec (N_of_ascii x) (N_of_ascii y)) as [E1 | L1 | G1];
    destruct (N.compare_spec (N_of_ascii y) (N_of_ascii z)) as [E2 | L2 | G2];
    destruct (N.compare_spec (N_of_ascii x) (N_of_ascii z)) as [E3 | L3 | G3];
    try congruence; try lia.
  apply IH.
Qed.

Lemma leb_trans a b c :
  String.leb a b = true -> String.leb b c = true -> String.leb a c = true.
Proof.
  unfold String.leb. intros H1 H2.
  pose proof (compare_le_trans a b c) as T.
  destruct (String.compare a b); destruct (String.compare b c);
    destruct (String.compare a c); try discriminate; try reflexivity;
    exfalso; apply T; congruence.
Qed.

Lemma filter_filter_impl {A} (p q : A -> bool) l :
  (forall x, p x = true -> q x = true) ->
  List.filter p (List.filter q l) = List.filter p l.
Proof.
  intros H. induction l as [| a l IH]; simpl; [reflexivity |].
  destruct (q a) eqn:Q; simpl.
  - now rewrite IH.
  - destruct (p a) eqn:P; [| assumption]. apply H in P. congruence.
Qed.

(** [X14] Cleaning up on a day and again on the same or a later day gives
    the state that the later clean-up alone gives (so a clean-up is
    idempotent, and days on which the application was not opened are made
    up for); the effect run on mount cleans up once per day. *)
Theorem cleanup_composes (now1 now2 : Date) (s : State) :
  canonicalDay (dayNumber now1) -> canonicalDay (dayNumber now2) ->
  dayNumber now1 <= dayNumber now2 ->
  cleanupDoneBeforeToday now2 (cleanupDoneBeforeToday now1 s) = cleanupDoneBeforeToday now2 s
  /\ cleanupDoneBeforeToday now1 (cleanupDoneBeforeToday now1 s) = cleanupDoneBeforeToday now1 s
  /\ cleanupOnMount now1 (cleanupOnMount now1 s) = cleanupOnMount now1 s
  /\ cleanupOnMount now2 (cleanupDoneBeforeToday now2 s) = cleanupDoneBeforeToday now2 s.
Proof.
  intros C1 C2 Hle.
  assert (K : forall a b, String.leb (toISODate (startOfDay a)) (toISODate (startOfDay b)) = true ->
            cleanupDoneBeforeToday b (cleanupDoneBeforeToday a s) = cleanupDoneBeforeToday b s).
  { intros a b L. unfold cleanupDoneBeforeToday. cbn [tasks pinnedNewId lastCleanupISO].
    f_equal. apply filter_filter_impl. intros t. unfold keepOnCleanup.
    destruct (negb (done t)); [reflexivity |].
    destruct (Js.falsy_str (dueISO t)); [reflexivity |].
    now apply leb_trans. }
  split; [| split; [| split]].
  - apply K. change (String.leb (isoOfDay (dayNumber now1)) (isoOfDay (dayNumber now2)) = true).
    rewrite isoOfDay_leb by assumption. lia.
  - apply K. unfold String.leb. now rewrite compare_refl.
  - apply cleanupOnMount_once.
  - unfold cleanupOnMount. cbn [lastCleanupISO cleanupDoneBeforeToday].
    now rewrite bool_decide_eq_true_2.
Qed.

Lemma cleanup_composes_witness :
  let s := sampleState [sampleTask "a" true "high" (Some "2024-01-02");
                        sampleTask "b" true "high" (Some "2024-01-03")] None in
  let next := addDays wednesday_2024_01_03 1 in
  canonicalDay (dayNumber wednesday_2024_01_03) /\ canonicalDay (dayNumber next)
  /\ dayNumber wednesday_2024_01_03 <= dayNumber next
  /\ cleanupDoneBeforeToday next (cleanupDoneBeforeToday wednesday_2024_01_03 s)
     = cleanupDoneBeforeToday next s.
Proof.
  cbv zeta.
  assert (C1 : canonicalDay (dayNumber wednesday_2024_01_03))
    by (unfold canonicalDay, firstDay4, lastDay4; simpl; lia).
  assert (C2 : canonicalDay (dayNumber (addDays wednesday_2024_01_03 1)))
    by (unfold canonicalDay, firstDay4, lastDay4; simpl; lia).
  assert (L : dayNumber wednesday_2024_01_03 <= dayNumber (addDays wednesday_2024_01_03 1))
    by (simpl; lia).
  split; [exact C1 |]. split; [exact C2 |]. split; [exact L |].
  exact (proj1 (cleanup_composes wednesday_2024_01_03 (addDays wednesday_2024_01_03 1) _ C1 C2 L)).
Defined.

(** ** Migration of stored tasks *)

Lemma append_nonempty s t : String.eqb (s +:+ "-" +:+ t) "" = false.
Proof. now destruct s. Qed.

Ltac default_some :=
  repeat match goal with
         | |- context [default ?d (Some ?x)] => change (default d (Some x)) with x
         | H : context [default ?d (Some ?x)] |- _ => change (default d (Some x)) with x in H
         end.

Lemma migrateTask_keyed now t :
  negb (Js.falsy_str (dueKey t)) || negb (Js.falsy_str (dueISO t)) = true ->
  migrateTask now t = t.
Proof. intros H. unfold migrateTask. now rewrite H. Qed.

Lemma withDue_fields k i t :
  id (withDue k i t) = id t /\ text (withDue k i t) = text t
  /\ done (withDue k i t) = done t /\ priority (withDue k i t) = priority t
  /\ dueLabel (withDue k i t) = dueLabel t /\ TodoList.notes (withDue k i t) = TodoList.notes t
  /\ expanded (withDue k i t) = expanded t
  /\ pendingDueKey (withDue k i t) = pendingDueKey t
  /\ pendingDueISO (withDue k i t) = pendingDueISO t.
Proof. repeat split. Qed.

(** The date and the key that the migration computes from a label. *)
Lemma migrateTask_unkeyed now t :
  negb (Js.falsy_str (dueKey t)) || negb (Js.falsy_str (dueISO t)) = false ->
  exists i,
    (i = None \/ exists d, i = Some d /\ d <> "")
    /\ migrateTask now t
       = withDue (match i with
                  | Some d => Some (computeKeyForISO (Some d) now)
                  | None => None
                  end) i t
    /\ (i = None -> forall now', migrateTask now' t = withDue None None t).
Proof.
  intros H. unfold migrateTask. rewrite H.
  set (today := startOfDay now).
  destruct (match dueLabel t with Some l => matchMDY l | None => None end)
    as [[[g1 g2] g3] |] eqn:M.
  - exists (Some (Js.String_of_Z (2000 + Js.parseInt10 g3) +:+ "-"
                   +:+ pad2 (Js.parseInt10 g1) +:+ "-" +:+ pad2 (Js.parseInt10 g2))).
    split; [right; eexists; split; [reflexivity |] |].
    + apply String.eqb_neq, append_nonempty.
    + split; [| discriminate]. default_some; cbn [Js.falsy_str negb].
      rewrite append_nonempty. cbn [negb]. unfold computeKeyForISO.
      default_some; cbn [Js.falsy_str]. rewrite append_nonempty. reflexivity.
  - assert (Hd : forall d, String.eqb (toISODate d) "" = false) by apply toISODate_nonempty.
    assert (Hk : forall d, withDue (Some (if String.eqb (toISODate d) (toISODate today)
                                          then "today"
                                          else if String.eqb (toISODate d)
                                                    (toISODate (addDays today 1))
                                               then "tomorrow"
                                               else if String.eqb (toISODate d)
                                                         (toISODate (nextMondayFrom today))
                                                    then "next-mon"
                                                    else "wd-" +:+ toISODate d))
                             (Some (toISODate d)) t
                       = withDue (Some (computeKeyForISO (Some (toISODate d)) now))
                           (Some (toISODate d)) t).
    { intros d. unfold computeKeyForISO. default_some; cbn [Js.falsy_str]. now rewrite Hd. }
    destruct (bool_decide (option_map baseOfLabel (dueLabel t) = Some "Today")) eqn:B1.
    { exists (Some (toISODate today)).
      split; [right; eexists; split; [reflexivity | apply String.eqb_neq, Hd] |].
      split; [| discriminate]. default_some; cbn [Js.falsy_str]. rewrite Hd. cbn [negb]. apply Hk. }
    destruct (bool_decide (option_map baseOfLabel (dueLabel t) = Some "Tomorrow")) eqn:B2.
    { exists (Some (toISODate (addDays today 1))).
      split; [right; eexists; split; [reflexivity | apply String.eqb_neq, Hd] |].
      split; [| discriminate]. default_some; cbn [Js.falsy_str]. rewrite Hd. cbn [negb]. apply Hk. }
    destruct (bool_decide (option_map baseOfLabel (dueLabel t) = Some "Next Monday")) eqn:B3.
    { exists (Some (toISODate (nextMondayFrom today))).
      split; [right; eexists; split; [reflexivity | apply String.eqb_neq, Hd] |].
      split; [| discriminate]. default_some; cbn [Js.falsy_str]. rewrite Hd. cbn [negb]. apply Hk. }
    exists None. split; [now left |]. split; [reflexivity |].
    intros _ now'. reflexivity.
Qed.

(** [X15] The migration of a stored task changes nothing but the due key
    and the due date, leaves a task alone that has either of them, and is
    stable: migrating again, on the same or on another day, changes
    nothing more. The key that it writes is the key of the date it found,
    as [computeKeyForISO] gives it. *)
Theorem migration_stable (now now' : Date) (t : Task) :
  migrateTask now' (migrateTask now t) = migrateTask now t
  /\ sameOutsideDue t (migrateTask now t)
  /\ dueLabel (migrateTask now t) = dueLabel t
  /\ (Js.falsy_str (dueKey t) = false \/ Js.falsy_str (dueISO t) = false ->
      migrateTask now t = t)
  /\ (Js.falsy_str (dueKey t) = true -> Js.falsy_str (dueISO t) = true ->
      dueKey (migrateTask now t)
      = match dueISO (migrateTask now t) with
        | Some d => Some (computeKeyForISO (Some d) now)
        | None => None
        end).
Proof.
  destruct (negb (Js.falsy_str (dueKey t)) || negb (Js.falsy_str (dueISO t))) eqn:K.
  - rewrite !(migrateTask_keyed now t K), (migrateTask_keyed now' t K).
    split; [reflexivity |]. split; [apply sameOutsideDue_refl |]. split; [reflexivity |].
    split; [reflexivity |]. intros F1 F2. rewrite F1, F2 in K. discriminate.
  - destruct (migrateTask_unkeyed now t K) as (i & Hi & E & Hnone).
    rewrite E.
    split; [| split; [| split; [| split]]].
    + destruct Hi as [-> | (d & -> & Hd)].
      * specialize (Hnone eq_refl).
        assert (K' : negb (Js.falsy_str (dueKey (withDue None None t)))
                     || negb (Js.falsy_str (dueISO (withDue None None t))) = false)
          by reflexivity.
        destruct (migrateTask_unkeyed now' _ K') as (i' & Hi' & E' & _).
        pose proof (Hnone now') as N.
        unfold migrateTask in N |- *. rewrite K in N.
        change (negb (Js.falsy_str (dueKey (withDue None None t)))
                || negb (Js.falsy_str (dueISO (withDue None None t)))) with false.
        cbv iota.
        change (dueLabel (withDue None None t)) with (dueLabel t).
        cbv zeta in N |- *.
        destruct (match dueLabel t with Some l => matchMDY l | None => None end)
          as [[[g1 g2] g3] |].
        { exfalso. default_some; cbn [Js.falsy_str negb] in N.
          rewrite append_nonempty in N. cbn [negb] in N.
          apply (f_equal dueKey) in N. discriminate. }
        destruct (bool_decide (option_map baseOfLabel (dueLabel t) = Some "Today")).
        { exfalso. default_some; cbn [Js.falsy_str negb] in N.
          rewrite toISODate_nonempty in N. apply (f_equal dueKey) in N. discriminate. }
        destruct (bool_decide (option_map baseOfLabel (dueLabel t) = Some "Tomorrow")).
        { exfalso. default_some; cbn [Js.falsy_str negb] in N.
          rewrite toISODate_nonempty in N. apply (f_equal dueKey) in N. discriminate. }
        destruct (bool_decide (option_map baseOfLabel (dueLabel t) = Some "Next Monday")).
        { exfalso. default_some; cbn [Js.falsy_str negb] in N.
          rewrite toISODate_nonempty in N. apply (f_equal dueKey) in N. discriminate. }
        reflexivity.
      * apply migrateTask_keyed. cbn [withDue dueISO Js.falsy_str].
        apply String.eqb_neq in Hd. rewrite Hd. apply orb_true_r.
    + repeat split.
    + reflexivity.
    + intros [F | F]; rewrite F in K; cbn in K; [discriminate |].
      rewrite orb_true_r in K. discriminate.
    + intros _ _. reflexivity.
Qed.

Lemma in2000s_year n : in2000s n -> 2000 <= fst (fst (civil_from_days n)) <= 2099.
Proof.
  intros [Hlo Hhi]. split.
  - destruct (Z.eq_dec n firstDay2000) as [-> | Hne]; [vm_compute; discriminate |].
    pose proof (civil_mono firstDay2000 n ltac:(lia)) as H.
    change (civil_from_days firstDay2000) with (2000, 1, 1) in H.
    destruct (civil_from_days n) as [[y m] d]. simpl. unfold lex_ltb in H.
    rewrite !orb_true_iff, !andb_true_iff in H. lia.
  - destruct (Z.eq_dec n lastDay2099) as [-> | Hne]; [vm_compute; discriminate |].
    pose proof (civil_mono n lastDay2099 ltac:(lia)) as H.
    change (civil_from_days lastDay2099) with (2099, 12, 31) in H.
    destruct (civil_from_days n) as [[y m] d]. simpl. unfold lex_ltb in H.
    rewrite !orb_true_iff, !andb_true_iff in H. lia.
Qed.

Lemma pad2_reads_all n : 0 <= n <= 99 -> pad2_reads n = true.
Proof.
  intros H.
  assert (A : forall_from 100 0 pad2_reads = true) by (vm_compute; reflexivity).
  apply (forall_from_spec _ _ _ A). lia.
Qed.

Lemma year_tail_all k : 0 <= k <= 99 -> year_tail k = true.
Proof.
  intros H.
  assert (A : forall_from 100 0 year_tail = true) by (vm_compute; reflexivity).
  apply (forall_from_spec _ _ _ A). lia.
Qed.

Lemma pad2_two_digits n :
  0 <= n <= 99 ->
  exists a b, pad2 n = String a (String b EmptyString)
              /\ Js.is_digit a = true /\ Js.is_digit b = true
              /\ Js.parseInt10 (String a (String b EmptyString)) = n.
Proof.
  intros H. pose proof (pad2_reads_all n H) as R. unfold pad2_reads in R.
  destruct (pad2 n) as [| a [| b [| c r]]]; try discriminate.
  exists a, b. rewrite !andb_true_iff in R. destruct R as [[Ha Hb] Hp].
  repeat split; try assumption. lia.
Qed.

Lemma mdyAt_nondigit a r : Js.is_digit a = false -> mdyAt (String a r) = None.
Proof.
  intros H. unfold mdyAt.
  repeat (destruct r as [| ? r]; [reflexivity |]).
  now rewrite H.
Qed.

Lemma matchMDY_skip pre s : lacksDigit pre = true -> matchMDY (pre +:+ s) = matchMDY s.
Proof.
  induction pre as [| a pre IH]; intros H; [reflexivity |].
  simpl in H. apply andb_true_iff in H as [Ha Hp]. apply negb_true_iff in Ha.
  change (String a pre +:+ s) with (String a (pre +:+ s)).
  cbn [matchMDY]. rewrite (mdyAt_nondigit a _ Ha). now apply IH.
Qed.

(** The date text of a label: the three groups that the migration reads. *)
Lemma matchMDY_fmtMDY pre n tail :
  in2000s n -> lacksDigit pre = true ->
  exists g1 g2 g3,
    matchMDY (pre +:+ fmtMDY (dateOfDay n) +:+ tail) = Some (g1, g2, g3)
    /\ Js.String_of_Z (2000 + Js.parseInt10 g3) +:+ "-" +:+ pad2 (Js.parseInt10 g1)
       +:+ "-" +:+ pad2 (Js.parseInt10 g2) = isoOfDay n.
Proof.
  intros R P. rewrite (matchMDY_skip _ _ P).
  unfold isoOfDay. rewrite toISODate_civil. unfold fmtMDY, getMonth, getDate, getFullYear.
  cbn [dayNumber dateOfDay].
  pose proof (in2000s_year n R) as Y. pose proof (civil_ranges n) as [M D].
  destruct (civil_from_days n) as [[y m] d]. cbn [fst snd] in *.
  replace (m - 1 + 1) with m by lia.
  destruct (pad2_two_digits m ltac:(lia)) as (a1 & b1 & E1 & A1 & B1 & P1).
  destruct (pad2_two_digits d ltac:(lia)) as (a2 & b2 & E2 & A2 & B2 & P2).
  destruct (pad2_two_digits (y - 2000) ltac:(lia)) as (a3 & b3 & E3 & A3 & B3 & P3).
  pose proof (year_tail_all (y - 2000) ltac:(lia)) as T. unfold year_tail in T.
  apply String.eqb_eq in T. replace (2000 + (y - 2000)) with y in T by lia.
  rewrite T. rewrite E1, E2, E3.
  exists (String a1 (String b1 "")), (String a2 (String b2 "")), (String a3 (String b3 "")).
  split.
  - cbn [String.append matchMDY mdyAt]. rewrite A1, B1, A2, B2, A3, B3. reflexivity.
  - rewrite P1, P2, P3. replace (2000 + (y - 2000)) with y by lia.
    now rewrite <- E1, <- E2.
Qed.

Lemma isoOfDay_nonempty n : String.eqb (isoOfDay n) "" = false.
Proof. apply toISODate_nonempty. Qed.

(** [X16] A stored task without due key and date whose label holds a date
    as [fmtMDY] writes it, after a text without digits (as in the labels
    of the due options, "Today (01/03/24)"), is migrated to that date, for
    the dates of the years 2000 to 2099, with the key of that date on the
    day of the migration. *)
Theorem migration_reads_label (now : Date) (n : Z) (pre tail : string) (t : Task) :
  in2000s n -> lacksDigit pre = true ->
  Js.falsy_str (dueKey t) = true -> Js.falsy_str (dueISO t) = true ->
  dueLabel t = Some (pre +:+ fmtMDY (dateOfDay n) +:+ tail) ->
  dueISO (migrateTask now t) = Some (isoOfDay n)
  /\ dueKey (migrateTask now t) = Some (computeKeyForISO (Some (isoOfDay n)) now).
Proof.
  intros R P K I L.
  destruct (matchMDY_fmtMDY pre n tail R P) as (g1 & g2 & g3 & M & E).
  unfold migrateTask. rewrite K, I, L, M. cbn [negb orb]. cbv zeta.
  rewrite E. default_some. cbn [Js.falsy_str].
  rewrite isoOfDay_nonempty. cbn [negb withDue dueISO dueKey].
  split; [reflexivity |]. f_equal.
  unfold computeKeyForISO. default_some. cbn [Js.falsy_str].
  now rewrite isoOfDay_nonempty.
Qed.

Lemma migration_reads_label_witness :
  let t := sampleTask "a" false "high" None in
  in2000s 19725 /\ lacksDigit "Today (" = true
  /\ dueLabel t = Some ("Today (" +:+ fmtMDY (dateOfDay 19725) +:+ ")")
  /\ dueISO (migrateTask (addDays wednesday_2024_01_03 1) t) = Some (isoOfDay 19725)
  /\ isoOfDay 19725 = "2024-01-03".
Proof.
  cbv zeta.
  assert (R : in2000s 19725) by (unfold in2000s, firstDay2000, lastDay2099; lia).
  assert (L : dueLabel (sampleTask "a" false "high" None)
              = Some ("Today (" +:+ fmtMDY (dateOfDay 19725) +:+ ")"))
    by (vm_compute; reflexivity).
  split; [exact R |]. split; [reflexivity |]. split; [exact L |].
  split; [| vm_compute; reflexivity].
  exact (proj1 (migration_reads_label (addDays wednesday_2024_01_03 1) 19725 "Today (" ")"
                  (sampleTask "a" false "high" None) R eq_refl eq_refl eq_refl L)).
Defined.

(** ** The work-order list: derived urgency *)

Lemma Forall2_same {A} (R : A -> A -> Prop) l :
  (forall x, In x l -> R x x) -> Forall2 R l l.
Proof.
  induction l as [| a l IH]; intros H; constructor.
  - apply H. now left.
  - apply IH. intros x Hx. apply H. now right.
Qed.

Section WorkOrderFacts.
Variable Number : string -> JsNum.


Lemma withUrgency_same w : WorkOrders.withUrgency (WorkOrders.urgency w) w = w.
Proof. now destruct w. Qed.

Lemma urgencyDiffers_false now w :
  WorkOrders.urgencyDiffers Number now w = false
  <-> WorkOrders.urgency w = Some (computeUrgencyFromDue Number (WorkOrders.due_on w) now).
Proof.
  unfold WorkOrders.urgencyDiffers. rewrite negb_false_iff. apply bool_decide_eq_true.
Qed.

Lemma recompute_each now items :
  Forall2 (fun w w' => w' = WorkOrders.withUrgency
                              (Some (computeUrgencyFromDue Number (WorkOrders.due_on w) now)) w)
    items (WorkOrders.recomputeAllUrgencies Number now items).
Proof.
  unfold WorkOrders.recomputeAllUrgencies.
  destruct (existsb (WorkOrders.urgencyDiffers Number now) items) eqn:E.
  - apply Forall2_map_self. intros w.
    destruct (WorkOrders.urgencyDiffers Number now w) eqn:D; [reflexivity |].
    apply urgencyDiffers_false in D. rewrite <- D. symmetry. apply withUrgency_same.
  - apply Forall2_same. intros w Hin.
    assert (D : WorkOrders.urgencyDiffers Number now w = false).
    { apply not_true_iff_false. intros D. apply not_true_iff_false in E. apply E.
      apply existsb_exists. now exists w. }
    apply urgencyDiffers_false in D. rewrite <- D. symmetry. apply withUrgency_same.
Qed.

Lemma recompute_fixed now items :
  urgencyDerived Number now items ->
  WorkOrders.recomputeAllUrgencies Number now items = items.
Proof.
  intros D. unfold WorkOrders.recomputeAllUrgencies.
  replace (existsb (WorkOrders.urgencyDiffers Number now) items) with false; [reflexivity |].
  symmetry. apply not_true_iff_false. intros E.
  apply existsb_exists in E as (w & Hin & E).
  unfold urgencyDerived in D. rewrite List.Forall_forall in D.
  specialize (D w Hin). apply urgencyDiffers_false in D. congruence.
Qed.

(** [X17] The periodic recomputation sets the urgency of every work
    order to the tier of its due date and changes nothing else; this
    overwrites an urgency that was set by hand. Recomputing again at the
    same time changes nothing, and a list whose urgencies are already
    the derived ones is returned as it is. *)
Theorem recompute_establishes_urgency (now : Date) (items : list WorkOrders.WorkOrder) :
  let items' := WorkOrders.recomputeAllUrgencies Number now items in
  urgencyDerived Number now items'
  /\ Forall2 (fun w w' =>
        w' = WorkOrders.withUrgency
               (Some (computeUrgencyFromDue Number (WorkOrders.due_on w) now)) w)
       items items'
  /\ WorkOrders.recomputeAllUrgencies Number now items' = items'
  /\ (urgencyDerived Number now items -> items' = items).
Proof.
  cbv zeta. pose proof (recompute_each now items) as F.
  assert (D : urgencyDerived Number now (WorkOrders.recomputeAllUrgencies Number now items)).
  { unfold urgencyDerived.
    induction F as [| w w' l l' E F IH]; constructor; [| exact IH].
    now subst. }
  split; [exact D |]. split; [exact F |]. split.
  - now apply recompute_fixed.
  - apply recompute_fixed.
Qed.

Lemma computeUrgency_absent now : computeUrgencyFromDue Number None now = "low".
Proof. unfold computeUrgencyFromDue. now rewrite daysBetweenUTC_absent. Qed.

Lemma derived_map now (f : WorkOrders.WorkOrder -> WorkOrders.WorkOrder) items :
  (forall w, WorkOrders.urgency w
             = Some (computeUrgencyFromDue Number (WorkOrders.due_on w) now) ->
             WorkOrders.urgency (f w)
             = Some (computeUrgencyFromDue Number (WorkOrders.due_on (f w)) now)) ->
  urgencyDerived Number now items -> urgencyDerived Number now (map f items).
Proof.
  intros Hf D. unfold urgencyDerived in *. apply List.Forall_map.
  eapply List.Forall_impl; [| exact D]. exact Hf.
Qed.

Lemma updateWO_derived now wid patch items :
  WorkOrders.p_due_on patch <> None \/ WorkOrders.p_urgency patch = None ->
  urgencyDerived Number now items ->
  urgencyDerived Number now (WorkOrders.updateWO Number wid patch now items).
Proof.
  intros P. unfold WorkOrders.updateWO. apply derived_map. intros w Hw.
  destruct (String.eqb (WorkOrders.id w) wid); [| exact Hw].
  destruct (WorkOrders.p_due_on patch) as [d |] eqn:Ed.
  - unfold WorkOrders.applyPatch. cbn. rewrite ?Ed. reflexivity.
  - destruct P as [P | P]; [congruence |].
    unfold WorkOrders.applyPatch. cbn. rewrite ?Ed, P. exact Hw.
Qed.

(** [X18] The handlers keep the urgency derived from the due date: if
    every work order has the tier of its due date, this still holds
    after adding a work order (which has no due date and the tier
    "low"), after an update that sets the due date (a tier given in the
    same update is overridden) or that does not touch the urgency, after
    a change of the due-date field, after a removal and after adding,
    changing or removing a line. *)
Theorem handlers_keep_derived_urgency (now : Date) (items : list WorkOrders.WorkOrder) :
  urgencyDerived Number now items ->
  (forall newId stamp,
      urgencyDerived Number now (WorkOrders.addWO Number newId stamp now items)
      /\ (WorkOrders.urgency <$> List.head (WorkOrders.addWO Number newId stamp now items))
         = Some (Some "low"))
  /\ (forall wid patch,
        WorkOrders.p_due_on patch <> None \/ WorkOrders.p_urgency patch = None ->
        urgencyDerived Number now (WorkOrders.updateWO Number wid patch now items))
  /\ (forall wid raw,
        urgencyDerived Number now (WorkOrders.onDueChange Number wid raw now items))
  /\ (forall wid, urgencyDerived Number now (WorkOrders.removeWO wid items))
  /\ (forall woId newId, urgencyDerived Number now (WorkOrders.addLine woId newId items))
  /\ (forall woId noteId patch,
        urgencyDerived Number now (WorkOrders.updateLine woId noteId patch items))
  /\ (forall woId noteId,
        urgencyDerived Number now (WorkOrders.removeLine woId noteId items)).
Proof.
  intros D. repeat split.
  - unfold WorkOrders.addWO. constructor; [reflexivity | exact D].
  - intros wid patch P. now apply updateWO_derived.
  - intros wid raw. unfold WorkOrders.onDueChange. apply updateWO_derived; [| exact D].
    left. discriminate.
  - intros wid. unfold WorkOrders.removeWO, urgencyDerived in *.
    apply List.Forall_forall. intros w Hw. apply filter_In in Hw as [Hw _].
    rewrite List.Forall_forall in D. now apply D.
  - intros woId newId. unfold WorkOrders.addLine. apply derived_map; [| exact D].
    intros w Hw. now destruct (String.eqb (WorkOrders.id w) woId).
  - intros woId noteId patch. unfold WorkOrders.updateLine. apply derived_map; [| exact D].
    intros w Hw. now destruct (String.eqb (WorkOrders.id w) woId).
  - intros woId noteId. unfold WorkOrders.removeLine. apply derived_map; [| exact D].
    intros w Hw. now destruct (String.eqb (WorkOrders.id w) woId).
Qed.

Lemma computeUrgency_canonical due now :
  readsDecimal Number -> inDateRange due -> inDateRange (dayNumber now) ->
  computeUrgencyFromDue Number (Some (isoOfDay due)) now = classify (due - dayNumber now).
Proof.
  intros R Hd Hn. unfold computeUrgencyFromDue.
  rewrite (daysBetweenUTC_canonical Number due now R Hd Hn).
  cbn [isFinite negb].
  change 35%Q with (inject_Z 35). change 105%Q with (inject_Z 105).
  rewrite !num_lt_inject. reflexivity.
Qed.

(** [X19] As days pass the urgency of a dated work order only escalates:
    on a later day the tier is the same or a more urgent one (low, then
    medium, then high), and an overdue work order stays "high". *)
Theorem urgency_only_escalates (due : Z) (now1 now2 : Date) :
  readsDecimal Number ->
  inDateRange due -> inDateRange (dayNumber now1) -> inDateRange (dayNumber now2) ->
  dayNumber now1 <= dayNumber now2 ->
  tierRank (computeUrgencyFromDue Number (Some (isoOfDay due)) now2)
  <= tierRank (computeUrgencyFromDue Number (Some (isoOfDay due)) now1)
  /\ (due < dayNumber now1 ->
      computeUrgencyFromDue Number (Some (isoOfDay due)) now2 = "high").
Proof.
  intros R Hd H1 H2 Hle.
  rewrite !computeUrgency_canonical by assumption.
  unfold classify, tierRank. split.
  - destruct (due - dayNumber now2 <? 35) eqn:A2, (due - dayNumber now2 <? 105) eqn:B2,
             (due - dayNumber now1 <? 35) eqn:A1, (due - dayNumber now1 <? 105) eqn:B1;
      cbn; lia.
  - intros O. assert (A : (due - dayNumber now2 <? 35) = true) by lia. now rewrite A.
Qed.

(** [X20] Whenever the five-to-nine-weeks test holds for a due date, the
    urgency of that due date is "medium". *)
Theorem five_to_nine_weeks_is_medium (due_on : option string) (now : Date) :
  WorkOrders.isDueWithin5to9Weeks Number due_on now = true ->
  computeUrgencyFromDue Number due_on now = "medium".
Proof.
  unfold WorkOrders.isDueWithin5to9Weeks, computeUrgencyFromDue.
  destruct (daysBetweenUTC Number due_on now) as [| | | q]; cbn; try discriminate.
  intros H. apply andb_true_iff in H as [Hge Hle].
  apply Qle_bool_iff in Hge, Hle.
  assert (N1 : Qle_bool 35 q = true) by now apply Qle_bool_iff.
  assert (N2 : Qle_bool 105 q = false).
  { apply not_true_iff_false. intros C. apply Qle_bool_iff in C.
    assert (X : (105 <= 63)%Q) by (eapply Qle_trans; eassumption).
    revert X. unfold Qle. cbn. lia. }
  now rewrite N1, N2.
Qed.
End WorkOrderFacts.

Lemma handlers_keep_derived_urgency_witness :
  let items := [sampleWO "a" None (Some "low")] in
  urgencyDerived NumberDec wednesday_2024_01_03 items
  /\ urgencyDerived NumberDec wednesday_2024_01_03
       (WorkOrders.onDueChange NumberDec "a" "2/10/24" wednesday_2024_01_03 items).
Proof.
  cbv zeta.
  assert (D : urgencyDerived NumberDec wednesday_2024_01_03 [sampleWO "a" None (Some "low")]).
  { constructor; [reflexivity | constructor]. }
  split; [exact D |].
  destruct (handlers_keep_derived_urgency NumberDec wednesday_2024_01_03 _ D)
    as (_ & _ & H & _).
  apply H.
Defined.

Lemma urgency_only_escalates_witness :
  let later := addDays wednesday_2024_01_03 10 in
  readsDecimal NumberDec
  /\ inDateRange 19765 /\ inDateRange (dayNumber wednesday_2024_01_03)
  /\ inDateRange (dayNumber later) /\ dayNumber wednesday_2024_01_03 <= dayNumber later
  /\ tierRank (computeUrgencyFromDue NumberDec (Some (isoOfDay 19765)) later)
     <= tierRank (computeUrgencyFromDue NumberDec (Some (isoOfDay 19765)) wednesday_2024_01_03).
Proof.
  cbv zeta.
  assert (R1 : inDateRange 19765) by (unfold inDateRange, firstDay100; lia).
  assert (R2 : inDateRange (dayNumber wednesday_2024_01_03))
    by (unfold inDateRange, firstDay100; simpl; lia).
  assert (R3 : inDateRange (dayNumber (addDays wednesday_2024_01_03 10)))
    by (unfold inDateRange, firstDay100; simpl; lia).
  assert (L : dayNumber wednesday_2024_01_03 <= dayNumber (addDays wednesday_2024_01_03 10))
    by (simpl; lia).
  split; [exact NumberDec_readsDecimal |].
  split; [exact R1 |]. split; [exact R2 |]. split; [exact R3 |]. split; [exact L |].
  exact (proj1 (urgency_only_escalates NumberDec 19765 wednesday_2024_01_03
                  (addDays wednesday_2024_01_03 10) NumberDec_readsDecimal R1 R2 R3 L)).
Defined.

Lemma five_to_nine_weeks_is_medium_witness :
  WorkOrders.isDueWithin5to9Weeks NumberDec (Some "2024-02-10") wednesday_2024_01_03 = true
  /\ computeUrgencyFromDue NumberDec (Some "2024-02-10") wednesday_2024_01_03 = "medium".
Proof.
  assert (W : WorkOrders.isDueWithin5to9Weeks NumberDec (Some "2024-02-10")
                wednesday_2024_01_03 = true) by (vm_compute; reflexivity).
  split; [exact W |].
  exact (five_to_nine_weeks_is_medium NumberDec (Some "2024-02-10") wednesday_2024_01_03 W).
Defined.

(** ** The due-date field of a work order: display and normalisation *)

Lemma digit_char a :
  Js.is_digit a = true ->
  Js.is_space a = false /\ Ascii.eqb a "/" = false /\ Ascii.eqb a "-" = false.
Proof.
  destruct a as [[] [] [] [] [] [] [] []]; intros H; vm_compute in H;
    try discriminate H; repeat split.
Qed.

Lemma trimEnd_noSpace s : noSpace s = true -> Js.trimEnd s = s.
Proof.
  induction s as [| a s IH]; intros H; [reflexivity |].
  simpl in H. apply andb_true_iff in H as [Ha Hs]. apply negb_true_iff in Ha.
  cbn [Js.trimEnd]. rewrite (IH Hs), Ha. now destruct s.
Qed.

Lemma trim_noSpace s : noSpace s = true -> Js.trim s = s.
Proof.
  intros H. unfold Js.trim.
  replace (Js.trimStart s) with s; [now apply trimEnd_noSpace |].
  destruct s as [| a s]; [reflexivity |].
  simpl in H. apply andb_true_iff in H as [Ha _]. apply negb_true_iff in Ha.
  cbn [Js.trimStart]. now rewrite Ha.
Qed.

(** The normaliser on a text of two digits, a slash, two digits, a slash
    and two digits. *)
Lemma toISOIfPossible_short a1 b1 a2 b2 a3 b3 :
  Js.is_digit a1 = true -> Js.is_digit b1 = true ->
  Js.is_digit a2 = true -> Js.is_digit b2 = true ->
  Js.is_digit a3 = true -> Js.is_digit b3 = true ->
  let g1 := String a1 (String b1 "") in
  let g2 := String a2 (String b2 "") in
  let g3 := String a3 (String b3 "") in
  1 <= Js.parseInt10 g1 <= 12 -> 1 <= Js.parseInt10 g2 <= 31 -> Js.parseInt10 g3 < 100 ->
  toISOIfPossible (g1 +:+ "/" +:+ g2 +:+ "/" +:+ g3)
  = {| iso := Some (isoText (2000 + Js.parseInt10 g3) (Js.parseInt10 g1) (Js.parseInt10 g2));
       valid := true |}.
Proof.
  intros A1 B1 A2 B2 A3 B3 g1 g2 g3 R1 R2 R3.
  destruct (digit_char a1 A1) as (S1 & F1 & M1), (digit_char b1 B1) as (T1 & G1 & N1).
  destruct (digit_char a2 A2) as (S2 & F2 & M2), (digit_char b2 B2) as (T2 & G2 & N2).
  destruct (digit_char a3 A3) as (S3 & F3 & M3), (digit_char b3 B3) as (T3 & G3 & N3).
  unfold toISOIfPossible.
  assert (Tr : Js.trim (g1 +:+ "/" +:+ g2 +:+ "/" +:+ g3) = g1 +:+ "/" +:+ g2 +:+ "/" +:+ g3).
  { apply trim_noSpace. unfold g1, g2, g3. cbn [String.append noSpace].
    now rewrite S1, T1, S2, T2, S3, T3. }
  rewrite Tr. cbv zeta.
  assert (E0 : String.eqb (g1 +:+ "/" +:+ g2 +:+ "/" +:+ g3) "" = false) by reflexivity.
  rewrite E0.
  assert (MI : matchIso (g1 +:+ "/" +:+ g2 +:+ "/" +:+ g3) = false).
  { unfold matchIso, g1, g2, g3. cbn [String.append Js.split].
    rewrite M1, N1, M2, N2, M3, N3.
    change (Ascii.eqb "/" "-") with false. reflexivity. }
  rewrite MI.
  assert (MU : matchUS (g1 +:+ "/" +:+ g2 +:+ "/" +:+ g3) = Some (g1, g2, g3)).
  { unfold matchUS, g1, g2, g3. cbn [String.append Js.split].
    rewrite F1, G1, F2, G2, F3, G3.
    change (Ascii.eqb "/" "/") with true. cbv iota.
    cbn [Js.all_digits String.length]. rewrite A1, B1, A2, B2, A3, B3. reflexivity. }
  rewrite MU.
  replace (Js.parseInt10 g3 <? 100) with true by lia.
  replace ((1 <=? Js.parseInt10 g1) && (Js.parseInt10 g1 <=? 12)
           && (1 <=? Js.parseInt10 g2) && (Js.parseInt10 g2 <=? 31)) with true by lia.
  reflexivity.
Qed.

Lemma year_outside_2000s n :
  ~ in2000s n ->
  fst (fst (civil_from_days n)) < 2000 \/ 2099 < fst (fst (civil_from_days n)).
Proof.
  intros H. unfold in2000s in H.
  pose proof (civil_ranges n) as [M D].
  destruct (Z_lt_le_dec n firstDay2000) as [L | L].
  - left. pose proof (civil_mono n firstDay2000 L) as C.
    change (civil_from_days firstDay2000) with (2000, 1, 1) in C.
    destruct (civil_from_days n) as [[y m] d]. cbn [fst snd] in *. unfold lex_ltb in C.
    rewrite !orb_true_iff, !andb_true_iff in C. lia.
  - right. assert (G : lastDay2099 < n) by lia.
    pose proof (civil_mono lastDay2099 n G) as C.
    change (civil_from_days lastDay2099) with (2099, 12, 31) in C.
    destruct (civil_from_days n) as [[y m] d]. cbn [fst snd] in *. unfold lex_ltb in C.
    rewrite !orb_true_iff, !andb_true_iff in C. lia.
Qed.

Lemma year_tail4 y :
  1000 <= y <= 9999 -> Js.slice_last 2 (Js.String_of_Z y) = pad2 (y mod 100).
Proof.
  intros H. rewrite (year4_digits y H).
  destruct (pad2_two_digits (y / 100) ltac:(lia)) as (a & b & -> & _).
  destruct (pad2_two_digits (y mod 100) ltac:(lia)) as (c & d & -> & _).
  reflexivity.
Qed.

Lemma fmtMDY_shortDate n :
  canonicalDay n ->
  fmtMDY (dateOfDay n)
  = shortDate (getMonth (dateOfDay n) + 1) (getDate (dateOfDay n))
              (getFullYear (dateOfDay n) mod 100).
Proof.
  intros C. unfold fmtMDY, shortDate. rewrite year_tail4; [reflexivity |].
  now apply canonicalDay_year.
Qed.

Lemma toISOIfPossible_shortDate m d yy :
  1 <= m <= 12 -> 1 <= d <= 31 -> 0 <= yy <= 99 ->
  toISOIfPossible (shortDate m d yy)
  = {| iso := Some (isoText (2000 + yy) m d); valid := true |}.
Proof.
  intros Hm Hd Hy. unfold shortDate.
  destruct (pad2_two_digits m ltac:(lia)) as (a1 & b1 & -> & A1 & B1 & P1).
  destruct (pad2_two_digits d ltac:(lia)) as (a2 & b2 & -> & A2 & B2 & P2).
  destruct (pad2_two_digits yy ltac:(lia)) as (a3 & b3 & -> & A3 & B3 & P3).
  pose proof (toISOIfPossible_short a1 b1 a2 b2 a3 b3 A1 B1 A2 B2 A3 B3) as T.
  cbv zeta in T. rewrite P1, P2, P3 in T. apply T; lia.
Qed.

Lemma split_digits_noSpace c s :
  Js.is_space c = false ->
  List.Forall (fun p => Js.all_digits p = true) (Js.split c s) -> noSpace s = true.
Proof.
  intros Hc. induction s as [| a s IH]; intros H; [reflexivity |].
  cbn [Js.split] in H. cbn [noSpace].
  destruct (Ascii.eqb a c) eqn:E.
  - apply Ascii.eqb_eq in E. subst a. rewrite Hc. cbn [negb andb].
    apply IH. now inversion H.
  - destruct (Js.split c s) as [| h t] eqn:Es.
    + inversion H as [| ? ? Ha _]; subst. cbn [Js.all_digits] in Ha.
      apply andb_true_iff in Ha as [Ha _].
      destruct (digit_char a Ha) as (-> & _). cbn [negb andb]. apply IH. constructor.
    + inversion H as [| ? ? Ha Ht]; subst. cbn [Js.all_digits] in Ha.
      apply andb_true_iff in Ha as [Ha Hh].
      destruct (digit_char a Ha) as (-> & _). cbn [negb andb]. apply IH.
      now constructor.
Qed.

Lemma matchIso_fixed i :
  matchIso i = true -> toISOIfPossible i = {| iso := Some i; valid := true |}.
Proof.
  intros M.
  assert (NS : noSpace i = true).
  { apply (split_digits_noSpace "-"); [reflexivity |].
    unfold matchIso in M.
    destruct (Js.split "-" i) as [| y [| m [| d [| ? ?]]]]; try discriminate.
    rewrite !andb_true_iff in M. repeat constructor; tauto. }
  assert (NE : String.eqb i "" = false) by (destruct i; [discriminate M | reflexivity]).
  unfold toISOIfPossible. rewrite (trim_noSpace i NS). cbv zeta.
  now rewrite NE, M.
Qed.

Lemma pad2_shape n :
  0 <= n <= 99 -> Js.all_digits (pad2 n) = true /\ String.length (pad2 n) = 2%nat.
Proof.
  intros H. destruct (pad2_two_digits n H) as (a & b & -> & A & B & _).
  cbn [Js.all_digits String.length]. now rewrite A, B.
Qed.

Lemma year4_shape y :
  1000 <= y <= 9999 ->
  Js.all_digits (Js.String_of_Z y) = true /\ String.length (Js.String_of_Z y) = 4%nat.
Proof.
  intros H. rewrite (year4_digits y H).
  destruct (pad2_two_digits (y / 100) ltac:(lia)) as (a & b & -> & A & B & _).
  destruct (pad2_two_digits (y mod 100) ltac:(lia)) as (c & d & -> & C & D & _).
  cbn [String.append Js.all_digits String.length]. now rewrite A, B, C, D.
Qed.

Lemma matchIso_isoText y m d :
  1000 <= y <= 9999 -> 0 <= m <= 99 -> 0 <= d <= 99 -> matchIso (isoText y m d) = true.
Proof.
  intros Hy Hm Hd. unfold matchIso, isoText. rewrite split_iso by lia.
  destruct (year4_shape y Hy) as [-> ->].
  destruct (pad2_shape m Hm) as [-> ->], (pad2_shape d Hd) as [-> ->]. reflexivity.
Qed.

Section DueField.
Variable Number : string -> JsNum.
Variable NumToString : JsNum -> string.

Lemma fmtShortDate_canonical n :
  readsDecimal Number -> printsIntegers NumToString -> canonicalDay n ->
  WorkOrders.fmtShortDate Number NumToString (Some (isoOfDay n)) = fmtMDY (dateOfDay n).
Proof.
  intros [HS HP] HT C. rewrite (fmtMDY_shortDate n C).
  unfold WorkOrders.fmtShortDate, shortDate, getFullYear, getMonth, getDate.
  cbn [Js.falsy_str]. rewrite isoOfDay_nonempty.
  change (default "" (Some (isoOfDay n))) with (isoOfDay n).
  unfold isoOfDay. rewrite toISODate_civil. cbn [dayNumber dateOfDay].
  pose proof (canonicalDay_year n C) as Hy.
  pose proof (civil_ranges n) as [Hm Hd].
  destruct (civil_from_days n) as [[y m] d]. cbn [fst snd] in *.
  rewrite split_iso by lia. cbv zeta. cbn [map].
  rewrite HS, !HP by lia.
  change ([Fin (inject_Z y); Fin (inject_Z m); Fin (inject_Z d)] !! 0%nat)
    with (Some (Fin (inject_Z y))).
  change ([Fin (inject_Z y); Fin (inject_Z m); Fin (inject_Z d)] !! 1%nat)
    with (Some (Fin (inject_Z m))).
  change ([Fin (inject_Z y); Fin (inject_Z m); Fin (inject_Z d)] !! 2%nat)
    with (Some (Fin (inject_Z d))).
  unfold falsy_part. rewrite !truthy_inject.
  replace (y =? 0) with false by (symmetry; apply Z.eqb_neq; lia).
  replace (m =? 0) with false by (symmetry; apply Z.eqb_neq; lia).
  replace (d =? 0) with false by (symmetry; apply Z.eqb_neq; lia).
  cbn [negb orb].
  change (default NaN (Some (Fin (inject_Z y)))) with (Fin (inject_Z y)).
  change (default NaN (Some (Fin (inject_Z m)))) with (Fin (inject_Z m)).
  change (default NaN (Some (Fin (inject_Z d)))) with (Fin (inject_Z d)).
  rewrite !HT by lia. rewrite year_tail4 by lia.
  replace (m - 1 + 1) with m by lia. reflexivity.
Qed.

(** [X21] The due-date field shows a stored date as [fmtMDY] writes it
    (MM/DD/YY), and reading that text back gives the date with the year
    moved into 2000..2099. So for the dates of those years the text
    reads back as the stored date and leaving the field changes nothing,
    while for any other date (1999-12-31, 2100-01-01) leaving the field
    replaces the stored date by the date a multiple of a hundred years
    away. *)
Theorem due_field_round_trip (n : Z) :
  readsDecimal Number -> printsIntegers NumToString -> canonicalDay n ->
  let shown := WorkOrders.fmtShortDate Number NumToString (Some (isoOfDay n)) in
  let y := getFullYear (dateOfDay n) in
  let back := isoText (2000 + y mod 100) (getMonth (dateOfDay n) + 1) (getDate (dateOfDay n)) in
  shown = fmtMDY (dateOfDay n)
  /\ toISOIfPossible shown = {| iso := Some back; valid := true |}
  /\ (in2000s n -> back = isoOfDay n
      /\ forall w now items, WorkOrders.due_on w = Some (isoOfDay n) ->
           WorkOrders.onDueBlur Number w shown now items = items)
  /\ (~ in2000s n -> back <> isoOfDay n
      /\ forall w now items, WorkOrders.due_on w = Some (isoOfDay n) ->
           WorkOrders.onDueBlur Number w shown now items
           = WorkOrders.onDueChange Number (WorkOrders.id w) back now items).
Proof.
  intros R P C. cbv zeta.
  rewrite (fmtShortDate_canonical n R P C).
  pose proof (canonicalDay_year n C) as Hy.
  pose proof (civil_ranges n) as [Hm Hd].
  assert (T : toISOIfPossible (fmtMDY (dateOfDay n))
              = {| iso := Some (isoText (2000 + getFullYear (dateOfDay n) mod 100)
                                  (getMonth (dateOfDay n) + 1) (getDate (dateOfDay n)));
                   valid := true |}).
  { rewrite (fmtMDY_shortDate n C). unfold getMonth, getDate, getFullYear.
    cbn [dayNumber dateOfDay]. apply toISOIfPossible_shortDate; lia. }
  assert (I : isoOfDay n = isoText (getFullYear (dateOfDay n))
                             (getMonth (dateOfDay n) + 1) (getDate (dateOfDay n))).
  { reflexivity. }
  split; [reflexivity |]. split; [exact T |]. split.
  - intros In. pose proof (in2000s_year n In) as Y.
    assert (B : isoText (2000 + getFullYear (dateOfDay n) mod 100)
                  (getMonth (dateOfDay n) + 1) (getDate (dateOfDay n)) = isoOfDay n).
    { rewrite I. f_equal. unfold getFullYear. cbn [dayNumber dateOfDay]. lia. }
    split; [exact B |]. intros w now items Hw.
    unfold WorkOrders.onDueBlur. rewrite T, B. cbn [valid iso]. rewrite Hw.
    now rewrite bool_decide_eq_true_2, andb_false_r.
  - intros Out. pose proof (year_outside_2000s n Out) as Y.
    assert (B : isoText (2000 + getFullYear (dateOfDay n) mod 100)
                  (getMonth (dateOfDay n) + 1) (getDate (dateOfDay n)) <> isoOfDay n).
    { rewrite I. unfold isoText, getFullYear, getMonth, getDate. cbn [dayNumber dateOfDay].
      intros E. apply iso_format_inj in E; lia. }
    split; [exact B |]. intros w now items Hw.
    unfold WorkOrders.onDueBlur, WorkOrders.onDueChange. rewrite T. cbn [valid iso].
    rewrite Hw.
    rewrite bool_decide_eq_false_2 by congruence.
    assert (NE : Js.falsy_str (Some (isoText (2000 + getFullYear (dateOfDay n) mod 100)
                   (getMonth (dateOfDay n) + 1) (getDate (dateOfDay n)))) = false).
    { cbn [Js.falsy_str]. unfold isoText. apply append_nonempty. }
    rewrite NE. cbn [negb andb].
    assert (DI : dueOnOfInput (isoText (2000 + getFullYear (dateOfDay n) mod 100)
                   (getMonth (dateOfDay n) + 1) (getDate (dateOfDay n)))
                 = Some (isoText (2000 + getFullYear (dateOfDay n) mod 100)
                   (getMonth (dateOfDay n) + 1) (getDate (dateOfDay n)))).
    { unfold dueOnOfInput. rewrite matchIso_fixed; [reflexivity |].
      unfold getFullYear, getMonth, getDate. cbn [dayNumber dateOfDay].
      apply matchIso_isoText; lia. }
    now rewrite DI.
Qed.
End DueField.

Lemma digit_value a : Js.is_digit a = true -> 0 <= Z.of_N (N_of_ascii a) - 48 <= 9.
Proof.
  unfold Js.is_digit. cbv zeta. intros H.
  apply andb_true_iff in H as [L U]. apply N.leb_le in L, U. lia.
Qed.

Lemma parse_digits_bound s : forall acc,
  Js.all_digits s = true -> 0 <= acc ->
  acc * 10 ^ Z.of_nat (String.length s) <= Js.parse_digits acc s
  /\ Js.parse_digits acc s < (acc + 1) * 10 ^ Z.of_nat (String.length s).
Proof.
  induction s as [| a s IH]; intros acc H Hacc.
  - cbn [Js.parse_digits String.length]. change (10 ^ Z.of_nat 0) with 1. lia.
  - cbn [Js.all_digits] in H. apply andb_true_iff in H as [Ha Hs].
    pose proof (digit_value a Ha) as V.
    cbn [Js.parse_digits String.length].
    rewrite Nat2Z.inj_succ, Z.pow_succ_r by lia.
    destruct (IH (10 * acc + (Z.of_N (N_of_ascii a) - 48)) Hs ltac:(lia)) as [L U].
    assert (P : 0 < 10 ^ Z.of_nat (String.length s)) by (apply Z.pow_pos_nonneg; lia).
    split; nia.
Qed.

Lemma parseInt10_four g :
  Js.all_digits g = true -> (String.length g <= 4)%nat -> 0 <= Js.parseInt10 g <= 9999.
Proof.
  intros D L. unfold Js.parseInt10.
  destruct (parse_digits_bound g 0 D ltac:(lia)) as [Lo Hi].
  assert (P : 10 ^ Z.of_nat (String.length g) <= 10 ^ 4)
    by (apply Z.pow_le_mono_r; lia).
  change (10 ^ 4) with 10000 in P. lia.
Qed.

(** [X22] Normalising is stable: a text of the shape YYYY-MM-DD is returned
    as it is, and whenever a text is accepted, normalising the result
    again gives the same result, unless the year of a short date was
    written with a value from 100 to 999. *)
Theorem normalizer_stable (input : string) :
  valid (toISOIfPossible input) = true ->
  exists i,
    iso (toISOIfPossible input) = Some i
    /\ (matchIso (Js.trim input) = true -> i = Js.trim input)
    /\ (toISOIfPossible i = toISOIfPossible input
        \/ exists g1 g2 g3, matchUS (Js.trim input) = Some (g1, g2, g3)
                            /\ 100 <= Js.parseInt10 g3 <= 999).
Proof.
  unfold toISOIfPossible at 1 2 4. cbv zeta.
  destruct (String.eqb (Js.trim input) ""); [discriminate |].
  destruct (matchIso (Js.trim input)) eqn:MI.
  { intros _. exists (Js.trim input). split; [reflexivity |]. split; [reflexivity |].
    left. now apply matchIso_fixed. }
  destruct (matchUS (Js.trim input)) as [[[g1 g2] g3] |] eqn:MU; [| discriminate].
  destruct ((1 <=? Js.parseInt10 g1) && (Js.parseInt10 g1 <=? 12)
            && (1 <=? Js.parseInt10 g2) && (Js.parseInt10 g2 <=? 31)) eqn:R; [| discriminate].
  intros _. eexists. split; [reflexivity |]. split; [discriminate |].
  assert (Y : 0 <= Js.parseInt10 g3 <= 9999).
  { unfold matchUS in MU.
    destruct (Js.split "/" (Js.trim input)) as [| m [| d [| y [| ? ?]]]]; try discriminate.
    destruct (Js.all_digits m && _ && _ && _ && _ && _ && Js.all_digits y && _ && _) eqn:C;
      [| discriminate].
    injection MU as <- <- <-. rewrite !andb_true_iff in C.
    apply parseInt10_four; [tauto |].
    destruct C as [_ C]. apply Nat.leb_le in C. exact C. }
  destruct (Z_lt_le_dec (Js.parseInt10 g3) 100) as [Lt | Ge].
  - left. replace (Js.parseInt10 g3 <? 100) with true by lia.
    apply matchIso_fixed. apply matchIso_isoText; lia.
  - replace (Js.parseInt10 g3 <? 100) with false by lia.
    destruct (Z_lt_le_dec (Js.parseInt10 g3) 1000) as [Lt | Ge'].
    + right. exists g1, g2, g3. split; [reflexivity | lia].
    + left. apply matchIso_fixed. apply matchIso_isoText; lia.
Qed.

Lemma normalizer_stable_witness :
  valid (toISOIfPossible " 3/4/25 ") = true
  /\ exists i, iso (toISOIfPossible " 3/4/25 ") = Some i
               /\ i = "2025-03-04"
               /\ toISOIfPossible i = toISOIfPossible " 3/4/25 ".
Proof.
  assert (V : valid (toISOIfPossible " 3/4/25 ") = true) by reflexivity.
  split; [exact V |].
  destruct (normalizer_stable " 3/4/25 " V) as (i & Hi & _ & H).
  exists i. split; [exact Hi |].
  assert (E : i = "2025-03-04").
  { change (iso (toISOIfPossible " 3/4/25 ")) with (Some "2025-03-04") in Hi. congruence. }
  split; [exact E |]. subst i. reflexivity.
Defined.

Lemma NumToStringDec_printsIntegers : printsIntegers NumToStringDec.
Proof.
  intros n Hn. unfold NumToStringDec. cbn [inject_Z Qnum Qden]. now rewrite Z.div_1_r.
Qed.

Lemma due_field_round_trip_witness :
  readsDecimal NumberDec /\ printsIntegers NumToStringDec /\ canonicalDay 10956
  /\ isoOfDay 10956 = "1999-12-31"
  /\ WorkOrders.fmtShortDate NumberDec NumToStringDec (Some (isoOfDay 10956)) = "12/31/99"
  /\ toISOIfPossible (WorkOrders.fmtShortDate NumberDec NumToStringDec (Some (isoOfDay 10956)))
     = {| iso := Some "2099-12-31"; valid := true |}.
Proof.
  assert (C : canonicalDay 10956) by (unfold canonicalDay, firstDay4, lastDay4; lia).
  destruct (due_field_round_trip NumberDec NumToStringDec 10956
              NumberDec_readsDecimal NumToStringDec_printsIntegers C) as (S & T & _).
  split; [exact NumberDec_readsDecimal |]. split; [exact NumToStringDec_printsIntegers |].
  split; [exact C |]. split; [vm_compute; reflexivity |].
  split.
  - rewrite S. vm_compute. reflexivity.
  - rewrite T. vm_compute. reflexivity.
Defined.

(** ** Loading from storage *)

Section LoadFacts.
Variable uuid : nat -> string.
Variable JSON_parse : string -> option JsValue.
Variable ToString : JsValue -> option string.

Lemma loadNote_total x n : exists r n', loadNote uuid x n = Some (r, n').
Proof.
  unfold loadNote, bind, ret, randomUUID.
  destruct (truthy (getProp x "id")); eauto.
Qed.

Lemma mapM_loadNote_total items : forall n,
  exists ns n', mapM (loadNote uuid) items n = Some (ns, n').
Proof.
  induction items as [| x items IH]; intros n; cbn [mapM].
  - unfold ret. eauto.
  - unfold bind. destruct (loadNote_total x n) as (r & n1 & ->).
    destruct (IH n1) as (ns & n2 & ->). unfold ret. eauto.
Qed.

Lemma loadOne_result w n :
  if notesLoadable w
  then exists r n', loadOne uuid w n = Some (r, n') /\ stored r = spread w
  else loadOne uuid w n = None.
Proof.
  unfold notesLoadable, loadOne, bind, arrayMap.
  destruct (js_or (getProp w "notes") (JArr [])) as [| | | | | items |]; try reflexivity.
  destruct (mapM_loadNote_total items n) as (ns & n' & ->).
  unfold ret. eauto.
Qed.

Lemma mapM_loadOne_result arr : forall n,
  if forallb notesLoadable arr
  then exists ws n', mapM (loadOne uuid) arr n = Some (ws, n')
                     /\ map stored ws = map spread arr
  else mapM (loadOne uuid) arr n = None.
Proof.
  induction arr as [| w arr IH]; intros n; cbn [forallb mapM].
  - unfold ret. eauto.
  - unfold bind. pose proof (loadOne_result w n) as L.
    destruct (notesLoadable w); cbn [andb].
    + destruct L as (r & n1 & -> & Hr). specialize (IH n1).
      destruct (forallb notesLoadable arr).
      * destruct IH as (ws & n2 & -> & Hws). unfold ret.
        exists (r :: ws), n2. split; [reflexivity |]. cbn [map]. now rewrite Hr, Hws.
      * now rewrite IH.
    + now rewrite L.
Qed.

(** [X23] Loading the work orders is all or nothing: when the stored text
    is a list in which the notes of every entry are absent, falsy or a
    list, one work order is loaded per entry, in order, with the stored
    properties of the entry; when the notes of a single entry are
    anything else, or the text is no list or cannot be parsed, the
    result is the empty list. *)
Theorem loadWO_all_or_nothing (item : option string) (n : nat) :
  let text := if Js.falsy_str item then "[]" else default "" item in
  let r := loadWO uuid JSON_parse item n in
  match JSON_parse text with
  | Some (JArr arr) =>
      if forallb notesLoadable arr
      then map stored (fst r) = map spread arr
           /\ List.length (fst r) = List.length arr
      else r = ([], n)
  | _ => r = ([], n)
  end.
Proof.
  cbv zeta. unfold loadWO, loadWO_try.
  destruct (JSON_parse (if Js.falsy_str item then "[]" else default "" item))
    as [raw |]; [| reflexivity].
  destruct raw as [| | b | x | s | arr | fields]; try reflexivity.
  - now destruct b.
  - cbn [js_or truthy]. unfold js_or. cbn [truthy].
    now destruct (truthy_num x).
  - unfold js_or. cbn [truthy]. now destruct (String.eqb s "").
  - unfold js_or. cbn [truthy arrayMap].
    pose proof (mapM_loadOne_result arr n) as M.
    destruct (forallb notesLoadable arr).
    + destruct M as (ws & n' & -> & Hws). cbn [fst]. split; [exact Hws |].
      apply (f_equal (@List.length _)) in Hws. now rewrite !length_map in Hws.
    + now rewrite M.
Qed.

Lemma stringOf_result v n :
  if converts ToString v
  then exists s, MinimalTodo.stringOf ToString v n = Some (s, n)
  else MinimalTodo.stringOf ToString v n = None.
Proof.
  unfold converts, MinimalTodo.stringOf, ret, throw.
  destruct v; try (destruct (ToString _)); eauto.
Qed.

Lemma parseOne_result t n :
  if entryReadable ToString t
  then exists r n', MinimalTodo.parseOne uuid ToString t n = Some (r, n')
                    /\ (MinimalTodo.isObject t = true -> r <> None)
                    /\ (MinimalTodo.isObject t = false -> r = None)
  else MinimalTodo.parseOne uuid ToString t n = None.
Proof.
  unfold MinimalTodo.parseOne, entryReadable.
  destruct (MinimalTodo.isObject t) eqn:O.
  - assert (T : truthy t = true) by (destruct t; try discriminate O; reflexivity).
    rewrite T. cbn [andb negb orb].
    pose proof (stringOf_result (getProp t "id") n) as Ri.
    pose proof (stringOf_result (getProp t "text") n) as Rt.
    pose proof (stringOf_result (getProp t "text") (S n)) as Rt'.
    destruct (nullish (getProp t "id")) eqn:Ni, (nullish (getProp t "text")) eqn:Nt;
      cbn [orb andb];
      destruct (converts ToString (getProp t "id")),
               (converts ToString (getProp t "text")); cbn [andb];
      unfold bind, js_nullish_or, MinimalTodo.randomUUID, ret; rewrite ?Nt;
      cbn [MinimalTodo.stringOf]; unfold ret;
      repeat match goal with
             | H : exists s, _ = _ |- _ => destruct H as (? & H)
             end;
      rewrite ?Ri; cbv beta iota; rewrite ?Rt, ?Rt'; cbv beta iota;
      try reflexivity;
      do 2 eexists; (split; [reflexivity | split; [discriminate | discriminate]]).
  - rewrite andb_false_r. cbn [negb orb]. unfold ret.
    do 2 eexists. split; [reflexivity | split; [discriminate | reflexivity]].
Qed.

Lemma mapM_parseOne_result arr : forall n,
  if forallb (entryReadable ToString) arr
  then exists rs n', mapM (MinimalTodo.parseOne uuid ToString) arr n = Some (rs, n')
                     /\ List.length (omap (fun x => x) rs)
                        = List.length (List.filter MinimalTodo.isObject arr)
  else mapM (MinimalTodo.parseOne uuid ToString) arr n = None.
Proof.
  induction arr as [| t arr IH]; intros n; cbn [mapM forallb].
  - unfold ret. now exists [], n.
  - unfold bind. pose proof (parseOne_result t n) as R.
    destruct (entryReadable ToString t); cbn [andb]; [| now rewrite R].
    destruct R as (r & n1 & -> & Hobj & Hnot).
    specialize (IH n1).
    destruct (forallb (entryReadable ToString) arr); [| now rewrite IH].
    destruct IH as (rs & n2 & -> & Hlen). unfold ret.
    exists (r :: rs), n2. split; [reflexivity |]. cbn [List.filter].
    destruct (MinimalTodo.isObject t).
    + destruct r as [r |]; [| now contradiction Hobj]. cbn. now rewrite Hlen.
    + rewrite (Hnot eq_refl). cbn. exact Hlen.
Qed.

(** [X24] The validated loader of the minimal task list gives a result
    exactly when the stored text is a list in which the id and the text
    of every object, where present, can be converted to texts; the
    result then has one task for each entry that is an object (or a
    list) and skips every other entry. When the text cannot be parsed,
    is no list, or a conversion throws, there is no result. The task
    list of the component never starts empty: without a stored text,
    without a result or with an empty result it starts with the two
    example tasks; and every task it starts with has one of the three
    priorities. *)
Theorem minimal_load (raw : string) (item : option string) (n : nat) :
  match JSON_parse raw with
  | Some (JArr arr) =>
      if forallb (entryReadable ToString) arr
      then exists ts,
             fst (MinimalTodo.safeParseTasks uuid JSON_parse ToString raw n) = Some ts
             /\ List.length ts = List.length (List.filter MinimalTodo.isObject arr)
      else fst (MinimalTodo.safeParseTasks uuid JSON_parse ToString raw n) = None
  | _ => fst (MinimalTodo.safeParseTasks uuid JSON_parse ToString raw n) = None
  end
  /\ fst (MinimalTodo.initialTasks uuid JSON_parse ToString item n) <> []
  /\ List.Forall (fun t => isTier (MinimalTodo.priority t) = true)
       (fst (MinimalTodo.initialTasks uuid JSON_parse ToString item n))
  /\ (Js.falsy_str item = true ->
      map MinimalTodo.text (fst (MinimalTodo.initialTasks uuid JSON_parse ToString item n))
      = ["Example task 1"; "Example task 2"]).
Proof.
  split; [| split; [| split]].
  - unfold MinimalTodo.safeParseTasks, MinimalTodo.safeParseTasks_try.
    destruct (JSON_parse raw) as [[| | b | x | s | arr | fields] |]; try reflexivity.
    unfold bind. pose proof (mapM_parseOne_result arr n) as M.
    destruct (forallb (entryReadable ToString) arr).
    + destruct M as (rs & n' & -> & Hlen). unfold ret. cbn [fst]. eauto.
    + now rewrite M.
  - unfold MinimalTodo.initialTasks.
    destruct (if Js.falsy_str item then (None, n) else _) as [[[| t ts] |] n1];
      cbn [fst]; discriminate.
  - unfold MinimalTodo.initialTasks.
    destruct (Js.falsy_str item).
    + cbn [fst]. repeat constructor.
    + destruct (MinimalTodo.safeParseTasks uuid JSON_parse ToString (default "" item) n)
        as [[[| t ts] |] n1] eqn:E; cbn [fst];
        [repeat constructor | | repeat constructor].
      unfold MinimalTodo.safeParseTasks in E.
      destruct (MinimalTodo.safeParseTasks_try uuid JSON_parse ToString (default "" item) n)
        as [[p k] |] eqn:E1; [| discriminate].
      injection E as Ep Ek. subst p k.
      unfold MinimalTodo.safeParseTasks_try in E1.
      destruct (JSON_parse (default "" item)) as [[| | b | x | s | arr | fields] |];
        try discriminate.
      unfold bind in E1.
      destruct (mapM (MinimalTodo.parseOne uuid ToString) arr n) as [[rs k] |] eqn:E2;
        [| discriminate].
      injection E1 as E1 _. rewrite <- E1.
      eapply mapM_parseOne_tier. exact E2.
  - intros F. unfold MinimalTodo.initialTasks. now rewrite F.
Qed.
End LoadFacts.

Example stored_uncallable_toString :
  forallb (entryReadable ToStringPlain) [JObj [("id", JObj [("toString", JNum (Fin 1))]);
                                               ("text", JStr "a")]] = false
  /\ MinimalTodo.safeParseTasks (fun _ => "fresh") (fun _ => Some storedBadId)
       ToStringPlain "stored" 0 = (None, 0%nat)
  /\ map MinimalTodo.text
       (fst (MinimalTodo.initialTasks (fun _ => "fresh") (fun _ => Some storedBadId)
               ToStringPlain (Some "stored") 0))
     = ["Example task 1"; "Example task 2"].
Proof. repeat split. Qed.

(** ** The minimal task list: order of the rows *)

Lemma extract_by_key {A} (key : A -> string) (items : list A) pid x :
  NoDup (map key items) ->
  List.find (fun t => String.eqb (key t) pid) items = Some x ->
  Permutation (x :: List.filter (fun t => negb (String.eqb (key t) pid)) items) items
  /\ forall y, In y items -> key y = pid -> y = x.
Proof.
  rewrite NoDup_ListNoDup.
  induction items as [| a l IH]; intros ND F; [discriminate |].
  inversion ND as [| ? ? Hnot ND']; subst.
  simpl in F. simpl.
  destruct (String.eqb (key a) pid) eqn:E.
  - injection F as <-. apply String.eqb_eq in E. split.
    + simpl. constructor. rewrite filter_all; [reflexivity |].
      apply List.Forall_forall. intros t Ht.
      apply negb_true_iff, String.eqb_neq. intros C. apply Hnot.
      rewrite E, <- C. now apply in_map.
    + intros y [-> | Hy] Ky; [reflexivity |].
      exfalso. apply Hnot. rewrite E, <- Ky. now apply in_map.
  - destruct (IH ND' F) as [P U]. split.
    + simpl. rewrite perm_swap. now constructor.
    + intros y [-> | Hy] Ky; [| now apply U].
      apply String.eqb_neq in E. contradiction.
Qed.

Lemma minimal_sorted (l : list MinimalTodo.Task) :
  List.Forall (fun t => isTier (MinimalTodo.priority t) = true) l ->
  StronglySorted (fun a b => minimalRank a <= minimalRank b)
    (js_sort MinimalTodo.sortByPriority l).
Proof.
  intros T.
  rewrite (js_sort_ext _ (fun a b => minimalRank a - minimalRank b)).
  - apply (js_sort_sorted _ (fun a b => minimalRank a <= minimalRank b)).
    + intros a b. lia.
    + intros a b. lia.
    + intros a b c. lia.
  - intros a b Ha Hb. rewrite List.Forall_forall in T.
    pose proof (T a Ha) as Ta. pose proof (T b Hb) as Tb.
    unfold MinimalTodo.sortByPriority, minimalRank, MinimalTodo.priorityRank, isTier in *.
    destruct (String.eqb (MinimalTodo.priority a) "high");
      destruct (String.eqb (MinimalTodo.priority a) "medium");
      destruct (String.eqb (MinimalTodo.priority a) "low"); try discriminate;
      destruct (String.eqb (MinimalTodo.priority b) "high");
      destruct (String.eqb (MinimalTodo.priority b) "medium");
      destruct (String.eqb (MinimalTodo.priority b) "low"); try discriminate; reflexivity.
Qed.

Lemma minimal_ordered_perm (ts : list MinimalTodo.Task) :
  Permutation (js_sort MinimalTodo.sortByPriority
                 (List.filter (fun t => negb (MinimalTodo.done t)) ts)
               ++ js_sort MinimalTodo.sortByPriority (List.filter MinimalTodo.done ts)) ts.
Proof.
  rewrite !js_sort_perm. apply filter_split_perm.
Qed.

(** [X25] The rows of the minimal task list, with distinct ids: they are a
    rearrangement of the tasks; a pinned task is the first row; and once
    editing has ended the open tasks come before the done ones, each part
    in the order high, medium, low (for priorities that are tiers). *)
Theorem minimal_rows (s : MinimalTodo.State) :
  NoDup (map MinimalTodo.id (MinimalTodo.tasks s)) ->
  List.Forall (fun t => isTier (MinimalTodo.priority t) = true) (MinimalTodo.tasks s) ->
  Permutation (MinimalTodo.baseOrdered s) (MinimalTodo.tasks s)
  /\ (forall x, In x (MinimalTodo.tasks s) -> MinimalTodo.id x <> "" ->
        MinimalTodo.pinnedId s = Some (MinimalTodo.id x) ->
        List.head (MinimalTodo.baseOrdered s) = Some x)
  /\ exists open closed,
       MinimalTodo.baseOrdered (MinimalTodo.endEditing None s) = open ++ closed
       /\ List.Forall (fun t => MinimalTodo.done t = false) open
       /\ List.Forall (fun t => MinimalTodo.done t = true) closed
       /\ StronglySorted (fun a b => minimalRank a <= minimalRank b) open
       /\ StronglySorted (fun a b => minimalRank a <= minimalRank b) closed.
Proof.
  intros ND T.
  pose proof (minimal_ordered_perm (MinimalTodo.tasks s)) as P.
  set (ordered := js_sort MinimalTodo.sortByPriority
                    (List.filter (fun t => negb (MinimalTodo.done t)) (MinimalTodo.tasks s))
                  ++ js_sort MinimalTodo.sortByPriority
                       (List.filter MinimalTodo.done (MinimalTodo.tasks s))) in *.
  assert (NDo : NoDup (map MinimalTodo.id ordered)).
  { eapply NoDup_Permutation_proper; [| exact ND]. now apply Permutation_map. }
  split; [| split].
  - unfold MinimalTodo.baseOrdered. fold ordered.
    destruct (negb (Js.falsy_str (MinimalTodo.pinnedId s))); [| exact P].
    destruct (List.find _ ordered) as [hit |] eqn:F; [| exact P].
    destruct (extract_by_key MinimalTodo.id ordered _ hit NDo F) as [Pe _].
    now rewrite Pe.
  - intros x Hx Hne Hp. unfold MinimalTodo.baseOrdered. fold ordered. rewrite Hp.
    cbn [Js.falsy_str]. apply String.eqb_neq in Hne. rewrite Hne. cbn [negb].
    change (default "" (Some (MinimalTodo.id x))) with (MinimalTodo.id x).
    assert (Hxo : In x ordered) by (eapply Permutation_in; [symmetry; exact P | exact Hx]).
    destruct (List.find _ ordered) as [hit |] eqn:F.
    + destruct (extract_by_key MinimalTodo.id ordered _ hit NDo F) as [_ U].
      cbn [List.head]. f_equal. symmetry. now apply U.
    + exfalso. eapply find_none in F; [| exact Hxo]. cbn in F.
      now rewrite String.eqb_refl in F.
  - exists (js_sort MinimalTodo.sortByPriority
              (List.filter (fun t => negb (MinimalTodo.done t)) (MinimalTodo.tasks s))),
           (js_sort MinimalTodo.sortByPriority
              (List.filter MinimalTodo.done (MinimalTodo.tasks s))).
    split; [| split; [| split; [| split]]].
    + unfold MinimalTodo.baseOrdered, MinimalTodo.endEditing.
      cbn [MinimalTodo.tasks MinimalTodo.pinnedId Js.falsy_str andb].
      destruct (Js.falsy_str (MinimalTodo.pinnedId s)) eqn:F; cbn [negb Js.falsy_str];
        rewrite ?F; reflexivity.
    + apply List.Forall_forall. intros t Ht. apply js_sort_In, filter_In in Ht as [_ Ht].
      now apply negb_true_iff in Ht.
    + apply List.Forall_forall. intros t Ht. now apply js_sort_In, filter_In in Ht as [_ Ht].
    + apply minimal_sorted. apply List.Forall_forall. intros t Ht.
      apply filter_In in Ht as [Ht _]. rewrite List.Forall_forall in T. now apply T.
    + apply minimal_sorted. apply List.Forall_forall. intros t Ht.
      apply filter_In in Ht as [Ht _]. rewrite List.Forall_forall in T. now apply T.
Qed.

Lemma minimal_rows_witness :
  let s := {| MinimalTodo.tasks := [sampleMini "a" true "high"; sampleMini "b" false "low";
                                    sampleMini "c" false "medium"];
              MinimalTodo.editingId := Some "a"; MinimalTodo.pinnedId := Some "a" |} in
  NoDup (map MinimalTodo.id (MinimalTodo.tasks s))
  /\ List.Forall (fun t => isTier (MinimalTodo.priority t) = true) (MinimalTodo.tasks s)
  /\ Permutation (MinimalTodo.baseOrdered s) (MinimalTodo.tasks s)
  /\ map MinimalTodo.id (MinimalTodo.baseOrdered s) = ["a"; "c"; "b"]
  /\ map MinimalTodo.id (MinimalTodo.baseOrdered (MinimalTodo.endEditing None s))
     = ["c"; "b"; "a"].
Proof.
  cbv zeta.
  set (s := {| MinimalTodo.tasks := [sampleMini "a" true "high"; sampleMini "b" false "low";
                                     sampleMini "c" false "medium"];
               MinimalTodo.editingId := Some "a"; MinimalTodo.pinnedId := Some "a" |}).
  assert (ND : NoDup (map MinimalTodo.id (MinimalTodo.tasks s))).
  { apply NoDup_ListNoDup. simpl. repeat constructor; simpl; intuition discriminate. }
  assert (T : List.Forall (fun t => isTier (MinimalTodo.priority t) = true)
                (MinimalTodo.tasks s)).
  { simpl. repeat constructor. }
  split; [exact ND |]. split; [exact T |].
  split; [exact (proj1 (minimal_rows s ND T)) |].
  split; reflexivity.
Defined.

(** ** The TodoList of DayCard.tsx: staging moves the row at once *)

Lemma Forall2_map_self_in {A B} (R : A -> B -> Prop) (f : A -> B) l :
  (forall x, In x l -> R x (f x)) -> Forall2 R l (map f l).
Proof.
  induction l as [| a l IH]; intros H; simpl; constructor.
  - apply H. now left.
  - apply IH. intros x Hx. apply H. now right.
Qed.

(** [X26] In the TodoList of DayCard.tsx a due-date change writes only the
    two staged fields of the task and pins it, but the task is shown at
    once under the group of the chosen date, because the groups are
    formed from the staged date. Ending the edit commits the staged date
    with the key of that date, clears the staged fields and the pin, and
    moves no task to another group. *)
Theorem daycard_staging_regroups (DateParse : string -> option Date)
    (s : DayCardTodo.State) (tid : string) (now : Date) :
  tid <> "" ->
  List.Forall (fun o =>
      let s1 := DayCardTodo.stageDueFor tid (key o) now s in
      let s2 := DayCardTodo.endRowEditing None now s1 in
      DayCardTodo.pinnedNewIdRef s1 = Some tid
      /\ Forall2 (fun x x1 =>
           (id x <> tid -> x1 = x)
           /\ (id x = tid ->
               x1 = stagePendingOnly o x
               /\ DayCardTodo.rowGroup DateParse now x1
                  = computeGroupLabelForISO DateParse (Some (TodoList.iso o)) now))
         (DayCardTodo.tasks s) (DayCardTodo.tasks s1)
      /\ DayCardTodo.pinnedNewIdRef s2 = None
      /\ Forall2 (fun x1 x2 =>
           DayCardTodo.rowGroup DateParse now x2 = DayCardTodo.rowGroup DateParse now x1
           /\ (id x1 <> tid -> x2 = x1)
           /\ (id x1 = tid ->
               dueISO x2 = Some (TodoList.iso o)
               /\ dueKey x2 = Some (committedKey now o)
               /\ pendingDueKey x2 = None /\ pendingDueISO x2 = None
               /\ dueLabel x2 = dueLabel x1 /\ sameOutsideDue x1 x2))
         (DayCardTodo.tasks s1) (DayCardTodo.tasks s2))
    (buildDueOptions now).
Proof.
  intros Hne. apply String.eqb_neq in Hne.
  pose proof (computeKeyForISO_option now) as CK.
  rewrite List.Forall_forall in *. intros o Ho. specialize (CK o Ho).
  cbv zeta. unfold DayCardTodo.stageDueFor.
  rewrite (findOption_key now o Ho).
  split; [reflexivity |]. split.
  { cbn [DayCardTodo.tasks]. apply Forall2_map_self. intros x.
    destruct (String.eqb (id x) tid) eqn:E; cbn [negb].
    - apply String.eqb_eq in E. split; [intros C; now contradiction C |].
      intros _. split; [reflexivity |].
      unfold DayCardTodo.rowGroup, DayCardTodo.effectiveISO. reflexivity.
    - apply String.eqb_neq in E. split; [reflexivity | intros C; now contradiction E]. }
  unfold DayCardTodo.endRowEditing.
  cbn [DayCardTodo.pinnedNewIdRef DayCardTodo.tasks Js.falsy_str].
  rewrite Hne. cbn [negb andb DayCardTodo.pinnedNewIdRef DayCardTodo.tasks].
  split; [reflexivity |].
  change (default "" (Some tid)) with tid.
  apply Forall2_map_self_in. intros x1 Hin.
  destruct (String.eqb (id x1) tid) eqn:E; cbn [negb].
  - apply String.eqb_eq in E.
    assert (P : pendingDueISO x1 = Some (TodoList.iso o)).
    { apply in_map_iff in Hin as (x & Hx & _).
      destruct (String.eqb (id x) tid) eqn:Ex; cbn [negb] in Hx.
      - now subst x1.
      - subst x1. apply String.eqb_neq in Ex. contradiction. }
    unfold DayCardTodo.rowGroup, DayCardTodo.commitPending, DayCardTodo.effectiveISO.
    cbn [pendingDueISO dueISO dueKey pendingDueKey dueLabel]. rewrite P, CK.
    split; [reflexivity |]. split; [intros C; now contradiction C |].
    intros _. repeat split; reflexivity.
  - apply String.eqb_neq in E. split; [reflexivity |].
    split; [reflexivity | intros C; now contradiction E].
Qed.

Lemma daycard_staging_regroups_witness :
  let t := sampleTask "a" false "high" (Some "2024-01-03") in
  let s := {| DayCardTodo.tasks := [t]; DayCardTodo.editingId := Some "a";
              DayCardTodo.pinnedNewIdRef := None |} in
  let s1 := DayCardTodo.stageDueFor "a" "tomorrow" wednesday_2024_01_03 s in
  "a" <> ""
  /\ map (DayCardTodo.rowGroup (fun _ => None) wednesday_2024_01_03) (DayCardTodo.tasks s)
     = ["Today"]
  /\ map (DayCardTodo.rowGroup (fun _ => None) wednesday_2024_01_03) (DayCardTodo.tasks s1)
     = ["Tomorrow"]
  /\ map dueISO (DayCardTodo.tasks s1) = [Some "2024-01-03"]
  /\ DayCardTodo.pinnedNewIdRef
       (DayCardTodo.endRowEditing None wednesday_2024_01_03 s1) = None.
Proof.
  cbv zeta.
  assert (N : "a" <> "") by discriminate.
  pose proof (daycard_staging_regroups (fun _ => None)
                {| DayCardTodo.tasks := [sampleTask "a" false "high" (Some "2024-01-03")];
                   DayCardTodo.editingId := Some "a";
                   DayCardTodo.pinnedNewIdRef := None |} "a" wednesday_2024_01_03 N) as F.
  rewrite List.Forall_forall in F.
  specialize (F (tomorrowOption (addDays (startOfDay wednesday_2024_01_03) 1))).
  assert (I : In (tomorrowOption (addDays (startOfDay wednesday_2024_01_03) 1))
                (buildDueOptions wednesday_2024_01_03)).
  { rewrite buildDueOptions_optionsSpec. right. now left. }
  destruct (F I) as (_ & _ & P2 & _).
  split; [exact N |]. split; [vm_compute; reflexivity |].
  split; [vm_compute; reflexivity |]. split; [vm_compute; reflexivity |].
  exact P2.
Defined.

(** ** Dates as texts *)

(** [X27] The text that [toISODate] writes identifies the day, and for
    years of four digits the order of the texts is the order of the days,
    which is what the clean-up relies on when it compares due dates as
    texts. Beyond the year 9999 this fails: the first day of the year
    10000 sorts before the last day of 9999. *)
Theorem iso_text_order :
  (forall d1 d2, toISODate d1 = toISODate d2 <-> dayNumber d1 = dayNumber d2)
  /\ (forall a b, canonicalDay a -> canonicalDay b ->
        String.ltb (isoOfDay a) (isoOfDay b) = (a <? b)
        /\ String.leb (isoOfDay a) (isoOfDay b) = (a <=? b)
        /\ String.eqb (isoOfDay a) (isoOfDay b) = (a =? b))
  /\ lastDay4 < lastDay4 + 1
  /\ String.ltb (isoOfDay (lastDay4 + 1)) (isoOfDay lastDay4) = true.
Proof.
  split; [| split; [| split]].
  - intros d1 d2. split; [apply toISODate_inj |].
    intros E. rewrite !toISODate_day. now rewrite E.
  - intros a b Ha Hb. split; [| split].
    + unfold String.ltb. rewrite (isoOfDay_compare a b Ha Hb).
      unfold Z.ltb. now destruct (a ?= b).
    + now apply isoOfDay_leb.
    + unfold isoOfDay. rewrite toISODate_eqb. reflexivity.
  - lia.
  - vm_compute. reflexivity.
Qed.

Lemma minimal_cycle_three p :
  isTier p = true ->
  (let next q := if String.eqb q "high" then "medium"
                 else if String.eqb q "medium" then "low" else "high" in
   next (next (next p))) = p.
Proof.
  unfold isTier. intros H. cbv zeta.
  apply orb_true_iff in H as [H | H]; [apply orb_true_iff in H as [H | H] |];
    apply String.eqb_eq in H; subst; reflexivity.
Qed.

(** [X28] In the minimal task list, cycling the priority of a task goes
    high, medium, low and back to high; it always yields a tier; three
    cycles give back the task list when the priorities are tiers; and one
    cycle undoes the step of [nextPriority], the cycle of the other task
    list, which runs the other way round. *)
Theorem minimal_priority_cycle (tid : string) (s : MinimalTodo.State) :
  List.Forall (fun t => isTier (MinimalTodo.priority t) = true) (MinimalTodo.tasks s) ->
  MinimalTodo.cyclePriority tid (MinimalTodo.cyclePriority tid (MinimalTodo.cyclePriority tid s))
  = s
  /\ List.Forall (fun t => isTier (MinimalTodo.priority t) = true)
       (MinimalTodo.tasks (MinimalTodo.cyclePriority tid s))
  /\ Forall2 (fun x x1 =>
        MinimalTodo.id x1 = MinimalTodo.id x /\ MinimalTodo.text x1 = MinimalTodo.text x
        /\ MinimalTodo.done x1 = MinimalTodo.done x
        /\ (MinimalTodo.id x <> tid -> x1 = x)
        /\ (MinimalTodo.id x = tid ->
            nextPriority (MinimalTodo.priority x1) = MinimalTodo.priority x
            /\ (MinimalTodo.priority x = "high" -> MinimalTodo.priority x1 = "medium")
            /\ (MinimalTodo.priority x = "medium" -> MinimalTodo.priority x1 = "low")
            /\ (MinimalTodo.priority x = "low" -> MinimalTodo.priority x1 = "high")))
       (MinimalTodo.tasks s) (MinimalTodo.tasks (MinimalTodo.cyclePriority tid s)).
Proof.
  intros T. destruct s as [ts e p]. unfold MinimalTodo.cyclePriority, MinimalTodo.withTasks.
  cbn [MinimalTodo.tasks MinimalTodo.editingId MinimalTodo.pinnedId] in *.
  split; [| split].
  - f_equal. rewrite !map_map. rewrite <- (map_id ts) at 2.
    apply map_ext_in. intros t Ht.
    rewrite List.Forall_forall in T. specialize (T t Ht).
    destruct (String.eqb (MinimalTodo.id t) tid) eqn:E;
      repeat (cbn [negb MinimalTodo.id]; rewrite ?E); [| reflexivity].
    destruct t as [i x d q]. cbn [MinimalTodo.priority MinimalTodo.id MinimalTodo.text
                               MinimalTodo.done] in *.
    f_equal. exact (minimal_cycle_three q T).
  - apply List.Forall_map. eapply List.Forall_impl; [| exact T].
    intros t Ht. destruct (String.eqb (MinimalTodo.id t) tid); cbn [negb]; [| exact Ht].
    cbn [MinimalTodo.priority].
    destruct (String.eqb (MinimalTodo.priority t) "high"); [reflexivity |].
    now destruct (String.eqb (MinimalTodo.priority t) "medium").
  - apply Forall2_map_self_in. intros x Hx.
    rewrite List.Forall_forall in T. specialize (T x Hx).
    destruct (String.eqb (MinimalTodo.id x) tid) eqn:E; cbn [negb].
    + apply String.eqb_eq in E. cbn [MinimalTodo.id MinimalTodo.text MinimalTodo.done
                                     MinimalTodo.priority].
      do 3 (split; [reflexivity |]). split; [intros C; now contradiction C |].
      intros _. unfold isTier in T.
      apply orb_true_iff in T as [T | T]; [apply orb_true_iff in T as [T | T] |];
        apply String.eqb_eq in T; rewrite T; repeat split; intros; try reflexivity;
        discriminate.
    + apply String.eqb_neq in E. do 3 (split; [reflexivity |]).
      split; [reflexivity | intros C; now contradiction E].
Qed.

Lemma minimal_priority_cycle_witness :
  let s := {| MinimalTodo.tasks := [sampleMini "a" false "high"];
              MinimalTodo.editingId := None; MinimalTodo.pinnedId := None |} in
  List.Forall (fun t => isTier (MinimalTodo.priority t) = true) (MinimalTodo.tasks s)
  /\ MinimalTodo.cyclePriority "a"
       (MinimalTodo.cyclePriority "a" (MinimalTodo.cyclePriority "a" s)) = s.
Proof.
  cbv zeta.
  assert (T : List.Forall (fun t => isTier (MinimalTodo.priority t) = true)
                (MinimalTodo.tasks {| MinimalTodo.tasks := [sampleMini "a" false "high"];
                                      MinimalTodo.editingId := None;
                                      MinimalTodo.pinnedId := None |})).
  { simpl. repeat constructor. }
  split; [exact T |].
  exact (proj1 (minimal_priority_cycle "a" _ T)).
Defined.
